(** * Minesweeper: the grid model, mine placement, flood-fill reveal and
      input dispatch of [src/main.py], embedded and verified.

    The Python program keeps one mutable [Game] object whose [tilemap] is a
    list of rows; a row holds [None] on the border ring and a [Tile] object
    elsewhere.  [init_tilemap] creates one fresh [Tile] per cell and no code
    ever stores a tile into the tilemap afterwards, so a tile object is
    identified by the cell that holds it: a reference to a tile is modelled
    as the (row, column) pair of that cell, reading a field goes through the
    current tilemap ([deref]) and assigning a field rewrites that cell
    ([upd]).  Integers are [Z]; exceptions and the bounded call stack are
    the constructors of [result]. *)

From Stdlib Require Import ZArith Lia Bool.
From Stdlib Require String DecimalString.
From stdpp Require Import base tactics option numbers relations list.

Local Open Scope Z_scope.

(** ** Data model *)

Module Vec2.
Record t : Type := mk { x : Z; y : Z }.

Definition xy (v : t) : Z * Z := (x v, y v).
Definition add (a b : t) : t := mk (x a + x b) (y a + y b).
Definition sub (a b : t) : t := mk (x a - x b) (y a - y b).
Definition mul (a : t) (k : Z) : t := mk (x a * k) (y a * k).
End Vec2.

#[global] Instance Vec2_eq_dec : EqDecision Vec2.t.
Proof. solve_decision. Defined.

Module Tile.
Record t : Type := mk {
  pos : Vec2.t;
  isMine : bool;
  flagged : bool;
  isRevealed : bool;
  mines : Z
}.

(** Field assignments [tile.f = v]. *)
Definition set_isMine (b : bool) (s : t) : t :=
  mk (pos s) b (flagged s) (isRevealed s) (mines s).
Definition set_flagged (b : bool) (s : t) : t :=
  mk (pos s) (isMine s) b (isRevealed s) (mines s).
Definition set_isRevealed (b : bool) (s : t) : t :=
  mk (pos s) (isMine s) (flagged s) b (mines s).
Definition set_mines (n : Z) (s : t) : t :=
  mk (pos s) (isMine s) (flagged s) (isRevealed s) n.
End Tile.

(** A row entry is [None] (border) or a tile. *)
Abbreviation Grid := (list (list (option Tile.t))).

(** The fields of [Game] that the game logic reads or writes. *)
Record Game : Type := mkGame {
  tilemap : Grid;
  tilesize : Z;
  _hTiles : Z;
  _vTiles : Z;
  _running : bool;
  __minesSet : bool
}.

Definition with_tilemap (g : Grid) (s : Game) : Game :=
  mkGame g (tilesize s) (_hTiles s) (_vTiles s) (_running s) (__minesSet s).
Definition with_running (b : bool) (s : Game) : Game :=
  mkGame (tilemap s) (tilesize s) (_hTiles s) (_vTiles s) b (__minesSet s).
Definition with_minesSet (b : bool) (s : Game) : Game :=
  mkGame (tilemap s) (tilesize s) (_hTiles s) (_vTiles s) (_running s) b.

(** ** Outcomes of a call *)

Inductive exn : Type := IndexError | AttributeError.

(** [Ok a] is a normal return, [Raise e] an uncaught exception and
    [RecursionError] the exhaustion of the call-depth budget given to
    [reveal_tiles]. *)
Inductive result (A : Type) : Type :=
  | Ok (a : A)
  | Raise (e : exn)
  | RecursionError.
Arguments Ok {A} a.
Arguments Raise {A} e.
Arguments RecursionError {A}.

Definition bind {A B} (m : result A) (k : A -> result B) : result B :=
  match m with
  | Ok a => k a
  | Raise e => Raise e
  | RecursionError => RecursionError
  end.

Notation "'let*' x ':=' m 'in' k" := (bind m (fun x => k))
  (at level 10, x pattern, m at level 200, k at level 200).

(** [for x in l: a = f(a, x)] with exceptions propagating. *)
Fixpoint foldM {A B} (f : A -> B -> result A) (a : A) (l : list B) : result A :=
  match l with
  | [] => Ok a
  | b :: l' => let* a' := f a b in foldM f a' l'
  end.

(** Evaluating the elements of a list display from left to right. *)
Fixpoint mapM {A B} (f : A -> result B) (l : list A) : result (list B) :=
  match l with
  | [] => Ok []
  | a :: l' => let* b := f a in let* bs := mapM f l' in Ok (b :: bs)
  end.

(** [range(a, b)]. *)
Definition range (a b : Z) : list Z := seqZ a (b - a).

(** ** Indexing and tile references *)

(** The index Python resolves [l[i]] to: negative indices count from the
    end, anything outside [-len, len) raises [IndexError]. *)
Definition norm_index (len : nat) (i : Z) : result nat :=
  if (0 <=? i) && (i <? Z.of_nat len) then Ok (Z.to_nat i)
  else if (i <? 0) && (- Z.of_nat len <=? i) then Ok (Z.to_nat (Z.of_nat len + i))
  else Raise IndexError.

Definition ref : Type := (nat * nat)%type.

(** [self.tilemap[yy][xx]]: the cell reached and what it holds. *)
Definition locate (g : Grid) (yy xx : Z) : result (ref * option Tile.t) :=
  let* r := norm_index (length g) yy in
  match g !! r with
  | None => Raise IndexError
  | Some row =>
      let* c := norm_index (length row) xx in
      match row !! c with
      | None => Raise IndexError
      | Some o => Ok ((r, c), o)
      end
  end.

(** Reading a tile through a reference. *)
Definition deref (g : Grid) (rc : ref) : option Tile.t :=
  match g !! rc.1 with
  | Some row => match row !! rc.2 with Some o => o | None => None end
  | None => None
  end.

(** Assigning to a field of the tile behind a reference. *)
Definition upd (g : Grid) (rc : ref) (f : Tile.t -> Tile.t) : Grid :=
  alter (alter (fmap f) rc.2) rc.1 g.

(** Attribute access on a value that may be [None]. *)
Definition attr (o : option Tile.t) : result Tile.t :=
  match o with
  | Some t => Ok t
  | None => Raise AttributeError
  end.

(** ** [Game.init_tilemap] *)

Definition init_row (hTiles vTiles yy : Z) : list (option Tile.t) :=
  if (yy =? 0) || (yy =? vTiles - 1) then
    (fun _ => None) <$> range 0 hTiles
  else
    (fun xx =>
       if (xx =? 0) || (xx =? hTiles - 1) then None
       else Some (Tile.mk (Vec2.mk xx yy) false false false 0))
    <$> range 0 hTiles.

Definition init_tilemap (hTiles vTiles : Z) : Grid :=
  init_row hTiles vTiles <$> range 0 vTiles.

(** [Game.__init__], without the display and the font. *)
Definition new_game (horizontalTiles verticalTiles : Z) : Game :=
  mkGame (init_tilemap horizontalTiles verticalTiles) 32
         horizontalTiles verticalTiles true false.

(** ** [Game.get_neighbour_tiles] *)

(** The eight (dy, dx) offsets in the order of the list display. *)
Definition offsets : list (Z * Z) :=
  [(-1, -1); (-1, 0); (-1, 1); (0, -1); (0, 1); (1, -1); (1, 0); (1, 1)].

Definition live (co : ref * option Tile.t) : option ref :=
  match co.2 with
  | Some _ => Some co.1
  | None => None
  end.

Definition get_neighbour_tiles (g : Grid) (pos : Vec2.t) : result (list ref) :=
  let* cells := mapM (fun d => locate g (Vec2.y pos + d.1) (Vec2.x pos + d.2)) offsets in
  Ok (omap live cells).

(** ** [Game.set_mines] *)

(** The random source: the sequence of values the coming calls of
    [random.randint(0, 6)] return. *)
Definition RNG : Type := nat -> Z.

Definition randint (s : RNG) : Z * RNG := (s 0%nat, fun n => s (S n)).

(** [count] after the loop over [neighbours] (lines 117-121). *)
Definition count_mines (g : Grid) (nbs : list ref) : Z :=
  fold_left
    (fun count r =>
       match deref g r with
       | Some t => if Tile.isMine t then count + 1 else count
       | None => count
       end)
    nbs 0.

Definition gen_mine (yy : Z) (acc : Grid * RNG) (xx : Z) : result (Grid * RNG) :=
  let '(v, rng') := randint acc.2 in
  if v =? 0 then
    let* (r, o) := locate acc.1 yy xx in
    let* _ := attr o in
    Ok (upd acc.1 r (Tile.set_isMine true), rng')
  else Ok (acc.1, rng').

Definition count_tile (yy : Z) (g : Grid) (xx : Z) : result Grid :=
  let* (r, o) := locate g yy xx in
  let* tile := attr o in
  let* neighbours := get_neighbour_tiles g (Tile.pos tile) in
  Ok (upd g r (Tile.set_mines (count_mines g neighbours))).

Definition set_mines (rng : RNG) (s : Game) (start_pos : Vec2.t)
  : result (Game * RNG) :=
  let s := with_minesSet true s in
  (* Generate mines *)
  let* (g1, rng1) :=
    foldM (fun acc yy => foldM (gen_mine yy) acc (range 1 (_hTiles s - 1)))
          (tilemap s, rng) (range 1 (_vTiles s - 1)) in
  let* (r0, o0) := locate g1 (Vec2.y start_pos) (Vec2.x start_pos) in
  let* _ := attr o0 in
  let g2 := upd g1 r0 (Tile.set_isMine false) in
  let* neighbours := get_neighbour_tiles g2 start_pos in
  let g3 := fold_left (fun g r => upd g r (Tile.set_isMine false)) neighbours g2 in
  (* Get amount of mines attached to tile *)
  let* g4 :=
    foldM (fun g yy => foldM (count_tile yy) g (range 1 (_hTiles s - 1)))
          g3 (range 1 (_vTiles s - 1)) in
  Ok (with_tilemap g4 s, rng1).

(** ** [Game.reveal_tiles] *)

(** What a run of [reveal_tiles] did besides changing the grid: the
    positions it called itself on (line 131) and the positions of the tiles
    whose [isRevealed] it assigned (lines 130 and 132), both in order. *)
Record Log : Type := mkLog { calls : list Vec2.t; writes : list Vec2.t }.

Definition log_app (a b : Log) : Log :=
  mkLog (calls a ++ calls b) (writes a ++ writes b).

(** The loop over [neighbours]; [rec] is the recursive call. *)
Fixpoint reveal_loop (rec : Grid -> Vec2.t -> result (Grid * Log))
    (neighbours : list ref) (g : Grid) : result (Grid * Log) :=
  match neighbours with
  | [] => Ok (g, mkLog [] [])
  | r :: rest =>
      let* neighbour := attr (deref g r) in
      let p := Tile.pos neighbour in
      if negb (Tile.isRevealed neighbour) && (Tile.mines neighbour =? 0) then
        let g1 := upd g r (Tile.set_isRevealed true) in
        let* (g2, l2) := rec g1 p in
        let g3 := upd g2 r (Tile.set_isRevealed true) in
        let* (g4, l4) := reveal_loop rec rest g3 in
        Ok (g4, log_app (mkLog [p] [p]) (log_app l2 (log_app (mkLog [] [p]) l4)))
      else
        let g3 := upd g r (Tile.set_isRevealed true) in
        let* (g4, l4) := reveal_loop rec rest g3 in
        Ok (g4, log_app (mkLog [] [p]) l4)
  end.

(** [depth] is the number of nested activations of [reveal_tiles] the call
    stack still has room for. *)
Fixpoint reveal_tiles (depth : nat) (g : Grid) (pos : Vec2.t)
  : result (Grid * Log) :=
  match depth with
  | O => RecursionError
  | S depth' =>
      let* (_, o) := locate g (Vec2.y pos) (Vec2.x pos) in
      let* tile := attr o in
      if Tile.mines tile =? 0 then
        let* neighbours := get_neighbour_tiles g pos in
        reveal_loop (reveal_tiles depth') neighbours g
      else Ok (g, mkLog [] [])
  end.

(** ** [Game.handle_events] *)

Inductive Event : Type :=
  | QUIT
  | MOUSEBUTTONDOWN (button : Z) (mPos : Z * Z)
  | OtherEvent.

(** Lines 141-143: pointer pixels to grid coordinates.  [//] is floor
    division, as [Z.div] is for the non-zero [tilesize] (32 throughout). *)
Definition mouse_to_grid (s : Game) (mPos : Z * Z) : Vec2.t :=
  Vec2.mk ((mPos.1 + tilesize s) `div` tilesize s)
          ((mPos.2 + tilesize s) `div` tilesize s).

(** The body of the loop for one event; [mPos] is what
    [pg.mouse.get_pos()] returns while the event is handled. *)
Definition handle_event (depth : nat) (acc : Game * RNG) (ev : Event)
  : result (Game * RNG) :=
  let '(s, rng) := acc in
  match ev with
  | QUIT => Ok (with_running false s, rng)
  | OtherEvent => Ok (s, rng)
  | MOUSEBUTTONDOWN button mPos =>
      let pos := mouse_to_grid s mPos in
      let* (r, o) := locate (tilemap s) (Vec2.y pos) (Vec2.x pos) in
      if button =? 1 then
        let* tile := attr o in
        if Tile.flagged tile then Ok (s, rng)
        else if Tile.isRevealed tile then Ok (s, rng)
        else
          let s1 := if Tile.isMine tile then with_running false s else s in
          let* (s2, rng2) :=
            (if negb (__minesSet s1) then set_mines rng s1 pos else Ok (s1, rng)) in
          let g3 := upd (tilemap s2) r (Tile.set_isRevealed true) in
          let* (g4, _) := reveal_tiles depth g3 pos in
          Ok (with_tilemap g4 s2, rng2)
      else if button =? 3 then
        let* tile := attr o in
        Ok (with_tilemap (upd (tilemap s) r (Tile.set_flagged (negb (Tile.flagged tile)))) s,
            rng)
      else Ok (s, rng)
  end.

Definition handle_events (depth : nat) (acc : Game * RNG) (events : list Event)
  : result (Game * RNG) :=
  foldM (handle_event depth) acc events.

(** ** [Tile.color] *)

(** [v % 2] is truthy when it is not 0; [%] with a positive modulus is
    [Z.modulo]. *)
Definition color (t : Tile.t) : Z * Z * Z :=
  let v := Vec2.x (Tile.pos t) + Vec2.y (Tile.pos t) in
  if negb (Tile.isRevealed t) then
    if negb (v `mod` 2 =? 0) then (179, 214, 101) else (172, 208, 94)
  else
    if negb (v `mod` 2 =? 0) then (223, 195, 163) else (203, 179, 152).

(** ** [Game.run] and [main] *)

(** What one pass of the loop of [run] sends to the display, in order. *)
Inductive DrawCmd : Type :=
  | Fill (c : Z * Z * Z)
  | Rect (c : Z * Z * Z) (rect : Z * Z * Z * Z)
  | Text (text : String.string) (c : Z * Z * Z) (dest : Z * Z)
  | Update.

(** [str(n)] for an integer. *)
Definition str (n : Z) : String.string :=
  DecimalString.NilZero.string_of_int (Z.to_int n).

(** [Game.draw_text]: the text is rendered in white and blitted at [pos.xy]. *)
Definition draw_text (text : Z) (pos : Vec2.t) : list DrawCmd :=
  [Text (str text) (255, 255, 255) (Vec2.xy pos)].

(** Line 171: where a tile is drawn. *)
Definition draw_pos (s : Game) (t : Tile.t) : Z * Z :=
  Vec2.xy (Vec2.sub (Vec2.mul (Tile.pos t) (tilesize s))
                    (Vec2.mk (tilesize s) (tilesize s))).

(** Lines 170-177 for one entry of a row. *)
Definition draw_cell (s : Game) (o : option Tile.t) : list DrawCmd :=
  match o with
  | None => []
  | Some t =>
      let pos := draw_pos s t in
      [Rect (color t) (pos.1, pos.2, tilesize s, tilesize s)]
      ++ (if Tile.flagged t then
            [Rect (255, 0, 0)
                  ((Vec2.xy (Vec2.add (Vec2.mk pos.1 pos.2) (Vec2.mk 8 8))).1,
                   (Vec2.xy (Vec2.add (Vec2.mk pos.1 pos.2) (Vec2.mk 8 8))).2,
                   tilesize s - 16, tilesize s - 16)]
          else [])
      ++ (if negb (Tile.isRevealed t) || (Tile.mines t =? 0) then []
          else draw_text (Tile.mines t) (Vec2.add (Vec2.mk pos.1 pos.2) (Vec2.mk 8 0)))
  end.

(** Lines 165-179: clear, draw every tile row by row, update. *)
Definition draw_frame (s : Game) : list DrawCmd :=
  [Fill (18, 18, 18)]
  ++ (tilemap s ≫= fun row => row ≫= draw_cell s)
  ++ [Update].

(** [Game.run]: [frames] holds, for each pass of the loop, the events
    [pg.event.get()] returns in it; the result is the state when the loop
    ends or the given passes are used up, with what each pass drew. *)
Fixpoint run (depth : nat) (acc : Game * RNG) (frames : list (list Event))
  : result (Game * RNG * list (list DrawCmd)) :=
  match frames with
  | [] => Ok (acc, [])
  | events :: rest =>
      if _running acc.1 then
        let* acc' := handle_events depth acc events in
        let* (final, drawn) := run depth acc' rest in
        Ok (final, draw_frame acc'.1 :: drawn)
      else Ok (acc, [])
  end.

(** [main]: a 48 by 32 game. *)
Definition main (depth : nat) (rng : RNG) (frames : list (list Event))
  : result (Game * RNG * list (list DrawCmd)) :=
  run depth (new_game 48 32, rng) frames.

(** * Vocabulary of the specification *)

(** ** Well-formed grids and coordinates *)

(** Column [c], row [r] lies on the outer ring of a [w] by [h] grid. *)
Definition border (w h c r : Z) : bool :=
  (r =? 0) || (r =? h - 1) || (c =? 0) || (c =? w - 1).

(** [p] is the coordinate of a playable cell, inside the ring. *)
Definition interior (w h : Z) (p : Vec2.t) : Prop :=
  1 <= Vec2.x p <= w - 2 /\ 1 <= Vec2.y p <= h - 2.

(** The shape [init_tilemap] builds: [h] rows of [w] entries, [None] on the
    ring and elsewhere a tile that carries its own coordinates. *)
Definition wf (w h : Z) (g : Grid) : Prop :=
  length g = Z.to_nat h /\
  forall (r : nat) (row : list (option Tile.t)), g !! r = Some row ->
    length row = Z.to_nat w /\
    forall (c : nat) (o : option Tile.t), row !! c = Some o ->
      if border w h (Z.of_nat c) (Z.of_nat r) then o = None
      else exists t, o = Some t /\ Tile.pos t = Vec2.mk (Z.of_nat c) (Z.of_nat r).

(** The reference of the tile stored at grid coordinates [p]. *)
Definition ref_of (p : Vec2.t) : ref := (Z.to_nat (Vec2.y p), Z.to_nat (Vec2.x p)).

(** The tile stored at grid coordinates [p], if any. *)
Definition tile_at (g : Grid) (p : Vec2.t) : option Tile.t := deref g (ref_of p).

(** [wf] as a computation, for concrete boards. *)
Definition cell_ok (w h : Z) (r c : nat) (o : option Tile.t) : bool :=
  match o with
  | None => border w h (Z.of_nat c) (Z.of_nat r)
  | Some t =>
      negb (border w h (Z.of_nat c) (Z.of_nat r)) &&
      bool_decide (Tile.pos t = Vec2.mk (Z.of_nat c) (Z.of_nat r))
  end.

Definition row_ok (w h : Z) (r : nat) (row : list (option Tile.t)) : bool :=
  bool_decide (length row = Z.to_nat w) && forallb id (imap (cell_ok w h r) row).

Definition wfb (w h : Z) (g : Grid) : bool :=
  bool_decide (length g = Z.to_nat h) && forallb id (imap (row_ok w h) g).

(** ** Neighbours by coordinates *)

(** The coordinates [get_neighbour_tiles] indexes for the offset [d]. *)
Definition shift (p : Vec2.t) (d : Z * Z) : Vec2.t :=
  Vec2.mk (Vec2.x p + d.2) (Vec2.y p + d.1).

(** The coordinates of the live neighbours of [p], in the order of the
    list display. *)
Definition neighbours (w h : Z) (p : Vec2.t) : list Vec2.t :=
  filter (fun q => border w h (Vec2.x q) (Vec2.y q) = false) (shift p <$> offsets).

(** [d] is one of the eight offsets around a cell. *)
Definition unit_step (d : Z * Z) : Prop :=
  -1 <= d.1 <= 1 /\ -1 <= d.2 <= 1 /\ d <> (0, 0).

(** ** Neighbours by geometry *)

(** [q] is one of the eight cells around [p]: another cell, at most one
    column and one row away. *)
Definition adjacent (p q : Vec2.t) : Prop :=
  q <> p /\ -1 <= Vec2.x q - Vec2.x p <= 1 /\ -1 <= Vec2.y q - Vec2.y p <= 1.

(** A live neighbour of [p]: a cell around [p] that is inside the ring,
    so that it holds a tile and not a sentinel. *)
Definition live_neighbour (w h : Z) (p q : Vec2.t) : Prop :=
  adjacent p q /\ interior w h q.

(** [n] is the number of live neighbours of [p] whose tile is a mine in
    [g]: [ps] lists each of them once. *)
Definition mines_around (w h : Z) (g : Grid) (p : Vec2.t) (n : Z) : Prop :=
  exists ps : list Vec2.t,
    NoDup ps /\
    (forall q, q ∈ ps <->
       live_neighbour w h p q /\
       exists t, tile_at g q = Some t /\ Tile.isMine t = true) /\
    n = Z.of_nat (length ps).

(** ** Hidden tiles *)

(** The coordinates the loops [for y in range(1, h - 1): for x in
    range(1, w - 1)] visit, in order. *)
Definition interior_coords (w h : Z) : list Vec2.t :=
  range 1 (h - 1) ≫= fun yy => (fun xx => Vec2.mk xx yy) <$> range 1 (w - 1).

(** There is a tile at [q] and its [isRevealed] is false. *)
Definition unrevealedb (g : Grid) (q : Vec2.t) : bool :=
  match tile_at g q with
  | Some t => negb (Tile.isRevealed t)
  | None => false
  end.

(** Number of interior tiles with [isRevealed] false: what bounds the
    recursion of [reveal_tiles]. *)
Definition hidden (w h : Z) (g : Grid) : nat :=
  length (filter (fun q => unrevealedb g q = true) (interior_coords w h)).

(** ** What the flood fill may change *)

(** [g'] is [g] with exactly the tiles at [ws] marked revealed. *)
Definition reveal_rel (w h : Z) (g g' : Grid) (ws : list Vec2.t) : Prop :=
  wf w h g' /\
  forall q, interior w h q ->
    tile_at g' q =
    if decide (q ∈ ws) then Tile.set_isRevealed true <$> tile_at g q
    else tile_at g q.

(** [q] is next to a tile whose count is zero. *)
Definition zero_neighbour (w h : Z) (g : Grid) (q : Vec2.t) : Prop :=
  exists z t, interior w h z /\ tile_at g z = Some t /\ Tile.mines t = 0 /\
              q ∈ neighbours w h z.

(** What the loop over the live neighbours [ps] achieves from grid [g]. *)
Record loop_post (w h : Z) (ps : list Vec2.t) (g g' : Grid) (l : Log) : Prop := {
  loop_rel : reveal_rel w h g g' (writes l);
  loop_all : forall q, q ∈ ps -> q ∈ writes l;
  loop_writes : forall q, q ∈ writes l -> q ∈ ps \/ zero_neighbour w h g q;
  loop_calls : forall q, q ∈ calls l ->
    interior w h q /\ unrevealedb g q = true /\ q ∈ writes l;
  loop_nodup : NoDup (calls l)
}.

(** What a call [reveal_tiles(p)] achieves from grid [g]. *)
Record reveal_post (w h : Z) (g : Grid) (p : Vec2.t) (g' : Grid) (l : Log) : Prop := {
  post_rel : reveal_rel w h g g' (writes l);
  post_zero : forall t, tile_at g p = Some t -> Tile.mines t = 0 ->
    forall q, q ∈ neighbours w h p -> q ∈ writes l;
  post_writes : forall q, q ∈ writes l -> zero_neighbour w h g q;
  post_calls : forall q, q ∈ calls l ->
    interior w h q /\ unrevealedb g q = true /\ q ∈ writes l;
  post_nodup : NoDup (calls l)
}.

(** Every tile revealed in [g] is still there and revealed in [g']. *)
Definition stays_revealed (g g' : Grid) : Prop :=
  forall r t, deref g r = Some t -> Tile.isRevealed t = true ->
    exists t', deref g' r = Some t' /\ Tile.isRevealed t' = true.

(** ** Mines and counts *)

(** The tile behind [r] is a mine. *)
Definition is_mine (g : Grid) (r : ref) : bool :=
  match deref g r with
  | Some t => Tile.isMine t
  | None => false
  end.

(** How many of the tiles [nbs] are mines. *)
Definition mine_count (g : Grid) (nbs : list ref) : Z :=
  Z.of_nat (length (filter (fun r => is_mine g r = true) nbs)).

(** The tile at [q] exists and is no mine. *)
Definition safe (g : Grid) (q : Vec2.t) : Prop :=
  exists t, tile_at g q = Some t /\ Tile.isMine t = false.

(** Every interior tile's [mines] is the number of mines among the tiles
    [get_neighbour_tiles] returns for it. *)
Definition counts_ok (w h : Z) (g : Grid) : Prop :=
  forall q t, interior w h q -> tile_at g q = Some t ->
    exists nbs, get_neighbour_tiles g q = Ok nbs /\ Tile.mines t = mine_count g nbs.

(** [counts_ok] as a computation, for concrete boards. *)
Definition counts_okb (w h : Z) (g : Grid) : bool :=
  forallb
    (fun q =>
       match tile_at g q, get_neighbour_tiles g q with
       | Some t, Ok nbs => Tile.mines t =? mine_count g nbs
       | _, _ => false
       end)
    (interior_coords w h).

(** The tile at [q] carries the number of mines around it in [g3]. *)
Definition counted (w h : Z) (g3 g : Grid) (q : Vec2.t) : Prop :=
  exists t, tile_at g q = Some t /\
    Tile.mines t = mine_count g3 (ref_of <$> neighbours w h q).

(** Invariant of the counting loops: the mines are those of [g3] and the
    tiles visited so far are counted. *)
Definition count_inv (w h : Z) (g3 : Grid) (seen : Vec2.t -> Prop) (g : Grid) : Prop :=
  wf w h g /\ (forall r, is_mine g r = is_mine g3 r) /\
  forall q, interior w h q -> seen q -> counted w h g3 g q.

(** ** Operations of the core *)

(** One operation of the core: handling an event (primary, secondary or
    any other), placing the mines, or a flood fill. *)
Inductive core_op (s s' : Game) : Prop :=
  | op_event (depth : nat) (rng rng' : RNG) (ev : Event) :
      handle_event depth (s, rng) ev = Ok (s', rng') -> core_op s s'
  | op_set_mines (rng rng' : RNG) (p : Vec2.t) :
      set_mines rng s p = Ok (s', rng') -> core_op s s'
  | op_reveal (depth : nat) (p : Vec2.t) (l : Log) :
      reveal_tiles depth (tilemap s) p = Ok (tilemap s', l) -> core_op s s'.

(** ** Boards used as concrete inputs *)

(** [Tile(Vec2(x, y), isMine, flagged, isRevealed, mines)]. *)
Definition tile (x y : Z) (isMine flagged isRevealed : bool) (mines : Z) : Tile.t :=
  Tile.mk (Vec2.mk x y) isMine flagged isRevealed mines.

(** 4 by 3: a mine at (1, 1) next to the tile (2, 1), counts in place. *)
Definition mine_board : Grid :=
  [ [None; None; None; None];
    [None; Some (tile 1 1 true false false 0); Some (tile 2 1 false false false 1); None];
    [None; None; None; None] ].

Definition mine_game : Game := mkGame mine_board 32 4 3 true true.

(** [mine_game] after a primary action on the mine at (1, 1). *)
Definition mine_game_after : Game :=
  mkGame
    [ [None; None; None; None];
      [None; Some (tile 1 1 true false true 0); Some (tile 2 1 false false true 1); None];
      [None; None; None; None] ]
    32 4 3 false true.

(** 5 by 3, no mines: three tiles in a row, the middle one revealed. *)
Definition clear_board : Grid :=
  [ [None; None; None; None; None];
    [None; Some (tile 1 1 false false false 0); Some (tile 2 1 false false true 0);
     Some (tile 3 1 false false false 0); None];
    [None; None; None; None; None] ].

Definition clear_game : Game := mkGame clear_board 32 5 3 true true.

(** [clear_game] after a secondary action on (2, 1) and a primary action
    on (1, 1). *)
Definition clear_game_after : Game :=
  mkGame
    [ [None; None; None; None; None];
      [None; Some (tile 1 1 false false true 0); Some (tile 2 1 false true true 0);
       Some (tile 3 1 false false false 0); None];
      [None; None; None; None; None] ]
    32 5 3 true true.

(** 5 by 3: a mine at (3, 1), counts in place. *)
Definition flank_board : Grid :=
  [ [None; None; None; None; None];
    [None; Some (tile 1 1 false false false 0); Some (tile 2 1 false false false 1);
     Some (tile 3 1 true false false 0); None];
    [None; None; None; None; None] ].

(** ** Frames *)

(** Every tile of [g] is still in its cell in [g'], changed at most as [R]
    allows. *)
Definition tiles_rel (R : Tile.t -> Tile.t -> Prop) (g g' : Grid) : Prop :=
  forall r t, deref g r = Some t -> exists t', deref g' r = Some t' /\ R t t'.

(** No event of the list is a secondary action. *)
Definition no_secondary (events : list Event) : Prop :=
  forall button mPos, MOUSEBUTTONDOWN button mPos ∈ events -> button <> 3.

(** ** The order of the random draws *)

(** Rank of the interior coordinate [q] in the scan of the loops of
    [set_mines], row by row from (1, 1): the number of draws made before
    the one for [q]. *)
Definition scan_index (w : Z) (q : Vec2.t) : nat :=
  Z.to_nat ((Vec2.y q - 1) * (w - 2) + (Vec2.x q - 1)).

(** Invariant of the loops that draw the mines, from grid [g] and random
    source [rng], after [k] draws: the source has advanced by [k] and the
    tiles of rank below [k] are decided. *)
Definition gen_inv (w h : Z) (rng : RNG) (g : Grid) (k : nat) (acc : Grid * RNG)
  : Prop :=
  wf w h acc.1 /\ (forall n, acc.2 n = rng (n + k)%nat) /\
  forall q t, interior w h q -> tile_at g q = Some t ->
    tile_at acc.1 q =
    Some (if decide (scan_index w q < k)%nat
          then Tile.set_isMine (Tile.isMine t || (rng (scan_index w q) =? 0)) t
          else t).

(** ** How far the flood fill goes *)

(** The tile at [z] exists and its count is zero. *)
Definition zero_at (g : Grid) (z : Vec2.t) : Prop :=
  exists t, tile_at g z = Some t /\ Tile.mines t = 0.

(** What the log of a run from grid [g] says about zero-count tiles: a
    tile the run called itself on has count zero and all its neighbours
    were assigned; a hidden zero-count tile that was assigned was also
    called on. *)
Record closed_post (w h : Z) (g : Grid) (l : Log) : Prop := {
  closed_calls : forall z, z ∈ calls l ->
    zero_at g z /\ forall q, q ∈ neighbours w h z -> q ∈ writes l;
  closed_writes : forall q, q ∈ writes l ->
    unrevealedb g q = true -> zero_at g q -> q ∈ calls l
}.

(** ** The invariant of a session *)

(** The pointer of a mouse event is inside the window, which line 63
    makes [tilesize * (w - 2)] wide and [tilesize * (h - 2)] high. *)
Definition in_window (s : Game) (ev : Event) : Prop :=
  match ev with
  | MOUSEBUTTONDOWN _ mPos =>
      0 <= mPos.1 < tilesize s * (_hTiles s - 2) /\
      0 <= mPos.2 < tilesize s * (_vTiles s - 2)
  | _ => True
  end.

(** Every revealed tile with count zero has all its neighbours revealed. *)
Definition opened (w h : Z) (g : Grid) : Prop :=
  forall z t, interior w h z -> tile_at g z = Some t ->
    Tile.isRevealed t = true -> Tile.mines t = 0 ->
    forall q, q ∈ neighbours w h z -> unrevealedb g q = false.

(** No revealed tile is a mine. *)
Definition no_mine_shown (w h : Z) (g : Grid) : Prop :=
  forall q t, interior w h q -> tile_at g q = Some t ->
    Tile.isRevealed t = true -> Tile.isMine t = false.

(** Nothing is revealed and nothing is a mine. *)
Definition untouched (w h : Z) (g : Grid) : Prop :=
  forall q t, interior w h q -> tile_at g q = Some t ->
    Tile.isRevealed t = false /\ Tile.isMine t = false.

(** What holds between the events of a session. *)
Record session_inv (s : Game) : Prop := {
  inv_tilesize : tilesize s = 32;
  inv_wf : wf (_hTiles s) (_vTiles s) (tilemap s);
  inv_fresh : __minesSet s = false -> untouched (_hTiles s) (_vTiles s) (tilemap s);
  inv_counts : __minesSet s = true -> counts_ok (_hTiles s) (_vTiles s) (tilemap s);
  inv_opened : opened (_hTiles s) (_vTiles s) (tilemap s);
  inv_alive : _running s = true -> no_mine_shown (_hTiles s) (_vTiles s) (tilemap s)
}.

(** [g'] has the same tiles as [g] up to the fields [R] lets differ. *)
Definition agree (w h : Z) (R : Tile.t -> Tile.t -> Prop) (g g' : Grid) : Prop :=
  forall q t, interior w h q -> tile_at g q = Some t ->
    exists t', tile_at g' q = Some t' /\ R t t'.

(** Same mine and same count. *)
Definition same_mines (t t' : Tile.t) : Prop :=
  Tile.isMine t' = Tile.isMine t /\ Tile.mines t' = Tile.mines t.

(** Some revealed tile is a mine. *)
Definition mine_shown (w h : Z) (g : Grid) : Prop :=
  exists q t, interior w h q /\ tile_at g q = Some t /\
    Tile.isRevealed t = true /\ Tile.isMine t = true.

(** The loop of [run] has been left only with a mine on show. *)
Definition over_inv (s : Game) : Prop :=
  _running s = false -> mine_shown (_hTiles s) (_vTiles s) (tilemap s).

(** The pointer of every event of every frame is inside the window. *)
Definition frames_in_window (s : Game) (frames : list (list Event)) : Prop :=
  Forall (Forall (in_window s)) frames.

(** A session on a 6 by 5 board with every draw 0: a primary action on
    (2, 2), which places the mines in column 4 and opens the rest, a flag
    on (1, 1), and a primary action on the mine at (4, 1). *)
Definition session_opening : list Event :=
  [MOUSEBUTTONDOWN 1 (40, 40); MOUSEBUTTONDOWN 3 (5, 5)].

Definition session_lost : list Event :=
  session_opening ++ [MOUSEBUTTONDOWN 1 (101, 5)].

Definition state_after (events : list Event) : Game :=
  match handle_events 13 (new_game 6 5, fun _ => 0) events with
  | Ok (s, _) => s
  | _ => new_game 6 5
  end.

Definition session_opening_after : Game := Eval vm_compute in state_after session_opening.

Definition session_lost_after : Game := Eval vm_compute in state_after session_lost.

(** ** What is drawn *)

(** [t'] looks like [t]: every field but [isMine] is the same. *)
Definition same_look (t t' : Tile.t) : Prop :=
  Tile.pos t' = Tile.pos t /\ Tile.flagged t' = Tile.flagged t /\
  Tile.isRevealed t' = Tile.isRevealed t /\ Tile.mines t' = Tile.mines t.

(** Two grids of the same shape whose tiles look the same. *)
Definition look_alike (g g' : Grid) : Prop :=
  Forall2 (Forall2 (option_Forall2 same_look)) g g'.

(** A drawing command stays inside a display of [W] by [H] pixels. *)
Definition in_display (W H : Z) (cmd : DrawCmd) : Prop :=
  match cmd with
  | Rect _ (x, y, wd, ht) =>
      0 <= x /\ 0 <= y /\ 0 <= wd /\ 0 <= ht /\ x + wd <= W /\ y + ht <= H
  | Text _ _ (x, y) => 0 <= x < W /\ 0 <= y < H
  | _ => True
  end.

(** [mine_board] with the mine on the other tile. *)
Definition mine_board_swapped : Grid :=
  [ [None; None; None; None];
    [None; Some (tile 1 1 false false false 0); Some (tile 2 1 true false false 1); None];
    [None; None; None; None] ].

(** Two frames for [mine_game]: a primary action on the mine at (1, 1),
    then a flag on (2, 1). *)
Definition mine_frames : list (list Event) :=
  [[MOUSEBUTTONDOWN 1 (5, 5)]; [MOUSEBUTTONDOWN 3 (40, 5)]].

(** * Verification *)

(** ** The outcome monad *)

Lemma bind_Ok {A B} (m : result A) (k : A -> result B) (b : B) :
  bind m k = Ok b -> exists a, m = Ok a /\ k a = Ok b.
Proof. destruct m; simpl; intros; eauto; discriminate. Qed.

Lemma attr_Ok (o : option Tile.t) (t : Tile.t) : attr o = Ok t -> o = Some t.
Proof. destruct o; simpl; congruence. Qed.

(** Invariant rule for a loop that cannot fail while the invariant holds;
    the invariant may mention the elements already visited. *)
Lemma foldM_total {A B} (f : A -> B -> result A) (I : list B -> A -> Prop) :
  forall (l pre : list B) (a : A),
    I pre a ->
    (forall done x a0, x ∈ l -> I done a0 ->
       exists a1, f a0 x = Ok a1 /\ I (done ++ [x]) a1) ->
    exists a', foldM f a l = Ok a' /\ I (pre ++ l) a'.
Proof.
  induction l as [|x l IH]; intros pre a Ha Hstep; simpl.
  - exists a. by rewrite app_nil_r.
  - destruct (Hstep pre x a) as (a1 & -> & Ha1); [left | done |].
    simpl. destruct (IH (pre ++ [x]) a1) as (a' & -> & Ha'); [done | |].
    + intros done y a0 Hy. apply Hstep. by right.
    + exists a'. by rewrite <- app_assoc in Ha'.
Qed.

(** Invariant rule for the runs of a loop that return. *)
Lemma foldM_Ok_inv {A B} (f : A -> B -> result A) (I : A -> Prop) :
  (forall a x a1, I a -> f a x = Ok a1 -> I a1) ->
  forall (l : list B) (a a' : A), I a -> foldM f a l = Ok a' -> I a'.
Proof.
  intros Hstep. induction l as [|x l IH]; simpl; intros a a' Ha H.
  - by inversion H; subst.
  - apply bind_Ok in H as (a1 & H1 & H2). eauto.
Qed.

(** ** Reading and writing through references *)

Lemma deref_upd (g : Grid) (rc rc' : ref) (f : Tile.t -> Tile.t) :
  deref (upd g rc f) rc' =
  if decide (rc = rc') then f <$> deref g rc else deref g rc'.
Proof.
  destruct rc as [r c], rc' as [r' c']. unfold deref, upd. cbn [fst snd].
  destruct (decide (r = r')) as [<-|Hr].
  - rewrite list_lookup_alter_eq. destruct (g !! r) as [row|]; cbn [fmap option_fmap option_map].
    + destruct (decide (c = c')) as [<-|Hc].
      * rewrite list_lookup_alter_eq, decide_True by done.
        by destruct (row !! c).
      * rewrite list_lookup_alter_ne, decide_False by congruence. done.
    + by case_decide.
  - rewrite list_lookup_alter_ne, decide_False by congruence. done.
Qed.

Lemma deref_upd_eq (g : Grid) (rc : ref) (f : Tile.t -> Tile.t) :
  deref (upd g rc f) rc = f <$> deref g rc.
Proof. by rewrite deref_upd, decide_True. Qed.

Lemma deref_upd_ne (g : Grid) (rc rc' : ref) (f : Tile.t -> Tile.t) :
  rc <> rc' -> deref (upd g rc f) rc' = deref g rc'.
Proof. intros. by rewrite deref_upd, decide_False. Qed.

Lemma locate_deref (g : Grid) (yy xx : Z) (r : ref) (o : option Tile.t) :
  locate g yy xx = Ok (r, o) -> deref g r = o.
Proof.
  unfold locate. intros H. apply bind_Ok in H as (i & _ & H).
  destruct (g !! i) as [row|] eqn:Hrow; [|discriminate].
  apply bind_Ok in H as (j & _ & H).
  destruct (row !! j) as [o'|] eqn:Ho; [|discriminate].
  inversion H; subst. unfold deref. simpl. by rewrite Hrow, Ho.
Qed.

(** ** Well-formed grids *)

Lemma init_tilemap_wf (w h : Z) : wf w h (init_tilemap w h).
Proof.
  unfold wf, init_tilemap, range. split.
  - rewrite length_fmap, length_seqZ. f_equal. lia.
  - intros r row Hr. apply list_lookup_fmap_Some in Hr as (yy & -> & Hyy).
    apply lookup_seqZ in Hyy as [-> Hlt]. unfold init_row, border, range.
    destruct ((0 + Z.of_nat r =? 0) || (0 + Z.of_nat r =? h - 1)) eqn:Hb.
    + split; [rewrite length_fmap, length_seqZ; f_equal; lia|].
      intros c o Hc. apply list_lookup_fmap_Some in Hc as (xx & -> & _).
      replace (0 + Z.of_nat r) with (Z.of_nat r) in Hb by lia. by rewrite Hb.
    + split; [rewrite length_fmap, length_seqZ; f_equal; lia|].
      intros c o Hc. apply list_lookup_fmap_Some in Hc as (xx & -> & Hxx).
      apply lookup_seqZ in Hxx as [-> _].
      replace (0 + Z.of_nat r) with (Z.of_nat r) in * by lia.
      replace (0 + Z.of_nat c) with (Z.of_nat c) by lia.
      rewrite Hb. simpl.
      destruct ((Z.of_nat c =? 0) || (Z.of_nat c =? w - 1)); eauto.
Qed.

Lemma wf_upd (w h : Z) (g : Grid) (rc : ref) (f : Tile.t -> Tile.t) :
  (forall t, Tile.pos (f t) = Tile.pos t) -> wf w h g -> wf w h (upd g rc f).
Proof.
  intros Hf [Hlen Hrows]. destruct rc as [r0 c0]. unfold upd. cbn [fst snd]. split.
  - by rewrite length_alter.
  - intros r row. rewrite list_lookup_alter. case_decide as Hr.
    + subst r0.
      destruct (g !! r) as [row0|] eqn:Hrow0; simpl; [|done].
      intros [= <-]. destruct (Hrows r row0 Hrow0) as [Hl Hcells].
      split; [by rewrite length_alter|].
      intros c o. rewrite list_lookup_alter. case_decide as Hc.
      * subst c0.
        destruct (row0 !! c) as [o0|] eqn:Ho0; simpl; [|done].
        intros [= <-]. specialize (Hcells c o0 Ho0).
        destruct (border w h (Z.of_nat c) (Z.of_nat r)).
        -- by subst.
        -- destruct Hcells as (t & -> & Ht). exists (f t). by rewrite Hf.
      * apply Hcells.
    + apply Hrows.
Qed.

Lemma wf_locate (w h : Z) (g : Grid) (yy xx : Z) :
  wf w h g -> 0 <= yy < h -> 0 <= xx < w ->
  exists o, locate g yy xx = Ok ((Z.to_nat yy, Z.to_nat xx), o) /\
    if border w h xx yy then o = None
    else exists t, o = Some t /\ Tile.pos t = Vec2.mk xx yy.
Proof.
  intros [Hlen Hrows] Hy Hx. unfold locate, norm_index.
  rewrite Hlen.
  assert ((0 <=? yy) && (yy <? Z.of_nat (Z.to_nat h)) = true) as ->
    by (apply andb_true_iff; split; [apply Z.leb_le | apply Z.ltb_lt]; lia).
  cbn [bind]. destruct (lookup_lt_is_Some_2 g (Z.to_nat yy)) as [row Hrow]; [lia|].
  rewrite Hrow. destruct (Hrows _ _ Hrow) as [Hl Hcells]. rewrite Hl.
  assert ((0 <=? xx) && (xx <? Z.of_nat (Z.to_nat w)) = true) as ->
    by (apply andb_true_iff; split; [apply Z.leb_le | apply Z.ltb_lt]; lia).
  cbn [bind]. destruct (lookup_lt_is_Some_2 row (Z.to_nat xx)) as [o Ho]; [lia|].
  rewrite Ho. exists o. split; [done|].
  specialize (Hcells _ _ Ho). by rewrite !Z2Nat.id in Hcells by lia.
Qed.

Lemma interior_not_border (w h : Z) (p : Vec2.t) :
  interior w h p -> border w h (Vec2.x p) (Vec2.y p) = false.
Proof.
  intros [Hx Hy]. unfold border.
  repeat (apply orb_false_iff; split); apply Z.eqb_neq; lia.
Qed.

Lemma wf_interior_locate (w h : Z) (g : Grid) (p : Vec2.t) :
  wf w h g -> interior w h p ->
  exists t, locate g (Vec2.y p) (Vec2.x p) = Ok (ref_of p, Some t) /\
            tile_at g p = Some t /\ Tile.pos t = p.
Proof.
  intros Hwf Hp. pose proof Hp as [Hx Hy].
  destruct (wf_locate w h g (Vec2.y p) (Vec2.x p)) as (o & Hloc & Ho);
    [done | lia | lia |].
  rewrite (interior_not_border _ _ _ Hp) in Ho. destruct Ho as (t & -> & Ht).
  exists t. split; [done|]. split.
  - by apply locate_deref in Hloc.
  - by destruct p.
Qed.

Lemma wf_tile_at (w h : Z) (g : Grid) (p : Vec2.t) :
  wf w h g -> interior w h p ->
  exists t, tile_at g p = Some t /\ Tile.pos t = p.
Proof.
  intros Hwf Hp. destruct (wf_interior_locate w h g p) as (t & _ & ? & ?); eauto.
Qed.

Lemma ref_of_inj (w h : Z) (p q : Vec2.t) :
  interior w h p -> interior w h q -> ref_of p = ref_of q -> p = q.
Proof.
  intros [? ?] [? ?]. destruct p as [px py], q as [qx qy]. unfold ref_of. simpl in *.
  intros [= Hy Hx]. f_equal; lia.
Qed.

(** ** Neighbours on a well-formed grid *)

Lemma offsets_spec (d : Z * Z) : d ∈ offsets <-> unit_step d.
Proof.
  split.
  - intros Hd. unfold offsets in Hd.
    repeat (apply elem_of_cons in Hd as [->|Hd]);
      try (by apply elem_of_nil in Hd);
      unfold unit_step; simpl; (repeat split; try lia; discriminate).
  - destruct d as [dy dx]. unfold unit_step, offsets. simpl. intros (Hy & Hx & Hne).
    assert (dy = -1 \/ dy = 0 \/ dy = 1) as [-> | [-> | ->]] by lia;
    assert (dx = -1 \/ dx = 0 \/ dx = 1) as [-> | [-> | ->]] by lia;
    try (exfalso; by apply Hne);
    repeat (first [ by left | right ]).
Qed.

Lemma border_false_iff (w h c r : Z) :
  border w h c r = false <-> r <> 0 /\ r <> h - 1 /\ c <> 0 /\ c <> w - 1.
Proof.
  unfold border. rewrite !orb_false_iff, !Z.eqb_neq. tauto.
Qed.

Lemma wf_neighbour_cells (w h : Z) (g : Grid) (p : Vec2.t) :
  wf w h g -> interior w h p ->
  forall ds : list (Z * Z),
    Forall (fun d => -1 <= d.1 <= 1 /\ -1 <= d.2 <= 1) ds ->
    exists cells,
      mapM (fun d => locate g (Vec2.y p + d.1) (Vec2.x p + d.2)) ds = Ok cells /\
      omap live cells =
      ref_of <$> filter (fun q => border w h (Vec2.x q) (Vec2.y q) = false)
                        (shift p <$> ds).
Proof.
  intros Hwf [Hx Hy]. induction ds as [|d ds IH]; intros Hds.
  - by exists [].
  - inversion Hds as [|? ? [Hd1 Hd2] Hds']; subst.
    destruct (IH Hds') as (cells & Hcells & Hlive).
    destruct (wf_locate w h g (Vec2.y p + d.1) (Vec2.x p + d.2)) as (o & Hloc & Ho);
      [done | lia | lia |].
    cbn [mapM]. rewrite Hloc. cbn [bind]. rewrite Hcells. cbn [bind].
    eexists. split; [done|].
    rewrite fmap_cons, filter_cons. cbn [omap list_omap live fst snd shift Vec2.x Vec2.y].
    destruct (border w h (Vec2.x p + d.2) (Vec2.y p + d.1)).
    + subst o. rewrite decide_False by discriminate. apply Hlive.
    + destruct Ho as (t & -> & _). rewrite decide_True by done.
      rewrite fmap_cons. f_equal. apply Hlive.
Qed.

Lemma wf_get_neighbour_tiles (w h : Z) (g : Grid) (p : Vec2.t) :
  wf w h g -> interior w h p ->
  get_neighbour_tiles g p = Ok (ref_of <$> neighbours w h p).
Proof.
  intros Hwf Hp. unfold get_neighbour_tiles, neighbours.
  destruct (wf_neighbour_cells w h g p Hwf Hp offsets) as (cells & -> & <-); [|done].
  apply Forall_forall. intros d Hd. apply offsets_spec in Hd.
  unfold unit_step in Hd. tauto.
Qed.

Lemma elem_of_neighbours (w h : Z) (p q : Vec2.t) :
  q ∈ neighbours w h p <->
  border w h (Vec2.x q) (Vec2.y q) = false /\ exists d, unit_step d /\ q = shift p d.
Proof.
  unfold neighbours. rewrite list_elem_of_filter, list_elem_of_fmap. split.
  - intros (Hb & d & -> & Hd). apply offsets_spec in Hd. eauto.
  - intros (Hb & d & Hd & ->). apply offsets_spec in Hd. eauto.
Qed.

Lemma neighbours_interior (w h : Z) (p q : Vec2.t) :
  interior w h p -> q ∈ neighbours w h p -> interior w h q /\ q <> p.
Proof.
  intros [Hx Hy] Hq. apply elem_of_neighbours in Hq as (Hb & d & (Hd1 & Hd2 & Hne) & ->).
  apply border_false_iff in Hb. destruct d as [dy dx]. unfold shift, interior in *.
  simpl in *. split; [lia|].
  intros Heq. destruct p as [px py]. simpl in *. apply Hne.
  injection Heq. intros. f_equal; lia.
Qed.

Lemma neighbours_length_le (w h : Z) (p : Vec2.t) :
  (length (neighbours w h p) <= 8)%nat.
Proof.
  unfold neighbours. etrans; [apply length_filter|]. by rewrite length_fmap.
Qed.

(** Away from degenerate strips, the corner case is the minimum. *)
Lemma neighbours_length_ge (w h : Z) (p : Vec2.t) :
  4 <= w -> 4 <= h -> interior w h p -> (3 <= length (neighbours w h p))%nat.
Proof.
  intros Hw Hh [Hx Hy].
  assert (exists dx, (dx = -1 \/ dx = 1) /\ 1 <= Vec2.x p + dx <= w - 2) as (dx & Hdx & Hxr).
  { destruct (decide (Vec2.x p = 1)); [exists 1 | exists (-1)]; lia. }
  assert (exists dy, (dy = -1 \/ dy = 1) /\ 1 <= Vec2.y p + dy <= h - 2) as (dy & Hdy & Hyr).
  { destruct (decide (Vec2.y p = 1)); [exists 1 | exists (-1)]; lia. }
  change 3%nat with (length [shift p (0, dx); shift p (dy, 0); shift p (dy, dx)]).
  apply submseteq_length, NoDup_submseteq.
  - unfold shift. cbn [fst snd].
    repeat (apply NoDup_cons; split); try apply NoDup_nil_2;
      rewrite ?elem_of_cons, ?elem_of_nil; intros Hin; destruct_or?; try done;
      injection Hin; lia.
  - intros q Hq. apply elem_of_neighbours.
    rewrite !elem_of_cons, elem_of_nil in Hq.
    destruct Hq as [-> | [-> | [-> | []]]]; (split;
      [apply border_false_iff; simpl; lia
      |eexists; split; [|reflexivity]; unfold unit_step; simpl;
       repeat split; try lia; intros [=]; lia]).
Qed.

(** ** Counting the tiles that are still hidden *)

Lemma elem_of_interior_coords (w h : Z) (q : Vec2.t) :
  q ∈ interior_coords w h <-> interior w h q.
Proof.
  unfold interior_coords, interior, range. rewrite list_elem_of_bind. split.
  - intros (yy & Hq & Hyy). apply list_elem_of_fmap in Hq as (xx & -> & Hxx).
    apply elem_of_seqZ in Hxx, Hyy. simpl. lia.
  - intros [Hx Hy]. exists (Vec2.y q). split.
    + apply list_elem_of_fmap. exists (Vec2.x q). split; [by destruct q|].
      apply elem_of_seqZ. lia.
    + apply elem_of_seqZ. lia.
Qed.

Lemma length_interior_coords (w h : Z) :
  3 <= w -> 3 <= h -> length (interior_coords w h) = Z.to_nat ((w - 2) * (h - 2)).
Proof.
  intros Hw Hh. unfold interior_coords.
  assert (forall l : list Z,
    length (l ≫= fun yy => (fun xx => Vec2.mk xx yy) <$> range 1 (w - 1))
    = (length l * Z.to_nat (w - 2))%nat) as Hlen.
  { induction l as [|a l IH]; [done|].
    rewrite bind_cons, length_app, IH, length_fmap. unfold range.
    rewrite length_seqZ. by replace (w - 1 - 1) with (w - 2) by lia. }
  rewrite Hlen. unfold range. rewrite length_seqZ.
  replace (h - 1 - 1) with (h - 2) by lia.
  rewrite Z2Nat.inj_mul by lia. apply Nat.mul_comm.
Qed.

Lemma hidden_le (w h : Z) (g : Grid) :
  (hidden w h g <= length (interior_coords w h))%nat.
Proof. apply length_filter. Qed.

Lemma length_filter_mono {A} (P Q : A -> Prop)
    `{!forall x, Decision (P x)} `{!forall x, Decision (Q x)} (l : list A) :
  (forall x, x ∈ l -> P x -> Q x) ->
  (length (filter P l) <= length (filter Q l))%nat.
Proof.
  induction l as [|a l IH]; intros HPQ; [done|].
  rewrite !filter_cons.
  assert (length (filter P l) <= length (filter Q l))%nat as Hl.
  { apply IH. intros x Hx. apply HPQ. by right. }
  destruct (decide (P a)) as [HP|HP].
  - rewrite decide_True by (apply HPQ; [left | done]). simpl. lia.
  - destruct (decide (Q a)); simpl; lia.
Qed.

Lemma length_filter_strict {A} (P Q : A -> Prop)
    `{!forall x, Decision (P x)} `{!forall x, Decision (Q x)} (l : list A) (a : A) :
  (forall x, x ∈ l -> P x -> Q x) -> a ∈ l -> Q a -> ~ P a ->
  (length (filter P l) < length (filter Q l))%nat.
Proof.
  induction l as [|b l IH]; intros HPQ Ha HQ HP; [by apply elem_of_nil in Ha|].
  rewrite !filter_cons.
  assert (length (filter P l) <= length (filter Q l))%nat as Hl.
  { apply length_filter_mono. intros x Hx. apply HPQ. by right. }
  apply elem_of_cons in Ha as [<-|Ha].
  - rewrite decide_False, decide_True by done. simpl. lia.
  - assert (length (filter P l) < length (filter Q l))%nat as Hlt.
    { apply IH; [|done..]. intros x Hx. apply HPQ. by right. }
    destruct (decide (P b)) as [HPb|HPb].
    + rewrite decide_True by (apply HPQ; [left | done]). simpl. lia.
    + destruct (decide (Q b)); simpl; lia.
Qed.

(** ** The effect of [reveal_tiles] on a well-formed grid *)

Lemma reveal_rel_refl (w h : Z) (g : Grid) : wf w h g -> reveal_rel w h g g [].
Proof.
  split; [done|]. intros q _. rewrite decide_False; [done | apply not_elem_of_nil].
Qed.

Lemma reveal_rel_trans (w h : Z) (g1 g2 g3 : Grid) (ws1 ws2 : list Vec2.t) :
  reveal_rel w h g1 g2 ws1 -> reveal_rel w h g2 g3 ws2 ->
  reveal_rel w h g1 g3 (ws1 ++ ws2).
Proof.
  intros [_ H1] [Hwf H2]. split; [done|]. intros q Hq.
  rewrite (H2 q Hq), (H1 q Hq).
  destruct (decide (q ∈ ws1)) as [Hi1|Hi1], (decide (q ∈ ws2)) as [Hi2|Hi2].
  - rewrite decide_True by (apply elem_of_app; tauto). by destruct (tile_at g1 q).
  - rewrite decide_True by (apply elem_of_app; tauto). done.
  - rewrite decide_True by (apply elem_of_app; tauto). done.
  - rewrite decide_False by (rewrite elem_of_app; tauto). done.
Qed.

Lemma reveal_rel_upd (w h : Z) (g : Grid) (q : Vec2.t) :
  wf w h g -> interior w h q ->
  reveal_rel w h g (upd g (ref_of q) (Tile.set_isRevealed true)) [q].
Proof.
  intros Hwf Hq. split; [by apply wf_upd|]. intros q' Hq'.
  unfold tile_at. rewrite deref_upd.
  destruct (decide (q' ∈ [q])) as [Hin|Hnin].
  - apply list_elem_of_singleton in Hin as ->. by rewrite decide_True.
  - rewrite decide_False; [done|]. intros Heq. apply Hnin.
    apply (ref_of_inj w h) in Heq as ->; [|done..]. by apply list_elem_of_singleton.
Qed.

Lemma reveal_rel_weaken (w h : Z) (g g' : Grid) (ws ws' : list Vec2.t) :
  (forall q, q ∈ ws <-> q ∈ ws') -> reveal_rel w h g g' ws -> reveal_rel w h g g' ws'.
Proof.
  intros Heq [Hwf H]. split; [done|]. intros q Hq. rewrite (H q Hq).
  destruct (decide (q ∈ ws)) as [Hi|Hi].
  - rewrite decide_True; [done | by apply Heq].
  - rewrite decide_False; [done | by rewrite <- Heq].
Qed.

(** Whatever [g'] holds at [q] comes from [g], with only [isRevealed]
    possibly raised. *)
Lemma reveal_rel_back (w h : Z) (g g' : Grid) (ws : list Vec2.t) (q : Vec2.t) (t' : Tile.t) :
  reveal_rel w h g g' ws -> interior w h q -> tile_at g' q = Some t' ->
  exists t, tile_at g q = Some t /\
    (t' = t \/ (q ∈ ws /\ t' = Tile.set_isRevealed true t)).
Proof.
  intros [_ H] Hq Ht'. rewrite (H q Hq) in Ht'.
  destruct (decide (q ∈ ws)) as [Hi|Hi].
  - destruct (tile_at g q) as [t|]; [|done]. injection Ht' as <-. eauto.
  - eauto.
Qed.

Lemma unrevealed_back (w h : Z) (g g' : Grid) (ws : list Vec2.t) (q : Vec2.t) :
  reveal_rel w h g g' ws -> interior w h q ->
  unrevealedb g' q = true -> unrevealedb g q = true.
Proof.
  intros Hrel Hq. unfold unrevealedb.
  destruct (tile_at g' q) as [t'|] eqn:Ht'; [|done].
  destruct (reveal_rel_back _ _ _ _ _ _ _ Hrel Hq Ht') as (t & -> & [-> | [_ ->]]);
    [done | discriminate].
Qed.

Lemma written_revealed (w h : Z) (g g' : Grid) (ws : list Vec2.t) (q : Vec2.t) :
  reveal_rel w h g g' ws -> interior w h q -> q ∈ ws -> unrevealedb g' q = false.
Proof.
  intros [_ H] Hq Hin. unfold unrevealedb. rewrite (H q Hq), decide_True by done.
  by destruct (tile_at g q).
Qed.

Lemma zero_neighbour_back (w h : Z) (g g' : Grid) (ws : list Vec2.t) (q : Vec2.t) :
  reveal_rel w h g g' ws -> zero_neighbour w h g' q -> zero_neighbour w h g q.
Proof.
  intros Hrel (z & t' & Hz & Ht' & Hm & Hq).
  destruct (reveal_rel_back _ _ _ _ _ _ _ Hrel Hz Ht') as (t & Ht & [-> | [_ ->]]);
    exists z, t; eauto.
Qed.

Lemma hidden_mono (w h : Z) (g g' : Grid) (ws : list Vec2.t) :
  reveal_rel w h g g' ws -> (hidden w h g' <= hidden w h g)%nat.
Proof.
  intros Hrel. apply length_filter_mono. intros q Hq.
  apply elem_of_interior_coords in Hq. by apply (unrevealed_back w h g g' ws).
Qed.

Lemma hidden_upd_lt (w h : Z) (g : Grid) (q : Vec2.t) :
  wf w h g -> interior w h q -> unrevealedb g q = true ->
  (hidden w h (upd g (ref_of q) (Tile.set_isRevealed true)) < hidden w h g)%nat.
Proof.
  intros Hwf Hq Hun. pose proof (reveal_rel_upd w h g q Hwf Hq) as Hrel.
  apply (length_filter_strict _ _ _ q).
  - intros q' Hq'. apply elem_of_interior_coords in Hq'.
    by apply (unrevealed_back w h g _ [q]).
  - by apply elem_of_interior_coords.
  - done.
  - rewrite (written_revealed w h g _ [q] q Hrel Hq); [done|].
    by apply list_elem_of_singleton.
Qed.

Lemma reveal_loop_spec (w h : Z) (f : nat)
    (rec : Grid -> Vec2.t -> result (Grid * Log)) :
  (forall g p, wf w h g -> interior w h p -> (hidden w h g < f)%nat ->
     exists g' l, rec g p = Ok (g', l) /\ reveal_post w h g p g' l) ->
  forall ps g,
    (forall q, q ∈ ps -> interior w h q) -> wf w h g -> (hidden w h g <= f)%nat ->
    exists g' l,
      reveal_loop rec (ref_of <$> ps) g = Ok (g', l) /\ loop_post w h ps g g' l.
Proof.
  intros Hrec. induction ps as [|q ps IH]; intros g Hps Hwf Hf.
  - exists g, (mkLog [] []). split; [done|].
    split; cbn [calls writes]; try (intros q Hq; by apply elem_of_nil in Hq).
    + by apply reveal_rel_refl.
    + apply NoDup_nil_2.
  - assert (interior w h q) as Hq by (apply Hps; left).
    assert (forall q', q' ∈ ps -> interior w h q') as Hps'
      by (intros; apply Hps; by right).
    destruct (wf_tile_at w h g q Hwf Hq) as (t & Ht & Hpos).
    rewrite fmap_cons. cbn [reveal_loop].
    unfold tile_at in Ht. rewrite Ht. cbn [attr bind]. rewrite Hpos.
    pose proof (reveal_rel_upd w h g q Hwf Hq) as Hg1.
    destruct (negb (Tile.isRevealed t) && (Tile.mines t =? 0)) eqn:Hc.
    + apply andb_true_iff in Hc as [Hrev Hz]. apply negb_true_iff in Hrev.
      assert (unrevealedb g q = true) as Hun.
      { unfold unrevealedb, tile_at. by rewrite Ht, Hrev. }
      pose proof (hidden_upd_lt w h g q Hwf Hq Hun) as Hlt.
      destruct (Hrec (upd g (ref_of q) (Tile.set_isRevealed true)) q)
        as (g2 & l2 & -> & P2); [apply Hg1 | done | lia |].
      cbn [bind].
      pose proof (post_rel _ _ _ _ _ _ P2) as Hg2.
      pose proof (reveal_rel_upd w h g2 q (proj1 Hg2) Hq) as Hg3.
      pose proof (reveal_rel_trans _ _ _ _ _ _ _ Hg1
                    (reveal_rel_trans _ _ _ _ _ _ _ Hg2 Hg3)) as Hg03.
      destruct (IH (upd g2 (ref_of q) (Tile.set_isRevealed true)))
        as (g4 & l4 & -> & P4); [done | apply Hg3 | |].
      { pose proof (hidden_mono _ _ _ _ _ Hg03). lia. }
      cbn [bind]. eexists _, _. split; [done|].
      pose proof (loop_rel _ _ _ _ _ _ P4) as Hg4.
      split; cbn [log_app calls writes].
      * eapply reveal_rel_weaken; [|exact (reveal_rel_trans _ _ _ _ _ _ _ Hg03 Hg4)].
        intros q'. rewrite !elem_of_app. tauto.
      * intros q' Hq'. rewrite !elem_of_app.
        apply elem_of_cons in Hq' as [->|Hq'].
        -- left. by apply list_elem_of_singleton.
        -- do 3 right. by apply (loop_all _ _ _ _ _ _ P4).
      * intros q'. rewrite !elem_of_app, !list_elem_of_singleton.
        intros [-> | [Hq' | [-> | Hq']]].
        -- left. left.
        -- right. eapply zero_neighbour_back; [exact Hg1|].
           by apply (post_writes _ _ _ _ _ _ P2).
        -- left. left.
        -- destruct (loop_writes _ _ _ _ _ _ P4 q' Hq') as [Hin|Hzn].
           ++ left. by right.
           ++ right. exact (zero_neighbour_back _ _ _ _ _ _ Hg03 Hzn).
      * intros q'. rewrite !elem_of_app, !list_elem_of_singleton, elem_of_nil.
        intros [-> | [Hq' | [[] | Hq']]].
        -- split; [done|]. split; [done|]. by left.
        -- destruct (post_calls _ _ _ _ _ _ P2 q' Hq') as (Hi & Hu & Hw).
           split; [done|]. split; [exact (unrevealed_back _ _ _ _ _ _ Hg1 Hi Hu)|].
           right. by left.
        -- destruct (loop_calls _ _ _ _ _ _ P4 q' Hq') as (Hi & Hu & Hw).
           split; [done|]. split; [exact (unrevealed_back _ _ _ _ _ _ Hg03 Hi Hu)|].
           do 3 right. done.
      * rewrite app_nil_l. apply NoDup_app. split; [apply NoDup_singleton|]. split.
        -- intros q' Hq'. apply list_elem_of_singleton in Hq' as ->.
           rewrite elem_of_app. intros [Hin|Hin].
           ++ destruct (post_calls _ _ _ _ _ _ P2 q Hin) as (_ & Hu & _).
              rewrite (written_revealed _ _ _ _ _ _ Hg1 Hq) in Hu; [done|].
              by apply list_elem_of_singleton.
           ++ destruct (loop_calls _ _ _ _ _ _ P4 q Hin) as (_ & Hu & _).
              rewrite (written_revealed _ _ _ _ _ _ Hg3 Hq) in Hu; [done|].
              by apply list_elem_of_singleton.
        -- apply NoDup_app. split; [apply (post_nodup _ _ _ _ _ _ P2)|].
           split; [|apply (loop_nodup _ _ _ _ _ _ P4)].
           intros q' Hin2 Hin4.
           destruct (post_calls _ _ _ _ _ _ P2 q' Hin2) as (Hi & _ & Hw).
           destruct (loop_calls _ _ _ _ _ _ P4 q' Hin4) as (_ & Hu & _).
           apply (unrevealed_back _ _ _ _ _ _ Hg3 Hi) in Hu.
           by rewrite (written_revealed _ _ _ _ _ _ Hg2 Hi Hw) in Hu.
    + destruct (IH (upd g (ref_of q) (Tile.set_isRevealed true)))
        as (g4 & l4 & -> & P4); [done | apply Hg1 | |].
      { pose proof (hidden_mono _ _ _ _ _ Hg1). lia. }
      cbn [bind]. eexists _, _. split; [done|].
      pose proof (loop_rel _ _ _ _ _ _ P4) as Hg4.
      split; cbn [log_app calls writes].
      * exact (reveal_rel_trans _ _ _ _ _ _ _ Hg1 Hg4).
      * intros q' Hq'. rewrite elem_of_app.
        apply elem_of_cons in Hq' as [->|Hq'].
        -- left. by apply list_elem_of_singleton.
        -- right. by apply (loop_all _ _ _ _ _ _ P4).
      * intros q'. rewrite elem_of_app, list_elem_of_singleton.
        intros [-> | Hq']; [left; left|].
        destruct (loop_writes _ _ _ _ _ _ P4 q' Hq') as [Hin|Hzn].
        -- left. by right.
        -- right. exact (zero_neighbour_back _ _ _ _ _ _ Hg1 Hzn).
      * intros q'. rewrite app_nil_l. intros Hq'.
        destruct (loop_calls _ _ _ _ _ _ P4 q' Hq') as (Hi & Hu & Hw).
        split; [done|]. split; [exact (unrevealed_back _ _ _ _ _ _ Hg1 Hi Hu)|].
        rewrite elem_of_app. by right.
      * rewrite app_nil_l. apply (loop_nodup _ _ _ _ _ _ P4).
Qed.

(** With room for one activation more than there are hidden tiles,
    [reveal_tiles] returns, and what it returns satisfies [reveal_post]. *)
Lemma reveal_tiles_spec (w h : Z) :
  forall (depth : nat) (g : Grid) (p : Vec2.t),
    wf w h g -> interior w h p -> (hidden w h g < depth)%nat ->
    exists g' l, reveal_tiles depth g p = Ok (g', l) /\ reveal_post w h g p g' l.
Proof.
  induction depth as [|depth IH]; intros g p Hwf Hp Hd; [lia|].
  destruct (wf_interior_locate w h g p Hwf Hp) as (t & Hloc & Ht & Hpos).
  cbn [reveal_tiles]. rewrite Hloc. cbn [bind attr].
  destruct (Tile.mines t =? 0) eqn:Hz.
  - rewrite (wf_get_neighbour_tiles w h g p Hwf Hp). cbn [bind].
    destruct (reveal_loop_spec w h depth (reveal_tiles depth) IH (neighbours w h p) g)
      as (g' & l & Hrun & P); [|done|lia|].
    { intros q Hq. by apply (neighbours_interior w h p q Hp). }
    exists g', l. split; [done|]. split.
    + apply (loop_rel _ _ _ _ _ _ P).
    + intros _ _ _. apply (loop_all _ _ _ _ _ _ P).
    + intros q Hq. destruct (loop_writes _ _ _ _ _ _ P q Hq) as [Hin|Hzn]; [|done].
      exists p, t. apply Z.eqb_eq in Hz. done.
    + apply (loop_calls _ _ _ _ _ _ P).
    + apply (loop_nodup _ _ _ _ _ _ P).
  - exists g, (mkLog [] []). split; [done|]. split; cbn [calls writes].
    + by apply reveal_rel_refl.
    + intros t' Ht' Hm. rewrite Ht in Ht'. injection Ht' as <-.
      apply Z.eqb_neq in Hz. done.
    + intros q Hq. by apply elem_of_nil in Hq.
    + intros q Hq. by apply elem_of_nil in Hq.
    + apply NoDup_nil_2.
Qed.

(** A deeper stack does not change a run that returned. *)
Lemma reveal_loop_rec_mono (rec rec' : Grid -> Vec2.t -> result (Grid * Log)) :
  (forall g p res, rec g p = Ok res -> rec' g p = Ok res) ->
  forall nbs g res,
    reveal_loop rec nbs g = Ok res -> reveal_loop rec' nbs g = Ok res.
Proof.
  intros Hrec. induction nbs as [|r nbs IH]; intros g res; [done|].
  cbn [reveal_loop]. intros H.
  apply bind_Ok in H as (n & -> & H). cbn [bind].
  destruct (negb (Tile.isRevealed n) && (Tile.mines n =? 0)).
  - apply bind_Ok in H as ([g2 l2] & H2 & H).
    apply bind_Ok in H as ([g4 l4] & H4 & H).
    rewrite (Hrec _ _ _ H2). cbn [bind]. rewrite (IH _ _ H4). done.
  - apply bind_Ok in H as ([g4 l4] & H4 & H).
    rewrite (IH _ _ H4). done.
Qed.

Lemma reveal_tiles_depth_mono :
  forall (d d' : nat) (g : Grid) (p : Vec2.t) (res : Grid * Log),
    (d <= d')%nat -> reveal_tiles d g p = Ok res -> reveal_tiles d' g p = Ok res.
Proof.
  induction d as [|d IH]; intros d' g p res Hle H; [done|].
  destruct d' as [|d']; [lia|]. cbn [reveal_tiles] in *.
  apply bind_Ok in H as ([r o] & -> & H). cbn [bind].
  apply bind_Ok in H as (t & -> & H). cbn [bind].
  destruct (Tile.mines t =? 0); [|done].
  apply bind_Ok in H as (nbs & -> & H). cbn [bind].
  eapply reveal_loop_rec_mono; [|exact H].
  intros g0 p0 res0. apply IH. lia.
Qed.

(** Every run of [reveal_tiles] that returns satisfies [reveal_post]. *)
Lemma reveal_tiles_sound (w h : Z) (depth : nat) (g g' : Grid) (p : Vec2.t) (l : Log) :
  wf w h g -> interior w h p ->
  reveal_tiles depth g p = Ok (g', l) -> reveal_post w h g p g' l.
Proof.
  intros Hwf Hp Hrun.
  destruct (reveal_tiles_spec w h (depth + S (hidden w h g)) g p)
    as (g1 & l1 & Hrun1 & P); [done | done | lia |].
  apply (reveal_tiles_depth_mono depth (depth + S (hidden w h g))) in Hrun; [|lia].
  rewrite Hrun in Hrun1. by injection Hrun1 as -> ->.
Qed.

(** One more activation than there are interior tiles is always enough. *)
Lemma reveal_tiles_total (w h : Z) (depth : nat) (g : Grid) (p : Vec2.t) :
  wf w h g -> interior w h p -> (Z.to_nat ((w - 2) * (h - 2)) < depth)%nat ->
  exists g' l, reveal_tiles depth g p = Ok (g', l) /\ reveal_post w h g p g' l.
Proof.
  intros Hwf Hp Hd. apply reveal_tiles_spec; [done..|].
  pose proof (hidden_le w h g) as Hle. destruct Hp as [? ?].
  rewrite length_interior_coords in Hle by lia. lia.
Qed.

(** ** [isRevealed] is never lowered, on any grid *)

Lemma stays_refl (g : Grid) : stays_revealed g g.
Proof. intros r t Ht Hr. eauto. Qed.

Lemma stays_trans (g1 g2 g3 : Grid) :
  stays_revealed g1 g2 -> stays_revealed g2 g3 -> stays_revealed g1 g3.
Proof.
  intros H12 H23 r t Ht Hr. destruct (H12 r t Ht Hr) as (t2 & Ht2 & Hr2). eauto.
Qed.

Lemma stays_upd (g : Grid) (rc : ref) (f : Tile.t -> Tile.t) :
  (forall t, Tile.isRevealed t = true -> Tile.isRevealed (f t) = true) ->
  stays_revealed g (upd g rc f).
Proof.
  intros Hf r t Ht Hr. rewrite deref_upd. case_decide as Heq.
  - subst r. rewrite Ht. simpl. eauto.
  - eauto.
Qed.

(** Closes [stays_revealed g (upd g r f)] for a field assignment [f]. *)
Ltac stays_field := apply stays_upd; intros ? ?; simpl; done.

Lemma reveal_loop_stays (rec : Grid -> Vec2.t -> result (Grid * Log)) :
  (forall g p g' l, rec g p = Ok (g', l) -> stays_revealed g g') ->
  forall nbs g g' l, reveal_loop rec nbs g = Ok (g', l) -> stays_revealed g g'.
Proof.
  intros Hrec. induction nbs as [|r nbs IH]; intros g g' l; cbn [reveal_loop].
  - intros [= <- _]. apply stays_refl.
  - intros H. apply bind_Ok in H as (n & _ & H).
    destruct (negb (Tile.isRevealed n) && (Tile.mines n =? 0)).
    + apply bind_Ok in H as ([g2 l2] & H2 & H).
      apply bind_Ok in H as ([g4 l4] & H4 & H). injection H as <- _.
      apply (stays_trans _ (upd g r (Tile.set_isRevealed true))); [stays_field|].
      apply (stays_trans _ g2); [exact (Hrec _ _ _ _ H2)|].
      apply (stays_trans _ (upd g2 r (Tile.set_isRevealed true))); [stays_field|].
      exact (IH _ _ _ H4).
    + apply bind_Ok in H as ([g4 l4] & H4 & H). injection H as <- _.
      apply (stays_trans _ (upd g r (Tile.set_isRevealed true))); [stays_field|].
      exact (IH _ _ _ H4).
Qed.

Lemma reveal_tiles_stays :
  forall depth g p g' l, reveal_tiles depth g p = Ok (g', l) -> stays_revealed g g'.
Proof.
  induction depth as [|depth IH]; intros g p g' l H; [done|].
  cbn [reveal_tiles] in H.
  apply bind_Ok in H as ([r o] & _ & H). apply bind_Ok in H as (t & _ & H).
  destruct (Tile.mines t =? 0).
  - apply bind_Ok in H as (nbs & _ & H). by apply (reveal_loop_stays _ IH) in H.
  - injection H as <- _. apply stays_refl.
Qed.

Lemma gen_mine_stays (yy xx : Z) (acc acc' : Grid * RNG) :
  gen_mine yy acc xx = Ok acc' -> stays_revealed acc.1 acc'.1.
Proof.
  unfold gen_mine. cbn [randint]. destruct (acc.2 0%nat =? 0).
  - intros H. apply bind_Ok in H as ([r o] & _ & H).
    apply bind_Ok in H as (t & _ & H). injection H as <-. stays_field.
  - intros [= <-]. apply stays_refl.
Qed.

Lemma count_tile_stays (yy xx : Z) (g g' : Grid) :
  count_tile yy g xx = Ok g' -> stays_revealed g g'.
Proof.
  unfold count_tile. intros H. apply bind_Ok in H as ([r o] & _ & H).
  apply bind_Ok in H as (t & _ & H). apply bind_Ok in H as (nbs & _ & H).
  injection H as <-. stays_field.
Qed.

Lemma fold_upd_stays (f : Tile.t -> Tile.t) :
  (forall t, Tile.isRevealed t = true -> Tile.isRevealed (f t) = true) ->
  forall (nbs : list ref) (g : Grid),
    stays_revealed g (fold_left (fun g r => upd g r f) nbs g).
Proof.
  intros Hf. induction nbs as [|r nbs IH]; intros g; simpl; [apply stays_refl|].
  apply (stays_trans _ (upd g r f)); [by apply stays_upd | apply IH].
Qed.

Lemma set_mines_stays (rng rng' : RNG) (s s' : Game) (p : Vec2.t) :
  set_mines rng s p = Ok (s', rng') -> stays_revealed (tilemap s) (tilemap s').
Proof.
  unfold set_mines. intros H.
  apply bind_Ok in H as ([g1 rng1] & H1 & H).
  apply bind_Ok in H as ([r0 o0] & _ & H). apply bind_Ok in H as (t0 & _ & H).
  apply bind_Ok in H as (nbs & _ & H). apply bind_Ok in H as (g4 & H4 & H).
  injection H as <- _. cbn [tilemap with_tilemap with_minesSet] in *.
  assert (stays_revealed (tilemap s) g1) as S1.
  { revert H1.
    apply (foldM_Ok_inv _ (fun acc => stays_revealed (tilemap s) acc.1));
      [|apply stays_refl].
    intros acc yy acc1 Hacc.
    apply (foldM_Ok_inv _ (fun acc => stays_revealed (tilemap s) acc.1)); [|done].
    intros a xx a1 Ha Hgen. eapply stays_trans; [exact Ha|].
    by apply gen_mine_stays in Hgen. }
  set (g3 := fold_left _ nbs _) in *.
  apply (stays_trans _ g1); [exact S1|].
  apply (stays_trans _ (upd g1 r0 (Tile.set_isMine false))); [stays_field|].
  apply (stays_trans _ g3); [by apply (fold_upd_stays (Tile.set_isMine false))|].
  revert H4. apply (foldM_Ok_inv _ (stays_revealed g3)); [|apply stays_refl].
  intros g yy g' Hg.
  apply (foldM_Ok_inv _ (stays_revealed g3)); [|done].
  intros a xx a1 Ha Hc. eapply stays_trans; [exact Ha|].
  by apply count_tile_stays in Hc.
Qed.

Lemma handle_event_stays (depth : nat) (acc acc' : Game * RNG) (ev : Event) :
  handle_event depth acc ev = Ok acc' ->
  stays_revealed (tilemap acc.1) (tilemap acc'.1).
Proof.
  destruct acc as [s rng]. destruct ev as [|button mPos|]; cbn [handle_event fst].
  - intros [= <-]. apply stays_refl.
  - intros H. apply bind_Ok in H as ([r o] & _ & H).
    destruct (button =? 1).
    + apply bind_Ok in H as (tile & _ & H).
      destruct (Tile.flagged tile); [injection H as <-; apply stays_refl|].
      destruct (Tile.isRevealed tile); [injection H as <-; apply stays_refl|].
      apply bind_Ok in H as ([s2 rng2] & H2 & H).
      apply bind_Ok in H as ([g4 l4] & H4 & H). injection H as <-.
      cbn [fst tilemap with_tilemap].
      assert (stays_revealed (tilemap s) (tilemap s2)) as S2.
      { destruct (negb (__minesSet _)).
        - apply set_mines_stays in H2. by destruct (Tile.isMine tile).
        - injection H2 as <- _. destruct (Tile.isMine tile); apply stays_refl. }
      apply (stays_trans _ (tilemap s2)); [exact S2|].
      apply (stays_trans _ (upd (tilemap s2) r (Tile.set_isRevealed true)));
        [stays_field|].
      by apply reveal_tiles_stays in H4.
    + destruct (button =? 3).
      * apply bind_Ok in H as (tile & _ & H). injection H as <-.
        cbn [fst tilemap with_tilemap]. stays_field.
      * injection H as <-. apply stays_refl.
  - intros [= <-]. apply stays_refl.
Qed.

(** ** Mine placement on a well-formed grid *)

Lemma count_mines_eq (g : Grid) (nbs : list ref) :
  count_mines g nbs = mine_count g nbs.
Proof.
  unfold count_mines, mine_count.
  assert (forall a : Z,
    fold_left (fun count r =>
      match deref g r with
      | Some t => if Tile.isMine t then count + 1 else count
      | None => count
      end) nbs a
    = a + Z.of_nat (length (filter (fun r => is_mine g r = true) nbs))) as Hgen.
  { induction nbs as [|r nbs IH]; intros a; simpl; [lia|].
    rewrite IH, filter_cons.
    assert (is_mine g r = match deref g r with
                          | Some t => Tile.isMine t
                          | None => false
                          end) as Hm by done.
    destruct (deref g r) as [t|]; [destruct (Tile.isMine t)|].
    - rewrite decide_True by done. simpl length. lia.
    - rewrite decide_False by (by rewrite Hm). done.
    - rewrite decide_False by (by rewrite Hm). done. }
  apply Hgen.
Qed.

Lemma mine_count_ext (g g' : Grid) (nbs : list ref) :
  (forall r, is_mine g' r = is_mine g r) -> mine_count g' nbs = mine_count g nbs.
Proof.
  intros Heq. unfold mine_count. f_equal.
  induction nbs as [|r nbs IH]; [done|].
  rewrite !filter_cons, Heq. case_decide; simpl; by rewrite IH.
Qed.

Lemma is_mine_upd (g : Grid) (rc r : ref) (f : Tile.t -> Tile.t) :
  (forall t, Tile.isMine (f t) = Tile.isMine t) ->
  is_mine (upd g rc f) r = is_mine g r.
Proof.
  intros Hf. unfold is_mine. rewrite deref_upd. case_decide as Heq; [|done].
  subst r. destruct (deref g rc); simpl; [apply Hf | done].
Qed.

Lemma safe_upd (g : Grid) (rc : ref) (q : Vec2.t) :
  safe g q -> safe (upd g rc (Tile.set_isMine false)) q.
Proof.
  intros (t & Ht & Hm). unfold safe, tile_at in *. rewrite deref_upd.
  case_decide as Heq.
  - subst rc. rewrite Ht. simpl. eauto.
  - eauto.
Qed.

Lemma safe_upd_here (w h : Z) (g : Grid) (q : Vec2.t) :
  wf w h g -> interior w h q -> safe (upd g (ref_of q) (Tile.set_isMine false)) q.
Proof.
  intros Hwf Hq. destruct (wf_tile_at w h g q Hwf Hq) as (t & Ht & _).
  unfold safe, tile_at in *. rewrite deref_upd_eq, Ht. simpl. eauto.
Qed.

Lemma safe_is_mine (w h : Z) (g g' : Grid) (q : Vec2.t) :
  wf w h g' -> interior w h q -> (forall r, is_mine g' r = is_mine g r) ->
  safe g q -> safe g' q.
Proof.
  intros Hwf Hq Heq (t & Ht & Hm).
  destruct (wf_tile_at w h g' q Hwf Hq) as (t' & Ht' & _).
  exists t'. split; [done|]. specialize (Heq (ref_of q)).
  unfold is_mine, tile_at in *. rewrite Ht, Ht' in Heq. congruence.
Qed.

(** The first pair of loops: whatever is drawn, the grid keeps its shape. *)
Lemma gen_mines_wf (w h : Z) (rng : RNG) (g : Grid) :
  wf w h g ->
  exists g1 rng1,
    foldM (fun acc yy => foldM (gen_mine yy) acc (range 1 (w - 1)))
          (g, rng) (range 1 (h - 1)) = Ok (g1, rng1) /\
    wf w h g1.
Proof.
  intros Hwf.
  destruct (foldM_total
              (fun acc yy => foldM (gen_mine yy) acc (range 1 (w - 1)))
              (fun _ (acc : Grid * RNG) => wf w h acc.1)
              (range 1 (h - 1)) [] (g, rng)) as ([g1 rng1] & Hrun & Hwf1); [done| |eauto].
  intros _ yy acc Hyy Hacc. apply elem_of_seqZ in Hyy.
  destruct (foldM_total (gen_mine yy)
              (fun _ (acc : Grid * RNG) => wf w h acc.1)
              (range 1 (w - 1)) [] acc) as (acc1 & Hrun & Hwf1); [done| |eauto].
  intros _ xx a Hxx Ha. apply elem_of_seqZ in Hxx.
  unfold gen_mine. cbn [randint]. destruct (a.2 0%nat =? 0); [|eauto].
  destruct (wf_interior_locate w h a.1 (Vec2.mk xx yy)) as (t & Hloc & _);
    [done | split; simpl; lia |].
  cbn [Vec2.x Vec2.y] in Hloc. rewrite Hloc. cbn [bind attr].
  eexists. split; [done|]. by apply wf_upd.
Qed.

(** The loop that clears the neighbours of the start tile. *)
Lemma clear_mines_spec (w h : Z) (ps : list Vec2.t) :
  (forall q, q ∈ ps -> interior w h q) ->
  forall g, wf w h g ->
    wf w h (fold_left (fun g r => upd g r (Tile.set_isMine false)) (ref_of <$> ps) g) /\
    forall q, safe g q \/ q ∈ ps ->
      safe (fold_left (fun g r => upd g r (Tile.set_isMine false)) (ref_of <$> ps) g) q.
Proof.
  induction ps as [|p ps IH]; intros Hps g Hwf; simpl.
  - split; [done|]. intros q [Hs|Hin]; [done | by apply elem_of_nil in Hin].
  - assert (forall q, q ∈ ps -> interior w h q) as Hps'
      by (intros q Hq; apply Hps; by right).
    destruct (IH Hps' (upd g (ref_of p) (Tile.set_isMine false))) as [Hwf' Hsafe];
      [by apply wf_upd|].
    split; [done|]. intros q [Hs|Hin]; apply Hsafe.
    + left. by apply safe_upd.
    + apply elem_of_cons in Hin as [->|Hin]; [|by right].
      left. apply (safe_upd_here w h); [done|]. apply Hps. left.
Qed.

Section counting.
Variables (w h : Z) (g3 : Grid).

Lemma count_inv_weaken (seen seen' : Vec2.t -> Prop) (g : Grid) :
  (forall q, interior w h q -> seen' q -> seen q) ->
  count_inv w h g3 seen g -> count_inv w h g3 seen' g.
Proof.
  intros Hs (Hwf & Hm & Hc). split; [done|]. split; [done|].
  intros q Hq Hsq. apply Hc; [done|]. by apply Hs.
Qed.

Lemma count_tile_step (seen : Vec2.t -> Prop) (g : Grid) (xx yy : Z) :
  count_inv w h g3 seen g -> interior w h (Vec2.mk xx yy) ->
  exists g', count_tile yy g xx = Ok g' /\
    count_inv w h g3 (fun q => seen q \/ q = Vec2.mk xx yy) g'.
Proof.
  intros (Hwf & Hm & Hc) Hq.
  destruct (wf_interior_locate w h g _ Hwf Hq) as (t & Hloc & Ht & Hpos).
  unfold count_tile. cbn [Vec2.x Vec2.y] in Hloc. rewrite Hloc. cbn [bind attr].
  rewrite Hpos, (wf_get_neighbour_tiles w h g _ Hwf Hq). cbn [bind].
  eexists. split; [done|]. split; [by apply wf_upd|]. split.
  - intros r. rewrite is_mine_upd by done. apply Hm.
  - intros q Hqi Hsq. unfold counted, tile_at. rewrite deref_upd.
    case_decide as Heq.
    + apply (ref_of_inj w h) in Heq as <-; [|done..].
      unfold tile_at in Ht. rewrite Ht. eexists. split; [done|]. simpl.
      rewrite count_mines_eq. by apply mine_count_ext.
    + destruct Hsq as [Hsq | ->]; [by apply Hc | done].
Qed.

Lemma count_loops_spec :
  wf w h g3 ->
  exists g4,
    foldM (fun g yy => foldM (count_tile yy) g (range 1 (w - 1)))
          g3 (range 1 (h - 1)) = Ok g4 /\
    count_inv w h g3 (interior w h) g4.
Proof.
  intros Hwf.
  destruct (foldM_total
              (fun g yy => foldM (count_tile yy) g (range 1 (w - 1)))
              (fun dys g => count_inv w h g3 (fun q => Vec2.y q ∈ dys) g)
              (range 1 (h - 1)) [] g3) as (g4 & Hrun & Hinv).
  - split; [done|]. split; [done|].
    intros q _ Hq. by apply elem_of_nil in Hq.
  - intros dys yy g Hyy Hg. apply elem_of_seqZ in Hyy.
    destruct (foldM_total (count_tile yy)
                (fun dxs g => count_inv w h g3
                   (fun q => Vec2.y q ∈ dys \/ (Vec2.y q = yy /\ Vec2.x q ∈ dxs)) g)
                (range 1 (w - 1)) [] g) as (g' & Hrun & Hinv).
    + revert Hg. apply count_inv_weaken. intros q _ [Hq|[_ Hq]]; [done|].
      by apply elem_of_nil in Hq.
    + intros dxs xx g0 Hxx Hg0. apply elem_of_seqZ in Hxx.
      destruct (count_tile_step _ g0 xx yy Hg0) as (g1 & Hstep & Hg1);
        [split; simpl; lia|].
      exists g1. split; [done|]. revert Hg1. apply count_inv_weaken.
      intros q _ [Hq|[Hy Hx]]; [left; by left|].
      apply elem_of_app in Hx as [Hx|Hx]; [left; right; done|].
      apply list_elem_of_singleton in Hx. right. destruct q; simpl in *. congruence.
    + exists g'. split; [done|]. revert Hinv. apply count_inv_weaken.
      intros q [Hx _] Hq. apply elem_of_app in Hq as [Hq|Hq]; [by left|].
      apply list_elem_of_singleton in Hq. right. split; [done|].
      apply elem_of_seqZ. lia.
  - exists g4. split; [done|]. revert Hinv. apply count_inv_weaken.
    intros q [_ Hy] _. apply elem_of_seqZ. lia.
Qed.
End counting.

(** [set_mines] on a well-formed grid, for any random draws. *)
Lemma set_mines_spec (w h : Z) (rng : RNG) (s : Game) (p : Vec2.t) :
  wf w h (tilemap s) -> _hTiles s = w -> _vTiles s = h -> interior w h p ->
  exists g' rng',
    set_mines rng s p = Ok (with_tilemap g' (with_minesSet true s), rng') /\
    wf w h g' /\ safe g' p /\ (forall q, q ∈ neighbours w h p -> safe g' q) /\
    counts_ok w h g'.
Proof.
  intros Hwf Hw Hh Hp. unfold set_mines.
  cbn [with_minesSet _hTiles _vTiles tilemap]. rewrite Hw, Hh.
  destruct (gen_mines_wf w h rng (tilemap s) Hwf) as (g1 & rng1 & -> & Hwf1).
  cbn [bind].
  destruct (wf_interior_locate w h g1 p Hwf1 Hp) as (t & -> & _ & _).
  cbn [bind attr].
  assert (wf w h (upd g1 (ref_of p) (Tile.set_isMine false))) as Hwf2
    by (by apply wf_upd).
  rewrite (wf_get_neighbour_tiles w h _ p Hwf2 Hp). cbn [bind].
  destruct (clear_mines_spec w h (neighbours w h p)
              (fun q Hq => proj1 (neighbours_interior w h p q Hp Hq))
              _ Hwf2) as [Hwf3 Hsafe3].
  destruct (count_loops_spec w h _ Hwf3) as (g4 & -> & Hwf4 & Hm4 & Hc4).
  cbn [bind]. exists g4, rng1. split; [done|]. split; [done|].
  split; [|split].
  - apply (safe_is_mine w h _ g4 p Hwf4 Hp Hm4). apply Hsafe3. left.
    by apply (safe_upd_here w h).
  - intros q Hq. destruct (neighbours_interior w h p q Hp Hq) as [Hqi _].
    apply (safe_is_mine w h _ g4 q Hwf4 Hqi Hm4). apply Hsafe3. by right.
  - intros q t' Hq Ht'. rewrite (wf_get_neighbour_tiles w h g4 q Hwf4 Hq).
    eexists. split; [done|].
    destruct (Hc4 q Hq Hq) as (t'' & Ht'' & Hcount).
    rewrite Ht' in Ht''. injection Ht'' as <-. rewrite Hcount.
    symmetry. by apply mine_count_ext.
Qed.

(** ** The checkers are sound *)

Lemma forallb_imap {A} (f : nat -> A -> bool) (l : list A) :
  forallb id (imap f l) = true ->
  forall i x, l !! i = Some x -> f i x = true.
Proof.
  intros H i x Hx. apply Is_true_true, forallb_True in H.
  apply (Forall_lookup_1 _ _ i (f i x)) in H.
  - by apply Is_true_true in H.
  - by rewrite list_lookup_imap, Hx.
Qed.

Lemma wfb_wf (w h : Z) (g : Grid) : wfb w h g = true -> wf w h g.
Proof.
  unfold wfb. intros H. apply andb_true_iff in H as [Hlen Hrows].
  apply bool_decide_eq_true in Hlen. split; [done|].
  intros r row Hrow. pose proof (forallb_imap _ _ Hrows r row Hrow) as Hr.
  unfold row_ok in Hr. apply andb_true_iff in Hr as [Hl Hcells].
  apply bool_decide_eq_true in Hl. split; [done|].
  intros c o Ho. pose proof (forallb_imap _ _ Hcells c o Ho) as Hc.
  unfold cell_ok in Hc. destruct o as [t|].
  - apply andb_true_iff in Hc as [Hb Hp]. apply negb_true_iff in Hb.
    apply bool_decide_eq_true in Hp. rewrite Hb. eauto.
  - by rewrite Hc.
Qed.

Lemma counts_okb_ok (w h : Z) (g : Grid) : counts_okb w h g = true -> counts_ok w h g.
Proof.
  intros H q t Hq Ht. apply elem_of_interior_coords, list_elem_of_In in Hq.
  pose proof (proj1 (forallb_forall _ _) H q Hq) as Hc. simpl in Hc.
  rewrite Ht in Hc. destruct (get_neighbour_tiles g q) as [nbs| |]; try done.
  exists nbs. split; [done|]. by apply Z.eqb_eq.
Qed.

(** ** The invariant along a session *)

(** A pointer inside the window maps to an interior coordinate. *)
Lemma mouse_in_window_interior (s : Game) (mx my : Z) :
  tilesize s = 32 ->
  0 <= mx < 32 * (_hTiles s - 2) -> 0 <= my < 32 * (_vTiles s - 2) ->
  interior (_hTiles s) (_vTiles s) (mouse_to_grid s (mx, my)).
Proof.
  intros Hts Hx Hy. unfold mouse_to_grid, interior. rewrite Hts. cbn [fst snd Vec2.x Vec2.y].
  assert (forall m n, 0 <= m < 32 * (n - 2) -> 1 <= (m + 32) `div` 32 <= n - 2) as Hdiv.
  { intros m n Hm. split.
    - apply Z.div_le_lower_bound; lia.
    - assert ((m + 32) `div` 32 < n - 1); [|lia].
      apply Z.div_lt_upper_bound; lia. }
  split; by apply Hdiv.
Qed.

(** Handling a click inside the grid never fails when the stack is deep
    enough, and keeps the grid well formed. *)
Lemma handle_event_wf (depth : nat) (rng : RNG) (s : Game) (button : Z) (mPos : Z * Z) :
  wf (_hTiles s) (_vTiles s) (tilemap s) ->
  interior (_hTiles s) (_vTiles s) (mouse_to_grid s mPos) ->
  (Z.to_nat ((_hTiles s - 2) * (_vTiles s - 2)) < depth)%nat ->
  exists s' rng',
    handle_event depth (s, rng) (MOUSEBUTTONDOWN button mPos) = Ok (s', rng') /\
    _hTiles s' = _hTiles s /\ _vTiles s' = _vTiles s /\
    wf (_hTiles s) (_vTiles s) (tilemap s').
Proof.
  intros Hwf Hp Hd.
  destruct (wf_interior_locate _ _ _ _ Hwf Hp) as (t & Hloc & Ht & _).
  cbn [handle_event]. rewrite Hloc. cbn [bind attr].
  destruct (button =? 1).
  - destruct (Tile.flagged t); [by eexists _, _|].
    destruct (Tile.isRevealed t); [by eexists _, _|].
    set (s1 := if Tile.isMine t then with_running false s else s).
    assert (wf (_hTiles s1) (_vTiles s1) (tilemap s1) /\
            _hTiles s1 = _hTiles s /\ _vTiles s1 = _vTiles s) as (Hwf1 & Hw1 & Hh1)
      by (unfold s1; by destruct (Tile.isMine t)).
    assert (exists s2 rng2,
      (if negb (__minesSet s1) then set_mines rng s1 (mouse_to_grid s mPos)
       else Ok (s1, rng)) = Ok (s2, rng2) /\
      _hTiles s2 = _hTiles s /\ _vTiles s2 = _vTiles s /\
      wf (_hTiles s) (_vTiles s) (tilemap s2)) as (s2 & rng2 & -> & Hw2 & Hh2 & Hwf2).
    { destruct (negb (__minesSet s1)).
      - destruct (set_mines_spec _ _ rng s1 (mouse_to_grid s mPos) Hwf1 eq_refl eq_refl)
          as (g' & rng' & -> & Hwf' & _); [by rewrite Hw1, Hh1|].
        eexists _, _. split; [done|]. cbn [_hTiles _vTiles tilemap with_tilemap with_minesSet].
        by rewrite <- Hw1, <- Hh1.
      - eexists _, _. split; [done|]. by rewrite <- Hw1, <- Hh1. }
    cbn [bind].
    pose proof (reveal_rel_upd _ _ _ _ Hwf2 Hp) as Hg3.
    destruct (reveal_tiles_total _ _ depth _ _ (proj1 Hg3) Hp Hd)
      as (g4 & l4 & -> & P).
    cbn [bind]. eexists _, _. split; [done|].
    cbn [_hTiles _vTiles tilemap with_tilemap].
    split; [done|]. split; [done|]. apply (post_rel _ _ _ _ _ _ P).
  - destruct (button =? 3).
    + eexists _, _. split; [done|]. cbn [_hTiles _vTiles tilemap with_tilemap].
      split; [done|]. split; [done|]. by apply wf_upd.
    + by eexists _, _.
Qed.

(** ** The embedding on concrete inputs *)

Example init_tilemap_4_3 :
  init_tilemap 4 3 =
  [ [None; None; None; None];
    [None; Some (tile 1 1 false false false 0); Some (tile 2 1 false false false 0); None];
    [None; None; None; None] ].
Proof. reflexivity. Qed.

Example neighbours_of_corner :
  get_neighbour_tiles (init_tilemap 4 4) (Vec2.mk 1 1)
  = Ok [(1, 2); (2, 1); (2, 2)]%nat.
Proof. reflexivity. Qed.

(** Outside the interior the indices wrap around or fall off the list, as
    Python's do. *)
Example neighbours_wrap_around :
  get_neighbour_tiles (init_tilemap 4 4) (Vec2.mk 0 0) = Ok [(1, 1)]%nat.
Proof. reflexivity. Qed.

Example neighbours_out_of_range :
  get_neighbour_tiles (init_tilemap 4 4) (Vec2.mk 3 3) = Raise IndexError.
Proof. reflexivity. Qed.

(** First click on the centre of a 5 by 5 game when no draw is 0: no mine
    is placed and the flood fill reveals all nine tiles. *)
Example first_click_floods_clear_board :
  exists s' rng',
    handle_event 10 (new_game 5 5, fun _ => 1) (MOUSEBUTTONDOWN 1 (40, 40))
      = Ok (s', rng') /\
    __minesSet s' = true /\ _running s' = true /\ hidden 5 5 (tilemap s') = 0%nat.
Proof. eexists _, _. vm_compute. repeat split. Qed.

(** A primary action on a flagged tile changes nothing. *)
Example flagged_tile_ignores_primary :
  handle_event 10
    (with_tilemap (upd clear_board (1, 1)%nat (Tile.set_flagged true)) clear_game,
     fun _ => 1)
    (MOUSEBUTTONDOWN 1 (5, 5))
  = Ok (with_tilemap (upd clear_board (1, 1)%nat (Tile.set_flagged true)) clear_game,
        fun _ => 1).
Proof. reflexivity. Qed.

(** On the 48 by 32 board of [main], free of mines, the flood fill nests
    deeper than 1000 activations. *)
Example deep_flood_fill :
  reveal_tiles 1000 (init_tilemap 48 32) (Vec2.mk 20 15) = RecursionError.
Proof. vm_compute. reflexivity. Qed.

(** ** The neighbours the code visits are the cells around *)

Lemma live_neighbour_iff (w h : Z) (p q : Vec2.t) :
  interior w h p -> q ∈ neighbours w h p <-> live_neighbour w h p q.
Proof.
  intros Hp. split.
  - intros Hq. destruct (neighbours_interior w h p q Hp Hq) as [Hqi Hne].
    apply elem_of_neighbours in Hq as (_ & [dy dx] & (Hd1 & Hd2 & _) & ->).
    unfold live_neighbour, adjacent, shift in *. cbn [fst snd Vec2.x Vec2.y] in *.
    split; [|done]. split; [done|]. lia.
  - intros [(Hne & Hx & Hy) Hqi]. apply elem_of_neighbours. split.
    + apply border_false_iff. unfold interior in Hqi. lia.
    + exists (Vec2.y q - Vec2.y p, Vec2.x q - Vec2.x p). split.
      * unfold unit_step. cbn [fst snd]. split; [lia|]. split; [lia|].
        intros [= H1 H2]. apply Hne. destruct p, q. cbn [Vec2.x Vec2.y] in *.
        f_equal; lia.
      * unfold shift. cbn [fst snd]. destruct p, q. cbn [Vec2.x Vec2.y].
        f_equal; lia.
Qed.

Lemma neighbours_NoDup (w h : Z) (p : Vec2.t) : NoDup (neighbours w h p).
Proof.
  unfold neighbours. apply NoDup_filter. apply NoDup_fmap_2_strong.
  - intros [dy dx] [dy' dx'] _ _. unfold shift. cbn [fst snd].
    intros [= H1 H2]. f_equal; lia.
  - unfold offsets. repeat (apply NoDup_cons; split);
      [..|apply NoDup_nil_2]; rewrite ?elem_of_cons, ?elem_of_nil;
      intros Hin; destruct_or?; done.
Qed.

(** What [mine_count] counts on the tiles found around [p]. *)
Lemma mine_count_around (w h : Z) (g : Grid) (p : Vec2.t) :
  interior w h p ->
  mines_around w h g p (mine_count g (ref_of <$> neighbours w h p)).
Proof.
  intros Hp. exists (filter (fun q => is_mine g (ref_of q) = true) (neighbours w h p)).
  split; [apply NoDup_filter, neighbours_NoDup|]. split.
  - intros q. rewrite list_elem_of_filter, (live_neighbour_iff w h p q Hp).
    unfold is_mine, tile_at. split.
    + intros [Hm Hl]. split; [done|].
      destruct (deref g (ref_of q)) as [t|]; [by exists t | done].
    + intros [Hl (t & Ht & Hm)]. by rewrite Ht.
  - unfold mine_count. f_equal. generalize (neighbours w h p). intros l.
    induction l as [|a l IH]; [done|]. rewrite fmap_cons, !filter_cons.
    destruct (decide (is_mine g (ref_of a) = true)); cbn [length]; by rewrite IH.
Qed.

Lemma counts_ok_around (w h : Z) (g : Grid) (q : Vec2.t) (t : Tile.t) :
  wf w h g -> counts_ok w h g -> interior w h q -> tile_at g q = Some t ->
  mines_around w h g q (Tile.mines t).
Proof.
  intros Hwf Hc Hq Ht. destruct (Hc q t Hq Ht) as (nbs & Hnbs & ->).
  rewrite (wf_get_neighbour_tiles w h g q Hwf Hq) in Hnbs. injection Hnbs as <-.
  by apply mine_count_around.
Qed.

(** * The claims *)

(** ** C2 *)

(** C2, as the code has it: on the grid [init_tilemap] builds for
    [w >= 3] and [h >= 3], [get_neighbour_tiles] at an interior coordinate
    returns at most 8 tiles (at least 3 once [w >= 4] and [h >= 4]); each
    is an interior tile stored at its own coordinates, and none is the tile
    at the queried coordinate. *)
Theorem C2_neighbours_of_interior (w h : Z) (p : Vec2.t) :
  3 <= w -> 3 <= h -> interior w h p ->
  exists nbs,
    get_neighbour_tiles (init_tilemap w h) p = Ok nbs /\
    (length nbs <= 8)%nat /\
    (4 <= w -> 4 <= h -> (3 <= length nbs)%nat) /\
    forall r, r ∈ nbs ->
      r <> ref_of p /\
      exists t, deref (init_tilemap w h) r = Some t /\
                interior w h (Tile.pos t) /\ r = ref_of (Tile.pos t) /\
                Tile.pos t <> p.
Proof.
  intros Hw Hh Hp. pose proof (init_tilemap_wf w h) as Hwf.
  exists (ref_of <$> neighbours w h p).
  split; [by apply wf_get_neighbour_tiles|].
  rewrite length_fmap. split; [apply neighbours_length_le|].
  split; [intros; by apply neighbours_length_ge|].
  intros r Hr. apply list_elem_of_fmap in Hr as (q & -> & Hq).
  destruct (neighbours_interior w h p q Hp Hq) as [Hqi Hne].
  destruct (wf_tile_at w h _ q Hwf Hqi) as (t & Ht & Hpos).
  split.
  - intros Heq. by apply (ref_of_inj w h) in Heq.
  - exists t. rewrite Hpos. done.
Qed.

Lemma C2_neighbours_of_interior_witness :
  exists nbs,
    get_neighbour_tiles (init_tilemap 4 4) (Vec2.mk 1 1) = Ok nbs /\
    (length nbs <= 8)%nat /\
    (4 <= 4 -> 4 <= 4 -> (3 <= length nbs)%nat) /\
    forall r, r ∈ nbs ->
      r <> ref_of (Vec2.mk 1 1) /\
      exists t, deref (init_tilemap 4 4) r = Some t /\
                interior 4 4 (Tile.pos t) /\ r = ref_of (Tile.pos t) /\
                Tile.pos t <> Vec2.mk 1 1.
Proof.
  apply (C2_neighbours_of_interior 4 4 (Vec2.mk 1 1)); [lia | lia |].
  split; simpl; lia.
Defined.

(** On the 3 by 3 grid the only interior tile has no live neighbour. *)
Lemma C2_counterexample :
  3 <= 3 /\ interior 3 3 (Vec2.mk 1 1) /\
  exists nbs,
    get_neighbour_tiles (init_tilemap 3 3) (Vec2.mk 1 1) = Ok nbs /\
    ~ (3 <= length nbs <= 8)%nat.
Proof.
  split; [lia|]. split; [split; simpl; lia|].
  exists []. split; [reflexivity|]. simpl. lia.
Qed.

(** ** C6 *)

(** C6: on a tile whose count is not zero, [reveal_tiles] returns at once:
    the grid is the same and nothing was assigned or called. *)
Theorem C6_nonzero_leaves_grid (w h : Z) (depth : nat) (g : Grid) (C : Vec2.t)
    (t : Tile.t) :
  wf w h g -> interior w h C -> tile_at g C = Some t -> Tile.mines t <> 0 ->
  reveal_tiles (S depth) g C = Ok (g, mkLog [] []).
Proof.
  intros Hwf HC Ht Hm.
  destruct (wf_interior_locate w h g C Hwf HC) as (t' & Hloc & Ht' & _).
  rewrite Ht in Ht'. injection Ht' as <-.
  cbn [reveal_tiles]. rewrite Hloc. cbn [bind attr].
  apply Z.eqb_neq in Hm. by rewrite Hm.
Qed.

Lemma C6_nonzero_leaves_grid_witness :
  reveal_tiles 1 mine_board (Vec2.mk 2 1) = Ok (mine_board, mkLog [] []).
Proof.
  apply (C6_nonzero_leaves_grid 4 3 0 mine_board (Vec2.mk 2 1)
           (tile 2 1 false false false 1)).
  - apply wfb_wf. vm_compute. reflexivity.
  - split; simpl; lia.
  - reflexivity.
  - simpl. lia.
Defined.

(** ** C9 *)

(** C9: a secondary action on an interior tile, revealed or not, negates
    its [flagged]; the tile's other fields, every other tile and the rest
    of the game state stay as they were. *)
Theorem C9_secondary_toggles_flag (depth : nat) (rng : RNG) (s : Game)
    (mPos : Z * Z) (t : Tile.t) :
  wf (_hTiles s) (_vTiles s) (tilemap s) ->
  interior (_hTiles s) (_vTiles s) (mouse_to_grid s mPos) ->
  tile_at (tilemap s) (mouse_to_grid s mPos) = Some t ->
  exists g',
    handle_event depth (s, rng) (MOUSEBUTTONDOWN 3 mPos)
      = Ok (with_tilemap g' s, rng) /\
    tile_at g' (mouse_to_grid s mPos)
      = Some (Tile.set_flagged (negb (Tile.flagged t)) t) /\
    forall r, r <> ref_of (mouse_to_grid s mPos) -> deref g' r = deref (tilemap s) r.
Proof.
  intros Hwf Hp Ht.
  destruct (wf_interior_locate _ _ _ _ Hwf Hp) as (t' & Hloc & Ht' & _).
  rewrite Ht in Ht'. injection Ht' as <-.
  exists (upd (tilemap s) (ref_of (mouse_to_grid s mPos))
              (Tile.set_flagged (negb (Tile.flagged t)))).
  split; [|split].
  - cbn [handle_event]. rewrite Hloc. cbn [bind attr]. done.
  - unfold tile_at in *. by rewrite deref_upd_eq, Ht.
  - intros r Hr. by apply deref_upd_ne.
Qed.

Lemma C9_secondary_toggles_flag_witness :
  exists g',
    handle_event 0 (clear_game, fun _ => 0) (MOUSEBUTTONDOWN 3 (40, 5))
      = Ok (with_tilemap g' clear_game, fun _ => 0) /\
    tile_at g' (mouse_to_grid clear_game (40, 5))
      = Some (Tile.set_flagged (negb (Tile.flagged (tile 2 1 false false true 0)))
                (tile 2 1 false false true 0)) /\
    forall r, r <> ref_of (mouse_to_grid clear_game (40, 5)) ->
      deref g' r = deref (tilemap clear_game) r.
Proof.
  apply (C9_secondary_toggles_flag 0 (fun _ => 0) clear_game (40, 5)
           (tile 2 1 false false true 0)).
  - apply wfb_wf. vm_compute. reflexivity.
  - split; vm_compute; split; discriminate.
  - reflexivity.
Defined.

(** ** C3 *)

(** C3: whatever the random draws, [set_mines] at an interior coordinate
    [C] returns, and afterwards neither the tile at [C] nor the tile of any
    live neighbour of [C], that is of any of the cells around [C] inside
    the ring, is a mine. *)
Theorem C3_safe_zone (rng : RNG) (s : Game) (C : Vec2.t) :
  wf (_hTiles s) (_vTiles s) (tilemap s) ->
  interior (_hTiles s) (_vTiles s) C ->
  exists s' rng',
    set_mines rng s C = Ok (s', rng') /\
    (exists t, tile_at (tilemap s') C = Some t /\ Tile.isMine t = false) /\
    forall q, live_neighbour (_hTiles s) (_vTiles s) C q ->
      exists t, tile_at (tilemap s') q = Some t /\ Tile.isMine t = false.
Proof.
  intros Hwf HC.
  destruct (set_mines_spec _ _ rng s C Hwf eq_refl eq_refl HC)
    as (g' & rng' & Hrun & Hwf' & HsafeC & Hsafe & _).
  eexists _, rng'. split; [exact Hrun|]. cbn [tilemap with_tilemap].
  split; [exact HsafeC|].
  intros q Hq. apply Hsafe. by apply live_neighbour_iff.
Qed.

(** Every draw is 0, so every interior tile is first made a mine. *)
Lemma C3_safe_zone_witness :
  exists s' rng',
    set_mines (fun _ => 0) (new_game 5 4) (Vec2.mk 1 1) = Ok (s', rng') /\
    (exists t, tile_at (tilemap s') (Vec2.mk 1 1) = Some t /\ Tile.isMine t = false) /\
    forall q, live_neighbour (_hTiles (new_game 5 4)) (_vTiles (new_game 5 4))
                (Vec2.mk 1 1) q ->
      exists t, tile_at (tilemap s') q = Some t /\ Tile.isMine t = false.
Proof.
  apply (C3_safe_zone (fun _ => 0) (new_game 5 4) (Vec2.mk 1 1)).
  - apply wfb_wf. vm_compute. reflexivity.
  - split; simpl; lia.
Defined.

(** ** C4 *)

(** C4: after [set_mines] at an interior coordinate, the grid is still
    well formed and every interior tile's [mines] is the number of its live
    neighbours, the cells around it inside the ring, whose tile is a
    mine. *)
Theorem C4_counts_match (rng : RNG) (s : Game) (C : Vec2.t) :
  wf (_hTiles s) (_vTiles s) (tilemap s) ->
  interior (_hTiles s) (_vTiles s) C ->
  exists s' rng',
    set_mines rng s C = Ok (s', rng') /\
    wf (_hTiles s) (_vTiles s) (tilemap s') /\
    forall q t, interior (_hTiles s) (_vTiles s) q ->
      tile_at (tilemap s') q = Some t ->
      mines_around (_hTiles s) (_vTiles s) (tilemap s') q (Tile.mines t).
Proof.
  intros Hwf HC.
  destruct (set_mines_spec _ _ rng s C Hwf eq_refl eq_refl HC)
    as (g' & rng' & Hrun & Hwf' & _ & _ & Hcounts).
  eexists _, rng'. split; [exact Hrun|]. cbn [tilemap with_tilemap].
  split; [done|]. intros q t Hq Ht. by apply counts_ok_around.
Qed.

Lemma C4_counts_match_witness :
  exists s' rng',
    set_mines (fun _ => 0) (new_game 5 4) (Vec2.mk 1 1) = Ok (s', rng') /\
    wf (_hTiles (new_game 5 4)) (_vTiles (new_game 5 4)) (tilemap s') /\
    forall q t, interior (_hTiles (new_game 5 4)) (_vTiles (new_game 5 4)) q ->
      tile_at (tilemap s') q = Some t ->
      mines_around (_hTiles (new_game 5 4)) (_vTiles (new_game 5 4)) (tilemap s') q
        (Tile.mines t).
Proof.
  apply (C4_counts_match (fun _ => 0) (new_game 5 4) (Vec2.mk 1 1)).
  - apply wfb_wf. vm_compute. reflexivity.
  - split; simpl; lia.
Defined.

(** ** C5 *)

(** C5: from an interior tile whose count is zero, [reveal_tiles] returns
    when the stack has room for one activation more than there are interior
    tiles, and whenever it returns the tile of every live neighbour of
    [C], that is of every cell around [C] inside the ring, is revealed,
    whatever its own count. *)
Theorem C5_zero_reveals_neighbours (w h : Z) (depth : nat) (g : Grid)
    (C : Vec2.t) (t : Tile.t) :
  wf w h g -> interior w h C -> tile_at g C = Some t -> Tile.mines t = 0 ->
  ((Z.to_nat ((w - 2) * (h - 2)) < depth)%nat ->
     exists g' l, reveal_tiles depth g C = Ok (g', l)) /\
  forall g' l, reveal_tiles depth g C = Ok (g', l) ->
    forall q, live_neighbour w h C q ->
      exists t', tile_at g' q = Some t' /\ Tile.isRevealed t' = true.
Proof.
  intros Hwf HC Ht Hm. split.
  - intros Hd. destruct (reveal_tiles_total w h depth g C Hwf HC Hd)
      as (g' & l & Hrun & _). eauto.
  - intros g' l Hrun q Hq. destruct Hq as [Hadj Hqi].
    assert (q ∈ neighbours w h C) as Hin by (by apply live_neighbour_iff).
    pose proof (reveal_tiles_sound w h _ _ _ _ _ Hwf HC Hrun) as P.
    pose proof (post_zero _ _ _ _ _ _ P t Ht Hm q Hin) as Hw.
    destruct (post_rel _ _ _ _ _ _ P) as [_ Hrel].
    destruct (wf_tile_at w h g q Hwf Hqi) as (tq & Htq & _).
    specialize (Hrel q Hqi). rewrite decide_True, Htq in Hrel by done.
    rewrite Hrel. simpl. eauto.
Qed.

Lemma C5_zero_reveals_neighbours_witness :
  ((Z.to_nat ((5 - 2) * (3 - 2)) < 4)%nat ->
     exists g' l, reveal_tiles 4 clear_board (Vec2.mk 2 1) = Ok (g', l)) /\
  forall g' l, reveal_tiles 4 clear_board (Vec2.mk 2 1) = Ok (g', l) ->
    forall q, live_neighbour 5 3 (Vec2.mk 2 1) q ->
      exists t', tile_at g' q = Some t' /\ Tile.isRevealed t' = true.
Proof.
  apply (C5_zero_reveals_neighbours 5 3 4 clear_board (Vec2.mk 2 1)
           (tile 2 1 false false true 0)).
  - apply wfb_wf. vm_compute. reflexivity.
  - split; simpl; lia.
  - reflexivity.
  - reflexivity.
Defined.

(** ** C7 *)

(** C7: with room on the stack for one activation more than there are
    interior tiles, [reveal_tiles] at an interior coordinate returns; the
    positions it called itself on are interior tiles that were hidden
    before and are revealed after, no position occurs twice, and so their
    number is at most the number of interior tiles. *)
Theorem C7_reveal_terminates (w h : Z) (depth : nat) (g : Grid) (C : Vec2.t) :
  wf w h g -> interior w h C ->
  (Z.to_nat ((w - 2) * (h - 2)) < depth)%nat ->
  exists g' l,
    reveal_tiles depth g C = Ok (g', l) /\
    NoDup (calls l) /\
    (forall q, q ∈ calls l ->
       interior w h q /\ unrevealedb g q = true /\ unrevealedb g' q = false) /\
    (length (calls l) <= Z.to_nat ((w - 2) * (h - 2)))%nat.
Proof.
  intros Hwf HC Hd.
  destruct (reveal_tiles_total w h depth g C Hwf HC Hd) as (g' & l & Hrun & P).
  exists g', l. split; [done|]. split; [apply (post_nodup _ _ _ _ _ _ P)|].
  split.
  - intros q Hq. destruct (post_calls _ _ _ _ _ _ P q Hq) as (Hi & Hu & Hw).
    split; [done|]. split; [done|].
    exact (written_revealed _ _ _ _ _ _ (post_rel _ _ _ _ _ _ P) Hi Hw).
  - destruct HC as [? ?]. rewrite <- (length_interior_coords w h) by lia.
    apply submseteq_length, NoDup_submseteq; [apply (post_nodup _ _ _ _ _ _ P)|].
    intros q Hq. apply elem_of_interior_coords.
    by destruct (post_calls _ _ _ _ _ _ P q Hq).
Qed.

Lemma C7_reveal_terminates_witness :
  exists g' l,
    reveal_tiles 4 clear_board (Vec2.mk 2 1) = Ok (g', l) /\
    NoDup (calls l) /\
    (forall q, q ∈ calls l ->
       interior 5 3 q /\ unrevealedb clear_board q = true /\
       unrevealedb g' q = false) /\
    (length (calls l) <= Z.to_nat ((5 - 2) * (3 - 2)))%nat.
Proof.
  apply (C7_reveal_terminates 5 3 4 clear_board (Vec2.mk 2 1)).
  - apply wfb_wf. vm_compute. reflexivity.
  - split; simpl; lia.
  - simpl. lia.
Defined.

(** ** C8 *)

Lemma core_op_stays (s s' : Game) :
  core_op s s' -> stays_revealed (tilemap s) (tilemap s').
Proof.
  intros [depth rng rng' ev H | rng rng' p H | depth p l H].
  - by apply handle_event_stays in H.
  - by apply set_mines_stays in H.
  - by apply reveal_tiles_stays in H.
Qed.

(** C8: along any sequence of core operations, on any grid, a tile whose
    [isRevealed] is true keeps it true. *)
Theorem C8_revealed_stays (s s' : Game) (r : ref) (t : Tile.t) :
  rtc core_op s s' ->
  deref (tilemap s) r = Some t -> Tile.isRevealed t = true ->
  exists t', deref (tilemap s') r = Some t' /\ Tile.isRevealed t' = true.
Proof.
  intros Hops. revert t. induction Hops as [s|s s1 s' Hop _ IH]; intros t Ht Hr.
  - eauto.
  - destruct (core_op_stays _ _ Hop r t Ht Hr) as (t1 & Ht1 & Hr1). eauto.
Qed.

(** A secondary action on the revealed tile (2, 1), then a primary action
    on the hidden tile (1, 1). *)
Lemma C8_revealed_stays_witness :
  exists t',
    deref (tilemap clear_game_after) (1%nat, 2%nat) = Some t' /\
    Tile.isRevealed t' = true.
Proof.
  apply (C8_revealed_stays clear_game clear_game_after (1%nat, 2%nat)
           (tile 2 1 false false true 0)).
  - eapply rtc_l.
    + apply (op_event _ _ 0 (fun _ => 0) (fun _ => 0) (MOUSEBUTTONDOWN 3 (40, 5))).
      reflexivity.
    + apply rtc_once.
      apply (op_event _ _ 4 (fun _ => 0) (fun _ => 0) (MOUSEBUTTONDOWN 1 (5, 5))).
      reflexivity.
  - reflexivity.
  - reflexivity.
Defined.

(** ** C10 *)

Lemma mine_count_zero (g : Grid) (nbs : list ref) (r : ref) :
  mine_count g nbs = 0 -> r ∈ nbs -> is_mine g r = false.
Proof.
  unfold mine_count. intros Hz Hr.
  destruct (is_mine g r) eqn:Hm; [|done].
  assert (r ∈ filter (fun r => is_mine g r = true) nbs) as Hin
    by (by apply list_elem_of_filter).
  destruct (filter (fun r => is_mine g r = true) nbs); [|simpl in Hz; lia].
  by apply elem_of_nil in Hin.
Qed.

(** C10: on a well-formed grid whose counts are those of its mines,
    [reveal_tiles] at an interior coordinate returns (given the stack
    room), and whenever it returns no tile it assigned [isRevealed] on is
    a mine and every mine tile is exactly as it was. *)
Theorem C10_mines_stay_hidden (w h : Z) (depth : nat) (g : Grid) (C : Vec2.t) :
  wf w h g -> counts_ok w h g -> interior w h C ->
  ((Z.to_nat ((w - 2) * (h - 2)) < depth)%nat ->
     exists g' l, reveal_tiles depth g C = Ok (g', l)) /\
  forall g' l, reveal_tiles depth g C = Ok (g', l) ->
    (forall q t, q ∈ writes l -> tile_at g q = Some t -> Tile.isMine t = false) /\
    (forall q t, interior w h q -> tile_at g q = Some t -> Tile.isMine t = true ->
       tile_at g' q = Some t).
Proof.
  intros Hwf Hcounts HC. split.
  - intros Hd. destruct (reveal_tiles_total w h depth g C Hwf HC Hd)
      as (g' & l & Hrun & _). eauto.
  - intros g' l Hrun. pose proof (reveal_tiles_sound w h _ _ _ _ _ Hwf HC Hrun) as P.
    assert (forall q t, q ∈ writes l -> tile_at g q = Some t -> Tile.isMine t = false)
      as Hwrites.
    { intros q t Hq Ht.
      destruct (post_writes _ _ _ _ _ _ P q Hq) as (z & tz & Hz & Htz & Hm & Hqz).
      destruct (Hcounts z tz Hz Htz) as (nbs & Hnbs & Hcount).
      rewrite (wf_get_neighbour_tiles w h g z Hwf Hz) in Hnbs. injection Hnbs as <-.
      rewrite Hm in Hcount. symmetry in Hcount.
      pose proof (mine_count_zero g _ (ref_of q) Hcount
                    (list_elem_of_fmap_2 ref_of _ _ Hqz)) as Hnm.
      unfold is_mine in Hnm. unfold tile_at in Ht. by rewrite Ht in Hnm. }
    split; [exact Hwrites|].
    intros q t Hq Ht Hmine. destruct (post_rel _ _ _ _ _ _ P) as [_ Hrel].
    rewrite (Hrel q Hq). destruct (decide (q ∈ writes l)) as [Hin|Hin]; [|done].
    rewrite (Hwrites q t Hin Ht) in Hmine. discriminate.
Qed.

Lemma C10_mines_stay_hidden_witness :
  ((Z.to_nat ((5 - 2) * (3 - 2)) < 4)%nat ->
     exists g' l, reveal_tiles 4 flank_board (Vec2.mk 1 1) = Ok (g', l)) /\
  forall g' l, reveal_tiles 4 flank_board (Vec2.mk 1 1) = Ok (g', l) ->
    (forall q t, q ∈ writes l -> tile_at flank_board q = Some t ->
       Tile.isMine t = false) /\
    (forall q t, interior 5 3 q -> tile_at flank_board q = Some t ->
       Tile.isMine t = true -> tile_at g' q = Some t).
Proof.
  apply (C10_mines_stay_hidden 5 3 4 flank_board (Vec2.mk 1 1)).
  - apply wfb_wf. vm_compute. reflexivity.
  - apply counts_okb_ok. vm_compute. reflexivity.
  - split; simpl; lia.
Defined.

(** ** C1 *)

(** C1, as the code has it: with the mines placed, a primary action on an
    unflagged, hidden mine tile sets [_running] to false and then goes on
    as for any other tile: mines are not placed again, the clicked tile is
    marked revealed and [reveal_tiles] runs from it; its result is the new
    grid, in which the clicked tile is revealed. *)
Theorem C1_mine_hit (depth : nat) (rng : RNG) (s : Game) (mPos : Z * Z)
    (t : Tile.t) :
  wf (_hTiles s) (_vTiles s) (tilemap s) ->
  interior (_hTiles s) (_vTiles s) (mouse_to_grid s mPos) ->
  __minesSet s = true ->
  tile_at (tilemap s) (mouse_to_grid s mPos) = Some t ->
  Tile.flagged t = false -> Tile.isRevealed t = false -> Tile.isMine t = true ->
  (Z.to_nat ((_hTiles s - 2) * (_vTiles s - 2)) < depth)%nat ->
  exists g' l,
    reveal_tiles depth
      (upd (tilemap s) (ref_of (mouse_to_grid s mPos)) (Tile.set_isRevealed true))
      (mouse_to_grid s mPos) = Ok (g', l) /\
    handle_event depth (s, rng) (MOUSEBUTTONDOWN 1 mPos)
      = Ok (with_tilemap g' (with_running false s), rng) /\
    tile_at g' (mouse_to_grid s mPos) = Some (Tile.set_isRevealed true t).
Proof.
  intros Hwf Hp Hset Ht Hfl Hrev Hmine Hd.
  destruct (wf_interior_locate _ _ _ _ Hwf Hp) as (t' & Hloc & Ht' & _).
  rewrite Ht in Ht'. injection Ht' as <-.
  pose proof (reveal_rel_upd _ _ _ _ Hwf Hp) as Hg3.
  destruct (reveal_tiles_total _ _ depth _ _ (proj1 Hg3) Hp Hd)
    as (g' & l & Hrun & P).
  exists g', l. split; [done|]. split.
  - cbn [handle_event]. rewrite Hloc. cbn [bind attr].
    rewrite Hfl, Hrev, Hmine. cbn [with_running __minesSet tilemap].
    rewrite Hset. cbn [negb bind tilemap with_running]. rewrite Hrun. done.
  - destruct (post_rel _ _ _ _ _ _ P) as [_ Hrel]. rewrite (Hrel _ Hp).
    unfold tile_at in *. rewrite deref_upd_eq, Ht.
    by case_decide.
Qed.

Lemma C1_mine_hit_witness :
  exists g' l,
    reveal_tiles 3
      (upd (tilemap mine_game) (ref_of (mouse_to_grid mine_game (5, 5)))
           (Tile.set_isRevealed true))
      (mouse_to_grid mine_game (5, 5)) = Ok (g', l) /\
    handle_event 3 (mine_game, fun _ => 1) (MOUSEBUTTONDOWN 1 (5, 5))
      = Ok (with_tilemap g' (with_running false mine_game), fun _ => 1) /\
    tile_at g' (mouse_to_grid mine_game (5, 5))
      = Some (Tile.set_isRevealed true (tile 1 1 true false false 0)).
Proof.
  apply (C1_mine_hit 3 (fun _ => 1) mine_game (5, 5) (tile 1 1 true false false 0)).
  - apply wfb_wf. vm_compute. reflexivity.
  - split; vm_compute; split; discriminate.
  - reflexivity.
  - reflexivity.
  - reflexivity.
  - reflexivity.
  - reflexivity.
  - simpl. lia.
Defined.

(** The mine at (1, 1) of [mine_game] is clicked: the game stops running,
    yet the clicked tile ends up revealed, and so does its neighbour
    (2, 1), which only the flood fill assigns. *)
Lemma C1_counterexample :
  __minesSet mine_game = true /\
  tile_at (tilemap mine_game) (mouse_to_grid mine_game (5, 5))
    = Some (tile 1 1 true false false 0) /\
  handle_event 3 (mine_game, fun _ => 1) (MOUSEBUTTONDOWN 1 (5, 5))
    = Ok (mine_game_after, fun _ => 1) /\
  _running mine_game_after = false /\
  tile_at (tilemap mine_game_after) (mouse_to_grid mine_game (5, 5))
    = Some (tile 1 1 true false true 0) /\
  tile_at (tilemap mine_game_after) (Vec2.mk 2 1)
    = Some (tile 2 1 false false true 1).
Proof. repeat (split; [reflexivity|]). reflexivity. Qed.

(** * Further properties of the code *)

(** ** The grid [init_tilemap] builds *)

Lemma wf_deref_Some (w h : Z) (g : Grid) (r : ref) (t : Tile.t) :
  wf w h g -> deref g r = Some t ->
  interior w h (Tile.pos t) /\ r = ref_of (Tile.pos t).
Proof.
  intros [Hlen Hrows] Hd. destruct r as [i j]. unfold deref in Hd.
  cbn [fst snd] in Hd.
  destruct (g !! i) as [row|] eqn:Hrow; [|done].
  destruct (row !! j) as [o|] eqn:Ho; [|done]. subst o.
  destruct (Hrows i row Hrow) as [Hl Hcells]. specialize (Hcells j _ Ho).
  apply lookup_lt_Some in Hrow, Ho.
  destruct (border w h (Z.of_nat j) (Z.of_nat i)) eqn:Hb; [done|].
  destruct Hcells as (t' & [= <-] & Hpos). apply border_false_iff in Hb.
  rewrite Hpos. unfold interior, ref_of. simpl. split; [lia|]. f_equal; lia.
Qed.

Lemma init_tilemap_fresh (w h : Z) (r : ref) (t : Tile.t) :
  deref (init_tilemap w h) r = Some t ->
  t = Tile.mk (Tile.pos t) false false false 0.
Proof.
  destruct r as [i j]. unfold deref, init_tilemap. cbn [fst snd].
  rewrite list_lookup_fmap. destruct (range 0 h !! i) as [yy|]; [|done].
  cbn [fmap option_fmap option_map]. unfold init_row.
  destruct ((yy =? 0) || (yy =? h - 1)); rewrite list_lookup_fmap;
    destruct (range 0 w !! j) as [xx|]; cbn [fmap option_fmap option_map]; try done.
  destruct ((xx =? 0) || (xx =? w - 1)); [done|]. by intros [= <-].
Qed.

Lemma locate_cases (g : Grid) (yy xx : Z) :
  locate g yy xx = Raise IndexError \/ exists r o, locate g yy xx = Ok (r, o).
Proof.
  unfold locate, norm_index.
  destruct ((0 <=? yy) && (yy <? Z.of_nat (length g)));
    [|destruct ((yy <? 0) && (- Z.of_nat (length g) <=? yy)); [|by left]];
    cbn [bind]; (destruct (g !! _) as [row|]; [|by left]);
    (destruct ((0 <=? xx) && (xx <? Z.of_nat (length row)));
       [|destruct ((xx <? 0) && (- Z.of_nat (length row) <=? xx)); [|by left]]);
    cbn [bind]; (destruct (row !! _) as [o|]; [|by left]); right; eauto.
Qed.

(** X1: for any dimensions, [init_tilemap] builds a grid of the expected
    shape (a ring of [None] around tiles that carry their coordinates), and
    each of its tiles is fresh: no mine, no flag, hidden, count 0. *)
Theorem X1_init_tilemap_fresh (w h : Z) :
  wf w h (init_tilemap w h) /\
  forall r t, deref (init_tilemap w h) r = Some t ->
    Tile.isMine t = false /\ Tile.flagged t = false /\
    Tile.isRevealed t = false /\ Tile.mines t = 0.
Proof.
  split; [apply init_tilemap_wf|].
  intros r t Ht. apply init_tilemap_fresh in Ht. by rewrite Ht.
Qed.

(** X2: with fewer than 3 columns or fewer than 3 rows the grid holds no
    tile at all, and every primary or secondary click on such a game
    raises an exception. *)
Theorem X2_no_tile_below_three (w h : Z) (depth : nat) (rng : RNG)
    (button : Z) (mPos : Z * Z) :
  w <= 2 \/ h <= 2 ->
  (forall r, deref (init_tilemap w h) r = None) /\
  (button = 1 \/ button = 3 ->
   exists e,
     handle_event depth (new_game w h, rng) (MOUSEBUTTONDOWN button mPos) = Raise e).
Proof.
  intros Hsmall.
  assert (forall r, deref (init_tilemap w h) r = None) as Hnone.
  { intros r. destruct (deref (init_tilemap w h) r) as [t|] eqn:Ht; [|done].
    destruct (wf_deref_Some w h _ r t (init_tilemap_wf w h) Ht) as [[? ?] _]. lia. }
  split; [done|]. intros Hb. cbn [handle_event new_game tilemap].
  destruct (locate_cases (init_tilemap w h)
              (Vec2.y (mouse_to_grid (new_game w h) mPos))
              (Vec2.x (mouse_to_grid (new_game w h) mPos)))
    as [Hloc | (r & o & Hloc)]; change (init_tilemap w h) with (tilemap (new_game w h)) in Hloc;
    cbn [new_game tilemap] in Hloc |- *; rewrite Hloc; cbn [bind]; [eauto|].
  apply locate_deref in Hloc. rewrite Hnone in Hloc. subst o.
  destruct Hb as [-> | ->]; cbn; eauto.
Qed.

Lemma X2_no_tile_below_three_witness :
  (forall r, deref (init_tilemap 2 5) r = None) /\
  (1 = 1 \/ 1 = 3 ->
   exists e,
     handle_event 3 (new_game 2 5, fun _ => 1) (MOUSEBUTTONDOWN 1 (0, 40)) = Raise e).
Proof.
  apply (X2_no_tile_below_three 2 5 3 (fun _ => 1) 1 (0, 40)). left. lia.
Defined.

(** ** More on [get_neighbour_tiles] *)

Lemma neighbours_sym (w h : Z) (p q : Vec2.t) :
  interior w h p -> q ∈ neighbours w h p -> p ∈ neighbours w h q.
Proof.
  intros Hp Hq. apply elem_of_neighbours in Hq as (Hb & d & (Hd1 & Hd2 & Hne) & ->).
  apply elem_of_neighbours. split; [by apply interior_not_border|].
  exists (- d.1, - d.2). destruct d as [dy dx], p as [px py].
  unfold unit_step, shift. cbn [fst snd Vec2.x Vec2.y] in *. split.
  - split; [lia|]. split; [lia|]. intros [= H1 H2]. apply Hne. f_equal; lia.
  - f_equal; lia.
Qed.

Lemma elem_of_neighbour_refs (w h : Z) (p q : Vec2.t) :
  interior w h p -> interior w h q ->
  ref_of q ∈ ref_of <$> neighbours w h p <-> q ∈ neighbours w h p.
Proof.
  intros Hp Hq. split.
  - intros Hin. apply list_elem_of_fmap in Hin as (q' & Heq & Hq').
    destruct (neighbours_interior w h p q' Hp Hq') as [Hqi _].
    by apply (ref_of_inj w h) in Heq as ->.
  - apply list_elem_of_fmap_2.
Qed.

Lemma neighbour_refs_NoDup (w h : Z) (p : Vec2.t) :
  interior w h p -> NoDup (ref_of <$> neighbours w h p).
Proof.
  intros Hp. apply NoDup_fmap_2_strong.
  - intros a b Ha Hb. apply (ref_of_inj w h).
    + by destruct (neighbours_interior w h p a Hp Ha).
    + by destruct (neighbours_interior w h p b Hp Hb).
  - unfold neighbours. apply NoDup_filter. apply NoDup_fmap_2_strong.
    + intros [dy dx] [dy' dx'] _ _. unfold shift. cbn [fst snd].
      intros [= H1 H2]. f_equal; lia.
    + unfold offsets. repeat (apply NoDup_cons; split);
        [..|apply NoDup_nil_2]; rewrite ?elem_of_cons, ?elem_of_nil;
        intros Hin; destruct_or?; done.
Qed.

(** X3: adjacency is symmetric: on a grid of the shape [init_tilemap]
    builds, the tile at [q] is among the neighbours returned for [p]
    exactly when the tile at [p] is among those returned for [q]. *)
Theorem X3_neighbours_symmetric (w h : Z) (g : Grid) (p q : Vec2.t) :
  wf w h g -> interior w h p -> interior w h q ->
  exists np nq,
    get_neighbour_tiles g p = Ok np /\ get_neighbour_tiles g q = Ok nq /\
    (ref_of q ∈ np <-> ref_of p ∈ nq).
Proof.
  intros Hwf Hp Hq. eexists _, _.
  split; [by apply wf_get_neighbour_tiles|]. split; [by apply wf_get_neighbour_tiles|].
  rewrite !elem_of_neighbour_refs by done. split; by apply neighbours_sym.
Qed.

Lemma X3_neighbours_symmetric_witness :
  exists np nq,
    get_neighbour_tiles clear_board (Vec2.mk 1 1) = Ok np /\
    get_neighbour_tiles clear_board (Vec2.mk 2 1) = Ok nq /\
    (ref_of (Vec2.mk 2 1) ∈ np <-> ref_of (Vec2.mk 1 1) ∈ nq).
Proof.
  apply (X3_neighbours_symmetric 5 3 clear_board (Vec2.mk 1 1) (Vec2.mk 2 1)).
  - apply wfb_wf. vm_compute. reflexivity.
  - split; simpl; lia.
  - split; simpl; lia.
Defined.

(** X4: the tiles returned for an interior coordinate are pairwise
    distinct, and there are exactly 8 of them when the coordinate is at
    least two cells away from every edge of the grid. *)
Theorem X4_neighbours_distinct (w h : Z) (g : Grid) (p : Vec2.t) :
  wf w h g -> interior w h p ->
  exists nbs,
    get_neighbour_tiles g p = Ok nbs /\ NoDup nbs /\
    (2 <= Vec2.x p <= w - 3 -> 2 <= Vec2.y p <= h - 3 -> length nbs = 8%nat).
Proof.
  intros Hwf Hp. eexists. split; [by apply wf_get_neighbour_tiles|].
  split; [by apply neighbour_refs_NoDup|].
  intros Hx Hy. rewrite length_fmap. unfold neighbours.
  assert (forall l : list Vec2.t,
    (forall q, q ∈ l -> border w h (Vec2.x q) (Vec2.y q) = false) ->
    filter (fun q => border w h (Vec2.x q) (Vec2.y q) = false) l = l) as Hall.
  { induction l as [|a l IH]; intros Hl; [done|].
    rewrite filter_cons, decide_True by (apply Hl; left).
    f_equal. apply IH. intros q Hq. apply Hl. by right. }
  rewrite Hall; [by rewrite length_fmap|].
  intros q Hq. apply list_elem_of_fmap in Hq as (d & -> & Hd).
  apply offsets_spec in Hd as (Hd1 & Hd2 & _).
  apply border_false_iff. unfold shift. simpl. lia.
Qed.

Lemma X4_neighbours_distinct_witness :
  exists nbs,
    get_neighbour_tiles (init_tilemap 5 5) (Vec2.mk 2 2) = Ok nbs /\ NoDup nbs /\
    (2 <= Vec2.x (Vec2.mk 2 2) <= 5 - 3 -> 2 <= Vec2.y (Vec2.mk 2 2) <= 5 - 3 ->
     length nbs = 8%nat).
Proof.
  apply (X4_neighbours_distinct 5 5 (init_tilemap 5 5) (Vec2.mk 2 2)).
  - apply wfb_wf. vm_compute. reflexivity.
  - split; simpl; lia.
Defined.

Lemma norm_index_in (len : nat) (i : Z) :
  - Z.of_nat len <= i < Z.of_nat len ->
  exists n, norm_index len i = Ok n /\ (n < len)%nat.
Proof.
  intros Hi. unfold norm_index.
  destruct (Z.leb_spec 0 i), (Z.ltb_spec i (Z.of_nat len)); cbn [andb]; try lia.
  - exists (Z.to_nat i). split; [done | lia].
  - destruct (Z.ltb_spec i 0), (Z.leb_spec (- Z.of_nat len) i); cbn [andb]; try lia.
    exists (Z.to_nat (Z.of_nat len + i)). split; [done | lia].
Qed.

Lemma norm_index_out (len : nat) (i : Z) :
  ~ (- Z.of_nat len <= i < Z.of_nat len) -> norm_index len i = Raise IndexError.
Proof.
  intros Hi. unfold norm_index.
  destruct (Z.leb_spec 0 i), (Z.ltb_spec i (Z.of_nat len)); cbn [andb]; try lia;
    destruct (Z.ltb_spec i 0), (Z.leb_spec (- Z.of_nat len) i); cbn [andb];
    try lia; done.
Qed.

Lemma wf_locate_in (w h : Z) (g : Grid) (yy xx : Z) :
  wf w h g -> - h <= yy < h -> - w <= xx < w ->
  exists r o, locate g yy xx = Ok (r, o).
Proof.
  intros [Hlen Hrows] Hy Hx. unfold locate.
  destruct (norm_index_in (length g) yy) as (i & -> & Hi); [lia|]. cbn [bind].
  destruct (lookup_lt_is_Some_2 g i Hi) as [row Hrow]. rewrite Hrow.
  destruct (Hrows i row Hrow) as [Hl _].
  destruct (norm_index_in (length row) xx) as (j & -> & Hj); [lia|]. cbn [bind].
  destruct (lookup_lt_is_Some_2 row j Hj) as [o Ho]. rewrite Ho. eauto.
Qed.

Lemma wf_locate_out (w h : Z) (g : Grid) (yy xx : Z) :
  wf w h g -> ~ (- h <= yy < h /\ - w <= xx < w) ->
  locate g yy xx = Raise IndexError.
Proof.
  intros [Hlen Hrows] Hout. unfold locate.
  destruct (decide (- Z.of_nat (length g) <= yy < Z.of_nat (length g))) as [Hy|Hy].
  - destruct (norm_index_in (length g) yy Hy) as (i & -> & Hi). cbn [bind].
    destruct (lookup_lt_is_Some_2 g i Hi) as [row Hrow]. rewrite Hrow.
    destruct (Hrows i row Hrow) as [Hl _].
    rewrite norm_index_out; [done|]. lia.
  - by rewrite norm_index_out.
Qed.

Lemma mapM_all_Ok {A B} (f : A -> result B) (l : list A) :
  (forall a, a ∈ l -> exists b, f a = Ok b) -> exists bs, mapM f l = Ok bs.
Proof.
  induction l as [|a l IH]; intros Hl; [by exists []|].
  destruct (Hl a) as [b Hb]; [left|]. destruct IH as [bs Hbs].
  { intros a' Ha'. apply Hl. by right. }
  exists (b :: bs). cbn [mapM]. by rewrite Hb, Hbs.
Qed.

Lemma mapM_Raise {A B} (f : A -> result B) (l : list A) (e : exn) :
  (forall a, a ∈ l -> f a = Raise e \/ exists b, f a = Ok b) ->
  (exists a, a ∈ l /\ f a = Raise e) -> mapM f l = Raise e.
Proof.
  induction l as [|a l IH]; intros Hl (a0 & Hin & Ha0); [by apply elem_of_nil in Hin|].
  cbn [mapM]. destruct (Hl a) as [-> | [b Hb]]; [left | done |].
  rewrite Hb. cbn [bind]. rewrite IH; [done | |].
  - intros a' Ha'. apply Hl. by right.
  - apply elem_of_cons in Hin as [-> | Hin]; [congruence | eauto].
Qed.

(** X5: on a grid of the shape [init_tilemap] builds,
    [get_neighbour_tiles] returns exactly when every index it uses lies in
    Python's range, that is for [-(h-1) <= y <= h-2] and
    [-(w-1) <= x <= w-2] (negative coordinates wrap around); for any other
    coordinate it raises [IndexError]. *)
Theorem X5_neighbours_index_error (w h : Z) (g : Grid) (pos : Vec2.t) :
  wf w h g ->
  (- (h - 1) <= Vec2.y pos <= h - 2 /\ - (w - 1) <= Vec2.x pos <= w - 2 ->
   exists nbs, get_neighbour_tiles g pos = Ok nbs) /\
  (~ (- (h - 1) <= Vec2.y pos <= h - 2 /\ - (w - 1) <= Vec2.x pos <= w - 2) ->
   get_neighbour_tiles g pos = Raise IndexError).
Proof.
  intros Hwf. unfold get_neighbour_tiles. split.
  - intros [Hy Hx].
    destruct (mapM_all_Ok
                (fun d => locate g (Vec2.y pos + d.1) (Vec2.x pos + d.2)) offsets)
      as [cells ->]; [|cbn [bind]; eauto].
    intros d Hd. apply offsets_spec in Hd as (Hd1 & Hd2 & _).
    destruct (wf_locate_in w h g (Vec2.y pos + d.1) (Vec2.x pos + d.2))
      as (r & o & Hloc); [done | lia | lia | eauto].
  - intros Hout. rewrite (mapM_Raise _ offsets IndexError); [done | |].
    + intros d _. destruct (locate_cases g (Vec2.y pos + d.1) (Vec2.x pos + d.2))
        as [? | (r & o & ?)]; eauto.
    + assert (exists d, d ∈ offsets /\
                ~ (- h <= Vec2.y pos + d.1 < h /\ - w <= Vec2.x pos + d.2 < w))
        as (d & Hd & Hbad).
      { destruct (decide (Vec2.y pos <= h - 2 /\ Vec2.x pos <= w - 2)).
        - exists (-1, -1). split; [apply offsets_spec; unfold unit_step; simpl;
            split; [lia | split; [lia | discriminate]]|].
          simpl. lia.
        - exists (1, 1). split; [apply offsets_spec; unfold unit_step; simpl;
            split; [lia | split; [lia | discriminate]]|].
          simpl. lia. }
      exists d. split; [done|]. by apply (wf_locate_out w h).
Qed.

Lemma X5_neighbours_index_error_witness :
  (- (4 - 1) <= Vec2.y (Vec2.mk 3 1) <= 4 - 2 /\
   - (4 - 1) <= Vec2.x (Vec2.mk 3 1) <= 4 - 2 ->
   exists nbs, get_neighbour_tiles (init_tilemap 4 4) (Vec2.mk 3 1) = Ok nbs) /\
  (~ (- (4 - 1) <= Vec2.y (Vec2.mk 3 1) <= 4 - 2 /\
      - (4 - 1) <= Vec2.x (Vec2.mk 3 1) <= 4 - 2) ->
   get_neighbour_tiles (init_tilemap 4 4) (Vec2.mk 3 1) = Raise IndexError).
Proof.
  apply (X5_neighbours_index_error 4 4 (init_tilemap 4 4) (Vec2.mk 3 1)).
  apply wfb_wf. vm_compute. reflexivity.
Defined.

(** ** Pointer positions *)

(** X6: with the tile size of 32, the pointer positions that map to an
    interior coordinate are exactly those inside the window, which is
    [32 * (w - 2)] wide and [32 * (h - 2)] high. *)
Theorem X6_mouse_in_window (s : Game) (mx my : Z) :
  tilesize s = 32 ->
  interior (_hTiles s) (_vTiles s) (mouse_to_grid s (mx, my)) <->
  0 <= mx < 32 * (_hTiles s - 2) /\ 0 <= my < 32 * (_vTiles s - 2).
Proof.
  intros Hts. unfold mouse_to_grid, interior. rewrite Hts.
  cbn [fst snd Vec2.x Vec2.y].
  assert (forall m n, 1 <= (m + 32) `div` 32 <= n - 2 <-> 0 <= m < 32 * (n - 2)) as Hdiv.
  { intros m n. pose proof (Z.div_mod (m + 32) 32 ltac:(lia)) as Hdm.
    pose proof (Z.mod_pos_bound (m + 32) 32 ltac:(lia)) as Hmod. lia. }
  by rewrite !Hdiv.
Qed.

Lemma X6_mouse_in_window_witness :
  interior (_hTiles clear_game) (_vTiles clear_game) (mouse_to_grid clear_game (95, 31)) <->
  0 <= 95 < 32 * (_hTiles clear_game - 2) /\ 0 <= 31 < 32 * (_vTiles clear_game - 2).
Proof. apply (X6_mouse_in_window clear_game 95 31). reflexivity. Defined.

(** X7: a click anywhere inside the square in which [run] draws a tile
    (its top-left corner is [draw_pos], its side [tilesize]) is mapped by
    [handle_events] to that tile's own coordinates. *)
Theorem X7_click_on_drawn_tile (s : Game) (t : Tile.t) (mx my : Z) :
  0 < tilesize s ->
  (draw_pos s t).1 <= mx < (draw_pos s t).1 + tilesize s ->
  (draw_pos s t).2 <= my < (draw_pos s t).2 + tilesize s ->
  mouse_to_grid s (mx, my) = Tile.pos t.
Proof.
  intros Hts Hx Hy. unfold mouse_to_grid, draw_pos, Vec2.xy, Vec2.sub, Vec2.mul in *.
  cbn [fst snd Vec2.x Vec2.y] in *. destruct (Tile.pos t) as [px py].
  cbn [Vec2.x Vec2.y] in *. f_equal; symmetry.
  - apply (Z.div_unique_pos _ _ _ (mx + tilesize s - px * tilesize s)); lia.
  - apply (Z.div_unique_pos _ _ _ (my + tilesize s - py * tilesize s)); lia.
Qed.

Lemma X7_click_on_drawn_tile_witness :
  mouse_to_grid clear_game (40, 5) = Tile.pos (tile 2 1 false false true 0).
Proof.
  apply (X7_click_on_drawn_tile clear_game (tile 2 1 false false true 0) 40 5).
  - reflexivity.
  - vm_compute. split; [discriminate | reflexivity].
  - vm_compute. split; [discriminate | reflexivity].
Defined.

(** ** Flags *)

Lemma alter_same {A} (f : A -> A) (l : list A) (i : nat) :
  (forall a, l !! i = Some a -> f a = a) -> alter f i l = l.
Proof.
  intros Hf. apply list_eq. intros j. rewrite list_lookup_alter.
  case_decide as Hij; [subst j|done].
  destruct (l !! i) as [a|] eqn:Ha; [|done]. simpl. by rewrite Hf.
Qed.

(** Assigning a field its own value changes nothing. *)
Lemma upd_same (g : Grid) (rc : ref) (f : Tile.t -> Tile.t) :
  (forall t, deref g rc = Some t -> f t = t) -> upd g rc f = g.
Proof.
  intros Hf. destruct rc as [r c]. unfold upd. cbn [fst snd].
  apply alter_same. intros row Hrow. apply alter_same. intros o Ho.
  destruct o as [t|]; [|done]. simpl. f_equal. apply Hf.
  unfold deref. cbn [fst snd]. by rewrite Hrow, Ho.
Qed.

Lemma upd_upd (g : Grid) (rc : ref) (f f' : Tile.t -> Tile.t) :
  upd (upd g rc f) rc f' = upd g rc (f' ∘ f).
Proof.
  destruct rc as [r c]. unfold upd. cbn [fst snd].
  rewrite list_alter_alter_eq. apply list_alter_ext; [|done]. intros row _.
  cbn [compose]. rewrite list_alter_alter_eq. apply list_alter_ext; [|done].
  intros o _. by destruct o.
Qed.

(** Field assignments do not move tiles: the same indices reach the same
    cell. *)
Lemma locate_upd (g : Grid) (rc r : ref) (f : Tile.t -> Tile.t) (yy xx : Z)
    (o : option Tile.t) :
  locate g yy xx = Ok (r, o) ->
  locate (upd g rc f) yy xx = Ok (r, deref (upd g rc f) r).
Proof.
  unfold locate. intros H. apply bind_Ok in H as (i & Hi & H).
  destruct (g !! i) as [row|] eqn:Hrow; [|done].
  apply bind_Ok in H as (j & Hj & H).
  destruct (row !! j) as [o'|] eqn:Ho; [|done]. injection H as <- <-.
  destruct rc as [r0 c0]. unfold upd at 1 2. cbn [fst snd].
  rewrite length_alter, Hi. cbn [bind].
  assert (exists row', alter (alter (fmap f) c0) r0 g !! i = Some row' /\
            length row' = length row /\
            exists o'', row' !! j = Some o'') as (row' & Hrow' & Hlen & o'' & Ho'').
  { rewrite list_lookup_alter. case_decide.
    - subst r0. rewrite Hrow. eexists. split; [done|].
      split; [by rewrite length_alter|].
      apply lookup_lt_is_Some. rewrite length_alter. by eapply lookup_lt_Some.
    - eauto. }
  rewrite Hrow', Hlen, Hj. cbn [bind]. rewrite Ho''.
  do 2 f_equal. unfold deref, upd. cbn [fst snd]. by rewrite Hrow', Ho''.
Qed.

Lemma with_tilemap_same (s : Game) : with_tilemap (tilemap s) s = s.
Proof. by destruct s. Qed.

Lemma secondary_twice (depth : nat) (s s1 : Game) (rng rng1 : RNG) (mPos : Z * Z) :
  handle_event depth (s, rng) (MOUSEBUTTONDOWN 3 mPos) = Ok (s1, rng1) ->
  handle_event depth (s1, rng1) (MOUSEBUTTONDOWN 3 mPos) = Ok (s, rng).
Proof.
  cbn [handle_event]. intros H.
  apply bind_Ok in H as ([r o] & Hloc & H). cbn in H.
  apply bind_Ok in H as (t & Ht & H). apply attr_Ok in Ht. subst o.
  injection H as <- <-.
  change (mouse_to_grid (with_tilemap _ s) mPos) with (mouse_to_grid s mPos).
  cbn [tilemap with_tilemap].
  rewrite (locate_upd _ _ _ _ _ _ _ Hloc). cbn [bind].
  apply locate_deref in Hloc. rewrite deref_upd_eq, Hloc. cbn.
  rewrite upd_upd, upd_same.
  - by destruct s.
  - intros t' Ht'. rewrite Hloc in Ht'. injection Ht' as <-.
    destruct t. cbn. by rewrite negb_involutive.
Qed.

(** X8: a secondary action that returns is undone by repeating it at the
    same pointer position: the whole game state is as before. *)
Theorem X8_flag_twice (depth : nat) (s s1 : Game) (rng rng1 : RNG) (mPos : Z * Z) :
  handle_event depth (s, rng) (MOUSEBUTTONDOWN 3 mPos) = Ok (s1, rng1) ->
  handle_event depth (s1, rng1) (MOUSEBUTTONDOWN 3 mPos) = Ok (s, rng).
Proof. apply secondary_twice. Qed.

Lemma X8_flag_twice_witness :
  handle_event 0
    (with_tilemap (upd clear_board (1, 2)%nat (Tile.set_flagged true)) clear_game,
     fun _ => 0)
    (MOUSEBUTTONDOWN 3 (40, 5))
  = Ok (clear_game, fun _ => 0).
Proof.
  apply (X8_flag_twice 0 clear_game _ (fun _ => 0) (fun _ => 0) (40, 5)).
  reflexivity.
Defined.

(** X9: a flag shields its tile, mine or not: flagging an unflagged tile,
    then a primary action on it, then removing the flag leaves the whole
    game state and the random source as they were and raises nothing. *)
Theorem X9_flag_shields (depth : nat) (s : Game) (rng : RNG) (mPos : Z * Z)
    (r : ref) (t : Tile.t) :
  locate (tilemap s) (Vec2.y (mouse_to_grid s mPos)) (Vec2.x (mouse_to_grid s mPos))
    = Ok (r, Some t) ->
  Tile.flagged t = false ->
  handle_events depth (s, rng)
    [MOUSEBUTTONDOWN 3 mPos; MOUSEBUTTONDOWN 1 mPos; MOUSEBUTTONDOWN 3 mPos]
  = Ok (s, rng).
Proof.
  intros Hloc Hfl.
  assert (handle_event depth (s, rng) (MOUSEBUTTONDOWN 3 mPos)
          = Ok (with_tilemap (upd (tilemap s) r (Tile.set_flagged true)) s, rng)) as H1.
  { cbn [handle_event]. rewrite Hloc. cbn. by rewrite Hfl. }
  assert (handle_event depth
            (with_tilemap (upd (tilemap s) r (Tile.set_flagged true)) s, rng)
            (MOUSEBUTTONDOWN 1 mPos)
          = Ok (with_tilemap (upd (tilemap s) r (Tile.set_flagged true)) s, rng)) as H2.
  { cbn [handle_event].
    change (mouse_to_grid (with_tilemap _ s) mPos) with (mouse_to_grid s mPos).
    cbn [tilemap with_tilemap]. rewrite (locate_upd _ _ _ _ _ _ _ Hloc). cbn [bind].
    apply locate_deref in Hloc. rewrite deref_upd_eq, Hloc. by cbn. }
  unfold handle_events. cbn [foldM]. rewrite H1. cbn [bind]. rewrite H2. cbn [bind].
  by rewrite (secondary_twice depth s _ rng rng mPos H1).
Qed.

Lemma X9_flag_shields_witness :
  handle_events 0 (mine_game, fun _ => 1)
    [MOUSEBUTTONDOWN 3 (5, 5); MOUSEBUTTONDOWN 1 (5, 5); MOUSEBUTTONDOWN 3 (5, 5)]
  = Ok (mine_game, fun _ => 1).
Proof.
  apply (X9_flag_shields 0 mine_game (fun _ => 1) (5, 5) (1, 1)%nat
           (tile 1 1 true false false 0)); reflexivity.
Defined.

(** ** What each operation leaves alone, on any grid *)

Section frames.
Variable R : Tile.t -> Tile.t -> Prop.
Hypothesis R_refl : forall t, R t t.
Hypothesis R_trans : forall t1 t2 t3, R t1 t2 -> R t2 t3 -> R t1 t3.

Lemma tiles_rel_refl (g : Grid) : tiles_rel R g g.
Proof. intros r t Ht. eauto. Qed.

Lemma tiles_rel_trans (g1 g2 g3 : Grid) :
  tiles_rel R g1 g2 -> tiles_rel R g2 g3 -> tiles_rel R g1 g3.
Proof.
  intros H12 H23 r t Ht. destruct (H12 r t Ht) as (t2 & Ht2 & R2).
  destruct (H23 r t2 Ht2) as (t3 & Ht3 & R3). eauto.
Qed.

Lemma tiles_rel_upd (g : Grid) (rc : ref) (f : Tile.t -> Tile.t) :
  (forall t, R t (f t)) -> tiles_rel R g (upd g rc f).
Proof.
  intros Hf r t Ht. rewrite deref_upd. case_decide as Heq.
  - subst r. rewrite Ht. simpl. eauto.
  - eauto.
Qed.

Lemma reveal_loop_rel (rec : Grid -> Vec2.t -> result (Grid * Log)) :
  (forall t, R t (Tile.set_isRevealed true t)) ->
  (forall g p g' l, rec g p = Ok (g', l) -> tiles_rel R g g') ->
  forall nbs g g' l, reveal_loop rec nbs g = Ok (g', l) -> tiles_rel R g g'.
Proof.
  intros Hrev Hrec. induction nbs as [|r nbs IH]; intros g g' l; cbn [reveal_loop].
  - intros [= <- _]. apply tiles_rel_refl.
  - intros H. apply bind_Ok in H as (n & _ & H).
    destruct (negb (Tile.isRevealed n) && (Tile.mines n =? 0)).
    + apply bind_Ok in H as ([g2 l2] & H2 & H).
      apply bind_Ok in H as ([g4 l4] & H4 & H). injection H as <- _.
      apply (tiles_rel_trans _ (upd g r (Tile.set_isRevealed true)));
        [by apply tiles_rel_upd|].
      apply (tiles_rel_trans _ g2); [exact (Hrec _ _ _ _ H2)|].
      apply (tiles_rel_trans _ (upd g2 r (Tile.set_isRevealed true)));
        [by apply tiles_rel_upd|].
      exact (IH _ _ _ H4).
    + apply bind_Ok in H as ([g4 l4] & H4 & H). injection H as <- _.
      apply (tiles_rel_trans _ (upd g r (Tile.set_isRevealed true)));
        [by apply tiles_rel_upd|].
      exact (IH _ _ _ H4).
Qed.

Lemma reveal_tiles_rel :
  (forall t, R t (Tile.set_isRevealed true t)) ->
  forall depth g p g' l, reveal_tiles depth g p = Ok (g', l) -> tiles_rel R g g'.
Proof.
  intros Hrev. induction depth as [|depth IH]; intros g p g' l H; [done|].
  cbn [reveal_tiles] in H.
  apply bind_Ok in H as ([r o] & _ & H). apply bind_Ok in H as (t & _ & H).
  destruct (Tile.mines t =? 0).
  - apply bind_Ok in H as (nbs & _ & H). by apply (reveal_loop_rel _ Hrev IH) in H.
  - injection H as <- _. apply tiles_rel_refl.
Qed.

Lemma fold_upd_rel (f : Tile.t -> Tile.t) :
  (forall t, R t (f t)) ->
  forall (nbs : list ref) (g : Grid),
    tiles_rel R g (fold_left (fun g r => upd g r f) nbs g).
Proof.
  intros Hf. induction nbs as [|r nbs IH]; intros g; cbn [fold_left];
    [apply tiles_rel_refl|].
  apply (tiles_rel_trans _ (upd g r f)); [by apply tiles_rel_upd | apply IH].
Qed.

Lemma set_mines_rel (rng rng' : RNG) (s s' : Game) (p : Vec2.t) :
  (forall b t, R t (Tile.set_isMine b t)) ->
  (forall n t, R t (Tile.set_mines n t)) ->
  set_mines rng s p = Ok (s', rng') -> tiles_rel R (tilemap s) (tilemap s').
Proof.
  intros Hmine Hcount. unfold set_mines. intros H.
  apply bind_Ok in H as ([g1 rng1] & H1 & H).
  apply bind_Ok in H as ([r0 o0] & _ & H). apply bind_Ok in H as (t0 & _ & H).
  apply bind_Ok in H as (nbs & _ & H). apply bind_Ok in H as (g4 & H4 & H).
  injection H as <- _. cbn [tilemap with_tilemap with_minesSet] in *.
  set (g3 := fold_left _ nbs _) in *.
  apply (tiles_rel_trans _ g1).
  { revert H1.
    apply (foldM_Ok_inv _ (fun acc => tiles_rel R (tilemap s) acc.1));
      [|apply tiles_rel_refl].
    intros acc yy acc1 Hacc.
    apply (foldM_Ok_inv _ (fun acc => tiles_rel R (tilemap s) acc.1)); [|done].
    intros a xx a1 Ha Hgen. apply (tiles_rel_trans _ a.1); [done|].
    unfold gen_mine in Hgen. cbn [randint] in Hgen.
    destruct (a.2 0%nat =? 0).
    - apply bind_Ok in Hgen as ([r o] & _ & Hgen).
      apply bind_Ok in Hgen as (t & _ & Hgen). injection Hgen as <-.
      by apply tiles_rel_upd.
    - injection Hgen as <-. apply tiles_rel_refl. }
  apply (tiles_rel_trans _ (upd g1 r0 (Tile.set_isMine false)));
    [by apply tiles_rel_upd|].
  apply (tiles_rel_trans _ g3); [by apply fold_upd_rel|].
  revert H4. apply (foldM_Ok_inv _ (tiles_rel R g3)); [|apply tiles_rel_refl].
  intros g yy g' Hg.
  apply (foldM_Ok_inv _ (tiles_rel R g3)); [|done].
  intros a xx a1 Ha Hc. apply (tiles_rel_trans _ a); [done|].
  unfold count_tile in Hc. apply bind_Ok in Hc as ([r o] & _ & Hc).
  apply bind_Ok in Hc as (t & _ & Hc). apply bind_Ok in Hc as (nb & _ & Hc).
  injection Hc as <-. by apply tiles_rel_upd.
Qed.

Lemma handle_event_rel (depth : nat) (s s' : Game) (rng rng' : RNG) (ev : Event) :
  (forall t, R t (Tile.set_isRevealed true t)) ->
  (__minesSet s = false ->
   (forall b t, R t (Tile.set_isMine b t)) /\ (forall n t, R t (Tile.set_mines n t))) ->
  (forall mPos, ev = MOUSEBUTTONDOWN 3 mPos -> forall b t, R t (Tile.set_flagged b t)) ->
  handle_event depth (s, rng) ev = Ok (s', rng') ->
  tiles_rel R (tilemap s) (tilemap s').
Proof.
  intros Hrev Hset Hflag. destruct ev as [|button mPos|]; cbn [handle_event].
  - intros [= <- _]. apply tiles_rel_refl.
  - intros H. apply bind_Ok in H as ([r o] & _ & H).
    destruct (button =? 1) eqn:Hb1.
    + apply bind_Ok in H as (tile & _ & H).
      destruct (Tile.flagged tile); [injection H as <- _; apply tiles_rel_refl|].
      destruct (Tile.isRevealed tile); [injection H as <- _; apply tiles_rel_refl|].
      apply bind_Ok in H as ([s2 rng2] & H2 & H).
      apply bind_Ok in H as ([g4 l4] & H4 & H). injection H as <- _.
      cbn [tilemap with_tilemap].
      assert (tiles_rel R (tilemap s) (tilemap s2)) as S2.
      { assert (tilemap (if Tile.isMine tile then with_running false s else s)
                = tilemap s) as Htm by (by destruct (Tile.isMine tile)).
        assert (__minesSet (if Tile.isMine tile then with_running false s else s)
                = __minesSet s) as Hms by (by destruct (Tile.isMine tile)).
        rewrite Hms in H2. destruct (__minesSet s) eqn:Hs; cbn [negb] in H2.
        - injection H2 as <- _. rewrite Htm. apply tiles_rel_refl.
        - destruct (Hset eq_refl) as [Hm Hc].
          apply (set_mines_rel _ _ _ _ _ Hm Hc) in H2. by rewrite Htm in H2. }
      apply (tiles_rel_trans _ (tilemap s2)); [exact S2|].
      apply (tiles_rel_trans _ (upd (tilemap s2) r (Tile.set_isRevealed true)));
        [by apply tiles_rel_upd|].
      by apply (reveal_tiles_rel Hrev) in H4.
    + destruct (button =? 3) eqn:Hb3.
      * apply bind_Ok in H as (tile & _ & H). injection H as <- _.
        cbn [tilemap with_tilemap]. apply tiles_rel_upd.
        apply Z.eqb_eq in Hb3. subst button. by apply (Hflag mPos).
      * injection H as <- _. apply tiles_rel_refl.
  - intros [= <- _]. apply tiles_rel_refl.
Qed.
End frames.

Lemma set_mines_fields (rng rng' : RNG) (s s' : Game) (p : Vec2.t) :
  set_mines rng s p = Ok (s', rng') ->
  tilesize s' = tilesize s /\ _hTiles s' = _hTiles s /\ _vTiles s' = _vTiles s /\
  _running s' = _running s /\ __minesSet s' = true.
Proof.
  unfold set_mines. intros H.
  apply bind_Ok in H as ([g1 rng1] & _ & H).
  apply bind_Ok in H as ([r0 o0] & _ & H). apply bind_Ok in H as (t0 & _ & H).
  apply bind_Ok in H as (nbs & _ & H). apply bind_Ok in H as (g4 & _ & H).
  by injection H as <- _.
Qed.

(** What an event never changes, and the two flags of the session. *)
Lemma handle_event_fields (depth : nat) (s s' : Game) (rng rng' : RNG) (ev : Event) :
  handle_event depth (s, rng) ev = Ok (s', rng') ->
  tilesize s' = tilesize s /\ _hTiles s' = _hTiles s /\ _vTiles s' = _vTiles s /\
  (_running s = false -> _running s' = false) /\
  (__minesSet s = true -> __minesSet s' = true /\ rng' = rng).
Proof.
  destruct ev as [|button mPos|]; cbn [handle_event].
  - by intros [= <- <-].
  - intros H. apply bind_Ok in H as ([r o] & _ & H).
    destruct (button =? 1).
    + apply bind_Ok in H as (tile & _ & H).
      destruct (Tile.flagged tile); [by injection H as <- <-|].
      destruct (Tile.isRevealed tile); [by injection H as <- <-|].
      apply bind_Ok in H as ([s2 rng2] & H2 & H).
      apply bind_Ok in H as ([g4 l4] & _ & H). injection H as <- <-.
      cbn [tilesize _hTiles _vTiles _running __minesSet with_tilemap].
      set (s1 := if Tile.isMine tile then with_running false s else s) in *.
      assert (tilesize s1 = tilesize s /\ _hTiles s1 = _hTiles s /\
              _vTiles s1 = _vTiles s /\ __minesSet s1 = __minesSet s /\
              (_running s = false -> _running s1 = false))
        as (E1 & E2 & E3 & E4 & E5)
        by (unfold s1; by destruct (Tile.isMine tile)).
      destruct (__minesSet s1) eqn:Hs1; cbn [negb] in H2.
      * injection H2 as <- <-. rewrite Hs1. rewrite <- E4. done.
      * apply set_mines_fields in H2 as (F1 & F2 & F3 & F4 & F5).
        rewrite F1, F2, F3, F4, F5, E1, E2, E3, <- E4. done.
    + destruct (button =? 3).
      * apply bind_Ok in H as (tile & _ & H). by injection H as <- <-.
      * by injection H as <- <-.
  - by intros [= <- <-].
Qed.

(** X10: whenever [reveal_tiles] returns, on any grid, every tile is still
    in its cell and is either untouched or differs only in that
    [isRevealed] is now true: position, mine, count and flag are kept, so a
    flagged tile the flood fill reaches is revealed with its flag on. *)
Theorem X10_reveal_only_reveals (depth : nat) (g g' : Grid) (p : Vec2.t) (l : Log)
    (r : ref) (t : Tile.t) :
  reveal_tiles depth g p = Ok (g', l) -> deref g r = Some t ->
  deref g' r = Some t \/ deref g' r = Some (Tile.set_isRevealed true t).
Proof.
  intros Hrun Ht.
  destruct (reveal_tiles_rel
              (fun t t' => t' = t \/ t' = Tile.set_isRevealed true t)) with
    (depth := depth) (g := g) (p := p) (g' := g') (l := l) (r := r) (t := t)
    as (t' & Ht' & [-> | ->]); eauto.
  intros t1 t2 t3 [-> | ->] [-> | ->]; eauto.
Qed.

Lemma X10_reveal_only_reveals_witness :
  deref (tilemap mine_game_after) (1, 2)%nat = Some (tile 2 1 false false false 1) \/
  deref (tilemap mine_game_after) (1, 2)%nat
    = Some (Tile.set_isRevealed true (tile 2 1 false false false 1)).
Proof.
  apply (X10_reveal_only_reveals 3 (upd mine_board (1, 1)%nat (Tile.set_isRevealed true))
           (tilemap mine_game_after) (Vec2.mk 1 1)
           (mkLog [] [Vec2.mk 2 1]) (1, 2)%nat (tile 2 1 false false false 1));
    reflexivity.
Defined.

(** X11: whenever [set_mines] returns, on any grid, it has set
    [__minesSet], left the dimensions, the tile size and [_running] alone,
    and kept every tile's position, flag and [isRevealed]: only mines and
    counts are written. *)
Theorem X11_set_mines_frame (rng rng' : RNG) (s s' : Game) (p : Vec2.t) :
  set_mines rng s p = Ok (s', rng') ->
  __minesSet s' = true /\ _running s' = _running s /\
  tilesize s' = tilesize s /\ _hTiles s' = _hTiles s /\ _vTiles s' = _vTiles s /\
  forall r t, deref (tilemap s) r = Some t ->
    exists t', deref (tilemap s') r = Some t' /\
      Tile.pos t' = Tile.pos t /\ Tile.flagged t' = Tile.flagged t /\
      Tile.isRevealed t' = Tile.isRevealed t.
Proof.
  intros Hrun. destruct (set_mines_fields _ _ _ _ _ Hrun) as (F1 & F2 & F3 & F4 & F5).
  repeat (split; [done|]).
  apply (set_mines_rel
           (fun t t' => Tile.pos t' = Tile.pos t /\ Tile.flagged t' = Tile.flagged t /\
                        Tile.isRevealed t' = Tile.isRevealed t)) with (rng := rng)
    (rng' := rng') (p := p); try done.
  intros t1 t2 t3 (? & ? & ?) (? & ? & ?). repeat split; congruence.
Qed.

Lemma X11_set_mines_frame_witness :
  exists s' rng',
    set_mines (fun _ => 0) (new_game 4 3) (Vec2.mk 1 1) = Ok (s', rng') /\
    __minesSet s' = true /\ _running s' = _running (new_game 4 3) /\
    tilesize s' = tilesize (new_game 4 3) /\ _hTiles s' = _hTiles (new_game 4 3) /\
    _vTiles s' = _vTiles (new_game 4 3) /\
    forall r t, deref (tilemap (new_game 4 3)) r = Some t ->
      exists t', deref (tilemap s') r = Some t' /\
        Tile.pos t' = Tile.pos t /\ Tile.flagged t' = Tile.flagged t /\
        Tile.isRevealed t' = Tile.isRevealed t.
Proof.
  eexists _, _. split; [vm_compute; reflexivity|].
  eapply (X11_set_mines_frame (fun _ => 0) _ (new_game 4 3) _ (Vec2.mk 1 1)).
  vm_compute. reflexivity.
Defined.

Lemma handle_events_inv (P : Game * RNG -> Prop) (depth : nat) :
  (forall acc ev acc', P acc -> handle_event depth acc ev = Ok acc' -> P acc') ->
  forall events acc acc',
    P acc -> handle_events depth acc events = Ok acc' -> P acc'.
Proof. intros Hstep events acc acc'. by apply foldM_Ok_inv. Qed.

(** X12: mines are placed at most once: from a state in which
    [__minesSet] is true, whatever events are handled, on any grid,
    [__minesSet] stays true, no random number is drawn, and every tile
    keeps its position, its [isMine] and its [mines]. *)
Theorem X12_mines_placed_once (depth : nat) (s s' : Game) (rng rng' : RNG)
    (events : list Event) :
  __minesSet s = true ->
  handle_events depth (s, rng) events = Ok (s', rng') ->
  __minesSet s' = true /\ rng' = rng /\
  forall r t, deref (tilemap s) r = Some t ->
    exists t', deref (tilemap s') r = Some t' /\
      Tile.pos t' = Tile.pos t /\ Tile.isMine t' = Tile.isMine t /\
      Tile.mines t' = Tile.mines t.
Proof.
  intros Hset Hrun.
  set (R := fun t t' : Tile.t =>
              Tile.pos t' = Tile.pos t /\ Tile.isMine t' = Tile.isMine t /\
              Tile.mines t' = Tile.mines t).
  assert (forall t1 t2 t3, R t1 t2 -> R t2 t3 -> R t1 t3) as Rtrans.
  { intros t1 t2 t3 (? & ? & ?) (? & ? & ?). repeat split; congruence. }
  pose (P := fun acc : Game * RNG =>
               __minesSet acc.1 = true /\ acc.2 = rng /\
               tiles_rel R (tilemap s) (tilemap acc.1)).
  enough (P (s', rng')) as HP by exact HP.
  apply (handle_events_inv P depth) with (acc := (s, rng)) (events := events);
    [| |done].
  - intros [a ra] ev [a' ra'] (Ha & Hra & Hrel) Hev. cbn [fst snd] in *. subst ra.
    destruct (handle_event_fields _ _ _ _ _ _ Hev) as (_ & _ & _ & _ & Hms).
    destruct (Hms Ha) as [Ha' ->]. split; [done|]. split; [done|].
    apply (tiles_rel_trans R Rtrans _ (tilemap a)); [done|].
    apply (handle_event_rel R) with (depth := depth) (rng := rng) (rng' := rng)
      (ev := ev); try done.
    intros Hf. congruence.
  - split; [done|]. split; [done|]. by apply tiles_rel_refl.
Qed.

Lemma X12_mines_placed_once_witness :
  __minesSet mine_game_after = true /\ (fun _ : nat => 1) = (fun _ : nat => 1) /\
  forall r t, deref (tilemap mine_game) r = Some t ->
    exists t', deref (tilemap mine_game_after) r = Some t' /\
      Tile.pos t' = Tile.pos t /\ Tile.isMine t' = Tile.isMine t /\
      Tile.mines t' = Tile.mines t.
Proof.
  apply (X12_mines_placed_once 3 mine_game mine_game_after (fun _ => 1) (fun _ => 1)
           [MOUSEBUTTONDOWN 1 (5, 5)]); reflexivity.
Defined.

(** X13: only a secondary action changes a flag: if none of the events
    handled is one, every tile keeps its [flagged] (and its position), on
    any grid, whether or not mines get placed on the way. *)
Theorem X13_flags_kept (depth : nat) (s s' : Game) (rng rng' : RNG)
    (events : list Event) :
  no_secondary events ->
  handle_events depth (s, rng) events = Ok (s', rng') ->
  forall r t, deref (tilemap s) r = Some t ->
    exists t', deref (tilemap s') r = Some t' /\
      Tile.pos t' = Tile.pos t /\ Tile.flagged t' = Tile.flagged t.
Proof.
  intros Hno. revert s rng.
  set (R := fun t t' : Tile.t =>
              Tile.pos t' = Tile.pos t /\ Tile.flagged t' = Tile.flagged t).
  assert (forall t1 t2 t3, R t1 t2 -> R t2 t3 -> R t1 t3) as Rtrans.
  { intros t1 t2 t3 (? & ?) (? & ?). split; congruence. }
  change (forall s rng, handle_events depth (s, rng) events = Ok (s', rng') ->
            tiles_rel R (tilemap s) (tilemap s')).
  induction events as [|ev events IH]; intros s rng; unfold handle_events; cbn [foldM].
  - intros [= <- _]. by apply tiles_rel_refl.
  - intros H. apply bind_Ok in H as ([s1 rng1] & H1 & H).
    apply (tiles_rel_trans R Rtrans _ (tilemap s1)).
    + apply (handle_event_rel R) with (depth := depth) (rng := rng) (rng' := rng1)
        (ev := ev); try done.
      intros mPos ->. exfalso. apply (Hno 3 mPos); [left | done].
    + apply (IH (fun b m Hin => Hno b m (list_elem_of_further _ _ _ Hin)) s1 rng1 H).
Qed.

Lemma X13_flags_kept_witness :
  exists s' rng',
    handle_events 4
      (with_tilemap (upd clear_board (1, 3)%nat (Tile.set_flagged true)) clear_game,
       fun _ => 1)
      [MOUSEBUTTONDOWN 1 (5, 5); QUIT] = Ok (s', rng') /\
    forall r t,
      deref (tilemap (with_tilemap (upd clear_board (1, 3)%nat (Tile.set_flagged true))
                                   clear_game)) r = Some t ->
      exists t', deref (tilemap s') r = Some t' /\
        Tile.pos t' = Tile.pos t /\ Tile.flagged t' = Tile.flagged t.
Proof.
  eexists _, _. split; [vm_compute; reflexivity|].
  eapply (X13_flags_kept 4 _ _ (fun _ => 1) _ [MOUSEBUTTONDOWN 1 (5, 5); QUIT]).
  - intros b m Hin. apply elem_of_cons in Hin as [[= -> _] | Hin]; [discriminate|].
    apply list_elem_of_singleton in Hin. discriminate.
  - vm_compute. reflexivity.
Defined.

Lemma set_mines_running (b : bool) (rng : RNG) (s : Game) (p : Vec2.t) :
  set_mines rng (with_running b s) p =
  let* (s', rng') := set_mines rng s p in Ok (with_running b s', rng').
Proof.
  unfold set_mines. cbn [with_minesSet with_running tilemap _hTiles _vTiles].
  destruct (foldM _ _ _) as [[g1 rng1]| |]; cbn [bind]; [|done..].
  destruct (locate g1 _ _) as [[r0 o0]| |]; cbn [bind]; [|done..].
  destruct (attr o0); cbn [bind]; [|done..].
  destruct (get_neighbour_tiles _ _); cbn [bind]; [|done..].
  destruct (foldM _ _ _); cbn [bind]; done.
Qed.

(** X14: [handle_events] never looks at [_running]: a game that is over
    reacts to an event exactly as the running game would, except that it
    stays over. *)
Theorem X14_game_over_still_handles (depth : nat) (s : Game) (rng : RNG) (ev : Event) :
  handle_event depth (with_running false s, rng) ev =
  let* (s', rng') := handle_event depth (s, rng) ev in
  Ok (with_running false s', rng').
Proof.
  destruct ev as [|button mPos|]; cbn [handle_event bind]; [done| |done].
  change (mouse_to_grid (with_running false s) mPos) with (mouse_to_grid s mPos).
  cbn [tilemap with_running].
  destruct (locate _ _ _) as [[r o]| |]; cbn [bind]; [|done..].
  destruct (button =? 1).
  - destruct (attr o) as [tile| |]; cbn [bind]; [|done..].
    destruct (Tile.flagged tile); [done|]. destruct (Tile.isRevealed tile); [done|].
    assert ((if Tile.isMine tile then with_running false (with_running false s)
             else with_running false s)
            = with_running false (if Tile.isMine tile then with_running false s else s))
      as -> by (by destruct (Tile.isMine tile)).
    set (s1 := if Tile.isMine tile then with_running false s else s).
    cbn [__minesSet with_running].
    destruct (negb (__minesSet s1)).
    + rewrite set_mines_running.
      destruct (set_mines rng s1 (mouse_to_grid s mPos)) as [[s2 rng2]| |];
        cbn [bind]; [|done..].
      cbn [tilemap with_running].
      destruct (reveal_tiles _ _ _) as [[g4 l4]| |]; cbn [bind]; done.
    + cbn [bind tilemap with_running].
      destruct (reveal_tiles _ _ _) as [[g4 l4]| |]; cbn [bind]; done.
  - destruct (button =? 3); [|done].
    destruct (attr o) as [tile| |]; cbn [bind]; done.
Qed.

(** ** The first click and the counts *)

Lemma reveal_rel_tile (w h : Z) (g g' : Grid) (ws : list Vec2.t) (q : Vec2.t)
    (t : Tile.t) :
  reveal_rel w h g g' ws -> interior w h q -> tile_at g q = Some t ->
  exists t', tile_at g' q = Some t' /\
    (t' = t \/ t' = Tile.set_isRevealed true t) /\
    (q ∈ ws -> Tile.isRevealed t' = true).
Proof.
  intros [_ Hrel] Hq Ht. rewrite (Hrel q Hq), Ht.
  destruct (decide (q ∈ ws)); eexists; (split; [done|]); split; eauto; done.
Qed.

Lemma mine_count_safe (g : Grid) (nbs : list ref) :
  (forall r, r ∈ nbs -> is_mine g r = false) -> mine_count g nbs = 0.
Proof.
  intros Hsafe. unfold mine_count.
  induction nbs as [|r nbs IH]; [done|].
  rewrite filter_cons, decide_False.
  - apply IH. intros r' Hr'. apply Hsafe. by right.
  - rewrite Hsafe; [done | left].
Qed.

Lemma mine_count_bounds (g : Grid) (nbs : list ref) :
  0 <= mine_count g nbs <= Z.of_nat (length nbs).
Proof.
  unfold mine_count.
  pose proof (length_filter (fun r => is_mine g r = true) nbs). lia.
Qed.

(** X15: the first click is safe and opens a block: with the mines not yet
    placed, a primary action on an unflagged, hidden interior tile that is
    no mine places the mines and returns, and afterwards the game runs as
    before, the clicked tile is revealed, is no mine and has count 0, and
    each of its neighbours is revealed and is no mine, whatever the random
    draws; the neighbours are the tiles [get_neighbour_tiles] returns,
    and they are the tiles of all the cells around the clicked one inside
    the ring. *)
Theorem X15_first_click_opens (depth : nat) (rng : RNG) (s : Game) (mPos : Z * Z)
    (t : Tile.t) :
  wf (_hTiles s) (_vTiles s) (tilemap s) ->
  interior (_hTiles s) (_vTiles s) (mouse_to_grid s mPos) ->
  __minesSet s = false ->
  tile_at (tilemap s) (mouse_to_grid s mPos) = Some t ->
  Tile.flagged t = false -> Tile.isRevealed t = false -> Tile.isMine t = false ->
  (Z.to_nat ((_hTiles s - 2) * (_vTiles s - 2)) < depth)%nat ->
  exists s' rng',
    handle_event depth (s, rng) (MOUSEBUTTONDOWN 1 mPos) = Ok (s', rng') /\
    __minesSet s' = true /\ _running s' = _running s /\
    (exists t', tile_at (tilemap s') (mouse_to_grid s mPos) = Some t' /\
       Tile.isRevealed t' = true /\ Tile.isMine t' = false /\ Tile.mines t' = 0) /\
    (exists nbs,
      get_neighbour_tiles (tilemap s') (mouse_to_grid s mPos) = Ok nbs /\
      forall r, r ∈ nbs ->
        exists tq, deref (tilemap s') r = Some tq /\
          Tile.isRevealed tq = true /\ Tile.isMine tq = false) /\
    forall q, live_neighbour (_hTiles s) (_vTiles s) (mouse_to_grid s mPos) q ->
      exists tq, tile_at (tilemap s') q = Some tq /\
        Tile.isRevealed tq = true /\ Tile.isMine tq = false.
Proof.
  intros Hwf Hp Hset Ht Hfl Hrev Hmine Hd.
  set (pos := mouse_to_grid s mPos) in *.
  set (w := _hTiles s) in *. set (h := _vTiles s) in *.
  destruct (wf_interior_locate _ _ _ _ Hwf Hp) as (t0 & Hloc & Ht0 & _).
  rewrite Ht in Ht0. injection Ht0 as <-.
  destruct (set_mines_spec w h rng s pos Hwf eq_refl eq_refl Hp)
    as (g2 & rng2 & Hsm & Hwf2 & Hsafe & Hsafen & Hcounts).
  destruct Hsafe as (t2 & Ht2 & Hm2).
  assert (Tile.mines t2 = 0) as Hz2.
  { destruct (Hcounts pos t2 Hp Ht2) as (nbs & Hnbs & ->).
    rewrite (wf_get_neighbour_tiles w h g2 pos Hwf2 Hp) in Hnbs. injection Hnbs as <-.
    apply mine_count_safe. intros r Hr. apply list_elem_of_fmap in Hr as (q & -> & Hq).
    destruct (Hsafen q Hq) as (tq & Htq & Hmq). unfold is_mine.
    unfold tile_at in Htq. by rewrite Htq. }
  pose proof (reveal_rel_upd w h g2 pos Hwf2 Hp) as Hg3.
  destruct (reveal_tiles_total w h depth _ pos (proj1 Hg3) Hp Hd)
    as (g4 & l & Hrun & P).
  pose proof (post_rel _ _ _ _ _ _ P) as Hg4.
  assert (tile_at (upd g2 (ref_of pos) (Tile.set_isRevealed true)) pos
          = Some (Tile.set_isRevealed true t2)) as Ht3.
  { unfold tile_at in *. by rewrite deref_upd_eq, Ht2. }
  eexists (with_tilemap g4 (with_tilemap g2 (with_minesSet true s))), rng2. split.
  { cbn [handle_event]. fold pos. rewrite Hloc. cbn [bind attr].
    rewrite Hfl, Hrev, Hmine, Hset. cbn [negb]. rewrite Hsm. cbn [bind].
    cbn [tilemap with_tilemap]. rewrite Hrun. done. }
  cbn [tilemap with_tilemap __minesSet _running with_minesSet].
  split; [done|]. split; [done|]. split.
  - destruct (reveal_rel_tile _ _ _ _ _ _ _ Hg4 Hp Ht3) as (t4 & Ht4 & [-> | ->] & _);
      exists (Tile.set_isRevealed true t2); done.
  - assert (forall q, q ∈ neighbours w h pos ->
              exists tq, tile_at g4 q = Some tq /\
                Tile.isRevealed tq = true /\ Tile.isMine tq = false) as Hnb.
    { intros q Hq. destruct (neighbours_interior w h pos q Hp Hq) as [Hqi Hne].
      destruct (Hsafen q Hq) as (tq & Htq & Hmq).
      assert (tile_at (upd g2 (ref_of pos) (Tile.set_isRevealed true)) q = Some tq)
        as Htq3.
      { unfold tile_at in *. rewrite deref_upd_ne; [done|].
        intros Heq. by apply (ref_of_inj w h) in Heq. }
      destruct (reveal_rel_tile _ _ _ _ _ _ _ Hg4 Hqi Htq3) as (t4 & Ht4 & Hor & Hw).
      exists t4. split; [done|]. split.
      + apply Hw. by apply (post_zero _ _ _ _ _ _ P _ Ht3).
      + by destruct Hor as [-> | ->]. }
    split.
    + exists (ref_of <$> neighbours w h pos).
      split; [apply (wf_get_neighbour_tiles w h); [apply Hg4 | done]|].
      intros r Hr. apply list_elem_of_fmap in Hr as (q & -> & Hq). by apply Hnb.
    + intros q Hq. apply Hnb. by apply live_neighbour_iff.
Qed.

(** All draws are 0: every tile outside the safe zone becomes a mine. *)
Lemma X15_first_click_opens_witness :
  exists s' rng',
    handle_event 13 (new_game 6 5, fun _ => 0) (MOUSEBUTTONDOWN 1 (40, 40))
      = Ok (s', rng') /\
    __minesSet s' = true /\ _running s' = _running (new_game 6 5) /\
    (exists t', tile_at (tilemap s') (mouse_to_grid (new_game 6 5) (40, 40)) = Some t' /\
       Tile.isRevealed t' = true /\ Tile.isMine t' = false /\ Tile.mines t' = 0) /\
    (exists nbs,
      get_neighbour_tiles (tilemap s') (mouse_to_grid (new_game 6 5) (40, 40)) = Ok nbs /\
      forall r, r ∈ nbs ->
        exists tq, deref (tilemap s') r = Some tq /\
          Tile.isRevealed tq = true /\ Tile.isMine tq = false) /\
    forall q, live_neighbour (_hTiles (new_game 6 5)) (_vTiles (new_game 6 5))
                (mouse_to_grid (new_game 6 5) (40, 40)) q ->
      exists tq, tile_at (tilemap s') q = Some tq /\
        Tile.isRevealed tq = true /\ Tile.isMine tq = false.
Proof.
  apply (X15_first_click_opens 13 (fun _ => 0) (new_game 6 5) (40, 40)
           (tile 2 2 false false false 0)).
  - apply wfb_wf. vm_compute. reflexivity.
  - split; vm_compute; split; discriminate.
  - reflexivity.
  - reflexivity.
  - reflexivity.
  - reflexivity.
  - reflexivity.
  - vm_compute. lia.
Defined.

(** X16: after [set_mines] at an interior coordinate every interior
    tile's [mines] lies between 0 and 8. *)
Theorem X16_counts_in_range (rng : RNG) (s : Game) (C : Vec2.t) :
  wf (_hTiles s) (_vTiles s) (tilemap s) ->
  interior (_hTiles s) (_vTiles s) C ->
  exists s' rng',
    set_mines rng s C = Ok (s', rng') /\
    forall q t, interior (_hTiles s) (_vTiles s) q ->
      tile_at (tilemap s') q = Some t -> 0 <= Tile.mines t <= 8.
Proof.
  intros Hwf HC.
  destruct (set_mines_spec _ _ rng s C Hwf eq_refl eq_refl HC)
    as (g' & rng' & Hrun & Hwf' & _ & _ & Hcounts).
  eexists _, rng'. split; [exact Hrun|]. cbn [tilemap with_tilemap].
  intros q t Hq Ht. destruct (Hcounts q t Hq Ht) as (nbs & Hnbs & ->).
  rewrite (wf_get_neighbour_tiles _ _ g' q Hwf' Hq) in Hnbs. injection Hnbs as <-.
  pose proof (mine_count_bounds g' (ref_of <$> neighbours (_hTiles s) (_vTiles s) q)).
  rewrite length_fmap in *.
  pose proof (neighbours_length_le (_hTiles s) (_vTiles s) q). lia.
Qed.

Lemma X16_counts_in_range_witness :
  exists s' rng',
    set_mines (fun _ => 0) (new_game 6 5) (Vec2.mk 1 1) = Ok (s', rng') /\
    forall q t, interior (_hTiles (new_game 6 5)) (_vTiles (new_game 6 5)) q ->
      tile_at (tilemap s') q = Some t -> 0 <= Tile.mines t <= 8.
Proof.
  apply (X16_counts_in_range (fun _ => 0) (new_game 6 5) (Vec2.mk 1 1)).
  - apply wfb_wf. vm_compute. reflexivity.
  - split; simpl; lia.
Defined.

(** ** Which tiles become mines *)

(** Invariant rule for a loop that cannot fail, indexed by the number of
    elements visited. *)
Lemma foldM_total_idx {A B} (f : A -> B -> result A) :
  forall (l : list B) (I : nat -> A -> Prop) (a : A),
    I 0%nat a ->
    (forall i x a0, l !! i = Some x -> I i a0 ->
       exists a1, f a0 x = Ok a1 /\ I (S i) a1) ->
    exists a', foldM f a l = Ok a' /\ I (length l) a'.
Proof.
  induction l as [|x l IH]; intros I a Ha Hstep; cbn [foldM length].
  - eauto.
  - destruct (Hstep 0%nat x a eq_refl Ha) as (a1 & -> & Ha1). cbn [bind].
    apply (IH (fun i => I (S i))); [done|].
    intros i y a0 Hy. by apply (Hstep (S i)).
Qed.

Lemma scan_index_inj (w h : Z) (p q : Vec2.t) :
  interior w h p -> interior w h q -> scan_index w p = scan_index w q -> p = q.
Proof.
  intros [Hpx Hpy] [Hqx Hqy]. unfold scan_index. destruct p as [px py], q as [qx qy].
  cbn [Vec2.x Vec2.y] in *. intros Heq.
  assert ((py - 1) * (w - 2) + (px - 1) = (qy - 1) * (w - 2) + (qx - 1)) as Hz by nia.
  assert (py = qy) by nia. subst qy. f_equal. lia.
Qed.

Lemma scan_index_lt (w h : Z) (q : Vec2.t) :
  interior w h q -> (scan_index w q < Z.to_nat (h - 2) * Z.to_nat (w - 2))%nat.
Proof.
  intros [Hx Hy]. unfold scan_index. nia.
Qed.

Lemma set_isMine_orb_false (t : Tile.t) :
  Tile.set_isMine (Tile.isMine t || false) t = t.
Proof. destruct t. cbn. by rewrite orb_false_r. Qed.

Lemma gen_mine_step (w h : Z) (rng : RNG) (g : Grid) (k : nat) (acc : Grid * RNG)
    (xx yy : Z) :
  gen_inv w h rng g k acc -> interior w h (Vec2.mk xx yy) ->
  scan_index w (Vec2.mk xx yy) = k ->
  exists acc', gen_mine yy acc xx = Ok acc' /\ gen_inv w h rng g (S k) acc'.
Proof.
  intros (Hwf & Hrng & Htiles) Hq Hk.
  destruct (wf_interior_locate w h acc.1 _ Hwf Hq) as (t1 & Hloc & Ht1 & _).
  cbn [Vec2.x Vec2.y] in Hloc.
  assert (forall n, acc.2 (S n) = rng (n + S k)%nat) as Hrng'
    by (intros n; rewrite Hrng; f_equal; lia).
  assert (forall q t, interior w h q -> tile_at g q = Some t -> q <> Vec2.mk xx yy ->
            tile_at acc.1 q =
            Some (if decide (scan_index w q < S k)%nat
                  then Tile.set_isMine (Tile.isMine t || (rng (scan_index w q) =? 0)) t
                  else t)) as Hother.
  { intros q t Hqi Ht Hne. rewrite (Htiles q t Hqi Ht).
    assert (scan_index w q <> k) as Hsk.
    { intros Heq. apply Hne. apply (scan_index_inj w h); [done..|]. congruence. }
    destruct (decide (scan_index w q < k)%nat), (decide (scan_index w q < S k)%nat);
      try done; lia. }
  assert (forall t, tile_at g (Vec2.mk xx yy) = Some t -> t1 = t) as Hhere.
  { intros t Ht. rewrite (Htiles _ t Hq Ht) in Ht1.
    rewrite decide_False in Ht1 by lia. congruence. }
  unfold gen_mine. cbn [randint]. rewrite (Hrng 0%nat). cbn [Nat.add].
  destruct (rng k =? 0) eqn:Hdraw.
  - rewrite Hloc. cbn [bind attr]. eexists. split; [done|].
    split; [by apply wf_upd|]. split; [done|]. cbn [fst].
    intros q t Hqi Ht. destruct (decide (q = Vec2.mk xx yy)) as [-> | Hne].
    + unfold tile_at in *. rewrite deref_upd_eq, Ht1. cbn.
      rewrite decide_True by lia. rewrite Hk, Hdraw, orb_true_r.
      by rewrite (Hhere t Ht).
    + unfold tile_at in *. rewrite deref_upd_ne; [by apply Hother|].
      intros Heq. by apply (ref_of_inj w h) in Heq.
  - eexists. split; [done|]. split; [done|]. split; [done|]. cbn [fst].
    intros q t Hqi Ht. destruct (decide (q = Vec2.mk xx yy)) as [-> | Hne].
    + rewrite Ht1, decide_True by lia. rewrite Hk, Hdraw, set_isMine_orb_false.
      by rewrite (Hhere t Ht).
    + by apply Hother.
Qed.

(** The first pair of loops, tile by tile and draw by draw. *)
Lemma gen_mines_exact (w h : Z) (rng : RNG) (g : Grid) :
  wf w h g ->
  exists acc,
    foldM (fun acc yy => foldM (gen_mine yy) acc (range 1 (w - 1)))
          (g, rng) (range 1 (h - 1)) = Ok acc /\
    gen_inv w h rng g (Z.to_nat (h - 2) * Z.to_nat (w - 2)) acc.
Proof.
  intros Hwf. unfold range.
  replace (h - 1 - 1) with (h - 2) by lia. replace (w - 1 - 1) with (w - 2) by lia.
  destruct (foldM_total_idx
              (fun acc yy => foldM (gen_mine yy) acc (seqZ 1 (w - 2)))
              (seqZ 1 (h - 2))
              (fun i acc => gen_inv w h rng g (i * Z.to_nat (w - 2)) acc)
              (g, rng)) as (acc & Hrun & Hinv).
  - split; [done|]. split; [intros n; cbn; f_equal; lia|]. cbn [fst].
    intros q t _ Ht. rewrite decide_False by lia. done.
  - intros i yy acc Hyy Hacc. apply lookup_seqZ in Hyy as [-> Hi].
    destruct (foldM_total_idx (gen_mine (1 + Z.of_nat i)) (seqZ 1 (w - 2))
                (fun j acc => gen_inv w h rng g (i * Z.to_nat (w - 2) + j) acc)
                acc) as (acc1 & Hrun & Hinv).
    + by rewrite Nat.add_0_r.
    + intros j xx a Hxx Ha. apply lookup_seqZ in Hxx as [-> Hj].
      replace (i * Z.to_nat (w - 2) + S j)%nat
        with (S (i * Z.to_nat (w - 2) + j)) by lia.
      apply gen_mine_step; [done | split; cbn; lia |].
      unfold scan_index. cbn [Vec2.x Vec2.y]. nia.
    + exists acc1. split; [done|]. rewrite length_seqZ in Hinv.
      by replace (S i * Z.to_nat (w - 2))%nat
        with (i * Z.to_nat (w - 2) + Z.to_nat (w - 2))%nat by lia.
  - exists acc. split; [done|]. by rewrite length_seqZ in Hinv.
Qed.

Lemma clear_mines_exact (w h : Z) (ps : list Vec2.t) :
  (forall q, q ∈ ps -> interior w h q) ->
  forall g q, wf w h g -> interior w h q ->
    tile_at (fold_left (fun g r => upd g r (Tile.set_isMine false)) (ref_of <$> ps) g) q
    = if decide (q ∈ ps) then Tile.set_isMine false <$> tile_at g q else tile_at g q.
Proof.
  induction ps as [|p ps IH]; intros Hps g q Hwf Hq; cbn [fmap list_fmap fold_left].
  - by rewrite decide_False by apply not_elem_of_nil.
  - assert (interior w h p) as Hp by (apply Hps; left).
    rewrite IH; [|intros q' Hq'; apply Hps; by right|by apply wf_upd|done].
    unfold tile_at. rewrite deref_upd.
    destruct (decide (q = p)) as [-> | Hne].
    + rewrite (decide_True (P := ref_of p = ref_of p)) by done.
      rewrite (decide_True (P := p ∈ p :: ps)) by left.
      case_decide; [|done]. by destruct (deref g (ref_of p)).
    + rewrite (decide_False (P := ref_of p = ref_of q)).
      * destruct (decide (q ∈ ps)).
        -- rewrite decide_True; [done | by right].
        -- rewrite decide_False; [done|]. rewrite elem_of_cons. tauto.
      * intros Heq. by apply (ref_of_inj w h) in Heq.
Qed.

(** X17: which tiles [set_mines] makes mines.  It draws exactly one random
    number per interior tile, row by row, so the source it returns is the
    given one advanced by [(w-2)*(h-2)]; afterwards the start tile and the
    tiles [get_neighbour_tiles] returns for it are no mines, and any other
    interior tile is a mine exactly when it was one before or its own draw
    was 0. *)
Theorem X17_mines_follow_draws (rng : RNG) (s : Game) (C : Vec2.t) :
  wf (_hTiles s) (_vTiles s) (tilemap s) ->
  interior (_hTiles s) (_vTiles s) C ->
  exists s' rng' nbs,
    set_mines rng s C = Ok (s', rng') /\
    get_neighbour_tiles (tilemap s) C = Ok nbs /\
    (forall n, rng' n = rng (n + Z.to_nat ((_hTiles s - 2) * (_vTiles s - 2)))%nat) /\
    forall q t, interior (_hTiles s) (_vTiles s) q ->
      tile_at (tilemap s) q = Some t ->
      exists t', tile_at (tilemap s') q = Some t' /\
        Tile.isMine t' =
        if decide (q = C \/ ref_of q ∈ nbs) then false
        else Tile.isMine t || (rng (scan_index (_hTiles s) q) =? 0).
Proof.
  intros Hwf HC. set (w := _hTiles s) in *. set (h := _vTiles s) in *.
  destruct (set_mines_spec w h rng s C Hwf eq_refl eq_refl HC)
    as (g' & rng' & Hsm & Hwf' & _).
  exists (with_tilemap g' (with_minesSet true s)), rng', (ref_of <$> neighbours w h C).
  split; [done|]. split; [by apply wf_get_neighbour_tiles|].
  unfold set_mines in Hsm. cbn [with_minesSet _hTiles _vTiles tilemap] in Hsm.
  fold w h in Hsm.
  apply bind_Ok in Hsm as ([g1 rng1] & H1 & Hsm).
  destruct (gen_mines_exact w h rng (tilemap s) Hwf) as (acc & Hacc & Hinv).
  rewrite H1 in Hacc. injection Hacc as <-. destruct Hinv as (Hwf1 & Hrng1 & Ht1).
  cbn [fst snd] in *.
  destruct (wf_interior_locate w h g1 C Hwf1 HC) as (tc & Hloc & _ & _).
  rewrite Hloc in Hsm. cbn [bind attr] in Hsm.
  assert (wf w h (upd g1 (ref_of C) (Tile.set_isMine false))) as Hwf2
    by (by apply wf_upd).
  rewrite (wf_get_neighbour_tiles w h _ C Hwf2 HC) in Hsm. cbn [bind] in Hsm.
  destruct (clear_mines_spec w h (neighbours w h C)
              (fun q Hq => proj1 (neighbours_interior w h C q HC Hq)) _ Hwf2)
    as [Hwf3 _].
  apply bind_Ok in Hsm as (g4 & H4 & Hsm). injection Hsm as <- <-.
  destruct (count_loops_spec w h _ Hwf3) as (g4' & Hrun4 & Hwf4 & Hm4 & _).
  rewrite H4 in Hrun4. injection Hrun4 as <-.
  split.
  { intros n. rewrite Hrng1. f_equal. f_equal.
    destruct HC as [? ?]. rewrite Z2Nat.inj_mul by lia. apply Nat.mul_comm. }
  cbn [tilemap with_tilemap]. intros q t Hq Ht.
  destruct (wf_tile_at w h g4 q Hwf4 Hq) as (t4 & Ht4 & _).
  exists t4. split; [done|].
  pose proof (Hm4 (ref_of q)) as Hmq. unfold is_mine in Hmq.
  unfold tile_at in Ht4. rewrite Ht4 in Hmq. rewrite Hmq. clear Hmq.
  pose proof (clear_mines_exact w h (neighbours w h C)
                (fun q Hq => proj1 (neighbours_interior w h C q HC Hq))
                _ q Hwf2 Hq) as H3.
  unfold tile_at in H3. rewrite H3. clear H3.
  pose proof (Ht1 q t Hq Ht) as Hg1q.
  rewrite decide_True in Hg1q by (by apply (scan_index_lt w h)).
  unfold tile_at in Hg1q. rewrite deref_upd, Hg1q.
  destruct (decide (q = C)) as [-> | Hne].
  - rewrite (decide_True (P := ref_of C = ref_of C)) by done.
    rewrite (decide_True (P := C = C \/ _)) by (by left).
    case_decide; by destruct (deref g1 (ref_of C)).
  - rewrite (decide_False (P := ref_of C = ref_of q));
      [|intros Heq; by apply (ref_of_inj w h) in Heq].
    destruct (decide (q ∈ neighbours w h C)) as [Hin | Hnin].
    + rewrite decide_True; [done|]. right. by apply list_elem_of_fmap_2.
    + rewrite decide_False; [done|]. intros [? | Hin]; [done|].
      by apply elem_of_neighbour_refs in Hin.
Qed.

(** Draws 1, 0, 0, 0, ...: on the 6 by 3 grid with start (1, 1) the tiles
    (3, 1) and (4, 1) become mines. *)
Lemma X17_mines_follow_draws_witness :
  exists s' rng' nbs,
    set_mines (fun n => if n is O then 1 else 0) (new_game 6 3) (Vec2.mk 1 1)
      = Ok (s', rng') /\
    get_neighbour_tiles (tilemap (new_game 6 3)) (Vec2.mk 1 1) = Ok nbs /\
    (forall n, rng' n = (fun n => if n is O then 1 else 0)
                          (n + Z.to_nat ((_hTiles (new_game 6 3) - 2)
                                         * (_vTiles (new_game 6 3) - 2)))%nat) /\
    forall q t, interior (_hTiles (new_game 6 3)) (_vTiles (new_game 6 3)) q ->
      tile_at (tilemap (new_game 6 3)) q = Some t ->
      exists t', tile_at (tilemap s') q = Some t' /\
        Tile.isMine t' =
        if decide (q = Vec2.mk 1 1 \/ ref_of q ∈ nbs) then false
        else Tile.isMine t
             || ((fun n => if n is O then 1 else 0)
                   (scan_index (_hTiles (new_game 6 3)) q) =? 0).
Proof.
  apply (X17_mines_follow_draws (fun n => if n is O then 1 else 0) (new_game 6 3)
           (Vec2.mk 1 1)).
  - apply wfb_wf. vm_compute. reflexivity.
  - split; simpl; lia.
Defined.

Example mines_follow_draws_6_3 :
  exists rng',
    set_mines (fun n => if n is O then 1 else 0) (new_game 6 3) (Vec2.mk 1 1)
    = Ok (mkGame
            [ [None; None; None; None; None; None];
              [None; Some (tile 1 1 false false false 0);
               Some (tile 2 1 false false false 1);
               Some (tile 3 1 true false false 1);
               Some (tile 4 1 true false false 1); None];
              [None; None; None; None; None; None] ]
            32 6 3 true true, rng').
Proof. eexists. vm_compute. reflexivity. Qed.

(** ** The flood fill leaves no zero-count tile half open *)

Lemma unrevealed_same (w h : Z) (g g' : Grid) (ws : list Vec2.t) (q : Vec2.t) :
  reveal_rel w h g g' ws -> interior w h q -> q ∉ ws ->
  unrevealedb g' q = unrevealedb g q.
Proof.
  intros [_ Hrel] Hq Hnin. unfold unrevealedb.
  by rewrite (Hrel q Hq), decide_False.
Qed.

Lemma zero_at_back (w h : Z) (g g' : Grid) (ws : list Vec2.t) (z : Vec2.t) :
  reveal_rel w h g g' ws -> interior w h z -> zero_at g' z -> zero_at g z.
Proof.
  intros Hrel Hz (t' & Ht' & Hm).
  destruct (reveal_rel_back _ _ _ _ _ _ _ Hrel Hz Ht') as (t & Ht & [-> | [_ ->]]);
    exists t; eauto.
Qed.

Lemma zero_at_fwd (w h : Z) (g g' : Grid) (ws : list Vec2.t) (z : Vec2.t) :
  reveal_rel w h g g' ws -> interior w h z -> zero_at g z -> zero_at g' z.
Proof.
  intros Hrel Hz (t & Ht & Hm).
  destruct (reveal_rel_tile _ _ _ _ _ _ _ Hrel Hz Ht) as (t' & Ht' & Hor & _).
  exists t'. split; [done|]. by destruct Hor as [-> | ->].
Qed.

Lemma loop_writes_interior (w h : Z) (ps : list Vec2.t) (g g' : Grid) (l : Log) :
  (forall q, q ∈ ps -> interior w h q) -> loop_post w h ps g g' l ->
  forall q, q ∈ writes l -> interior w h q.
Proof.
  intros Hps P q Hq. destruct (loop_writes _ _ _ _ _ _ P q Hq) as [Hin | Hzn].
  - by apply Hps.
  - destruct Hzn as (z & t & Hz & _ & _ & Hqz).
    by destruct (neighbours_interior w h z q Hz Hqz).
Qed.

Lemma reveal_loop_closed (w h : Z) (f : nat)
    (rec : Grid -> Vec2.t -> result (Grid * Log)) :
  (forall g p, wf w h g -> interior w h p -> (hidden w h g < f)%nat ->
     exists g' l, rec g p = Ok (g', l) /\ reveal_post w h g p g' l /\
                  closed_post w h g l) ->
  forall ps g,
    (forall q, q ∈ ps -> interior w h q) -> wf w h g -> (hidden w h g <= f)%nat ->
    exists g' l,
      reveal_loop rec (ref_of <$> ps) g = Ok (g', l) /\ loop_post w h ps g g' l /\
      closed_post w h g l.
Proof.
  intros Hrec.
  assert (forall g p, wf w h g -> interior w h p -> (hidden w h g < f)%nat ->
            exists g' l, rec g p = Ok (g', l) /\ reveal_post w h g p g' l) as Hrec0.
  { intros g p Hwf Hp Hf. destruct (Hrec g p Hwf Hp Hf) as (g' & l & ? & ? & _). eauto. }
  induction ps as [|q ps IH]; intros g Hps Hwf Hf.
  - destruct (reveal_loop_spec w h f rec Hrec0 [] g Hps Hwf Hf) as (g' & l & Hrun & P).
    exists g', l. split; [done|]. split; [done|].
    cbn in Hrun. injection Hrun as <- <-.
    split; cbn [calls writes]; intros z Hz; by apply elem_of_nil in Hz.
  - destruct (reveal_loop_spec w h f rec Hrec0 (q :: ps) g Hps Hwf Hf)
      as (gF & lF & HrunF & PF).
    exists gF, lF. split; [done|]. split; [done|].
    pose proof (loop_writes_interior w h _ _ _ _ Hps PF) as Hwint.
    assert (interior w h q) as Hq by (apply Hps; left).
    assert (forall q', q' ∈ ps -> interior w h q') as Hps'
      by (intros; apply Hps; by right).
    destruct (wf_tile_at w h g q Hwf Hq) as (t & Ht & Hpos).
    rewrite fmap_cons in HrunF. cbn [reveal_loop] in HrunF.
    pose proof Ht as Htd. unfold tile_at in Htd. rewrite Htd in HrunF.
    cbn [attr bind] in HrunF. rewrite Hpos in HrunF.
    pose proof (reveal_rel_upd w h g q Hwf Hq) as Hg1.
    assert (forall x, x ∈ [q] <-> x = q) as Hsing
      by (intros; apply list_elem_of_singleton).
    destruct (negb (Tile.isRevealed t) && (Tile.mines t =? 0)) eqn:Hc.
    + apply andb_true_iff in Hc as [Hrev Hz]. apply negb_true_iff in Hrev.
      apply Z.eqb_eq in Hz.
      assert (unrevealedb g q = true) as Hun.
      { unfold unrevealedb. by rewrite Ht, Hrev. }
      pose proof (hidden_upd_lt w h g q Hwf Hq Hun) as Hlt.
      destruct (Hrec (upd g (ref_of q) (Tile.set_isRevealed true)) q)
        as (g2 & l2 & Hrun2 & P2 & K2); [apply Hg1 | done | lia |].
      rewrite Hrun2 in HrunF. cbn [bind] in HrunF.
      pose proof (post_rel _ _ _ _ _ _ P2) as Hg2.
      pose proof (reveal_rel_upd w h g2 q (proj1 Hg2) Hq) as Hg3.
      pose proof (reveal_rel_trans _ _ _ _ _ _ _ Hg1
                    (reveal_rel_trans _ _ _ _ _ _ _ Hg2 Hg3)) as Hg03.
      destruct (IH (upd g2 (ref_of q) (Tile.set_isRevealed true)))
        as (g4 & l4 & Hrun4 & P4 & K4); [done | apply Hg3 | |].
      { pose proof (hidden_mono _ _ _ _ _ Hg03). lia. }
      rewrite Hrun4 in HrunF. cbn [bind] in HrunF. injection HrunF as <- <-.
      cbn [log_app calls writes] in *.
      assert (tile_at (upd g (ref_of q) (Tile.set_isRevealed true)) q
              = Some (Tile.set_isRevealed true t)) as Ht1.
      { unfold tile_at. by rewrite deref_upd_eq, Htd. }
      split; cbn [log_app calls writes].
      * intros z. rewrite !elem_of_app, Hsing, elem_of_nil.
        intros [-> | [Hz2 | [[] | Hz4]]].
        -- split; [by exists t|]. intros q' Hq'. rewrite !elem_of_app. right. left.
           by apply (post_zero _ _ _ _ _ _ P2 _ Ht1).
        -- destruct (closed_calls _ _ _ _ K2 z Hz2) as [Hzero Hnb].
           destruct (post_calls _ _ _ _ _ _ P2 z Hz2) as (Hzi & _ & _).
           split; [exact (zero_at_back _ _ _ _ _ _ Hg1 Hzi Hzero)|].
           intros q' Hq'. rewrite !elem_of_app. right. left. by apply Hnb.
        -- destruct (closed_calls _ _ _ _ K4 z Hz4) as [Hzero Hnb].
           destruct (loop_calls _ _ _ _ _ _ P4 z Hz4) as (Hzi & _ & _).
           split; [exact (zero_at_back _ _ _ _ _ _ Hg03 Hzi Hzero)|].
           intros q' Hq'. rewrite !elem_of_app. do 3 right. by apply Hnb.
      * intros q' Hq' Hun' Hzero'. pose proof (Hwint q' Hq') as Hqi'.
        rewrite !elem_of_app, Hsing, elem_of_nil.
        destruct (decide (q' = q)) as [-> | Hne]; [by left|].
        destruct (decide (q' ∈ writes l2)) as [Hin2 | Hnin2].
        -- right. left. apply (closed_writes _ _ _ _ K2); [done | |].
           ++ rewrite (unrevealed_same _ _ _ _ _ _ Hg1 Hqi'); [done|]. by rewrite Hsing.
           ++ exact (zero_at_fwd _ _ _ _ _ _ Hg1 Hqi' Hzero').
        -- do 3 right. rewrite !elem_of_app, Hsing in Hq'.
           apply (closed_writes _ _ _ _ K4); [tauto | |].
           ++ rewrite (unrevealed_same _ _ _ _ _ _ Hg03 Hqi'); [done|].
              rewrite !elem_of_app, Hsing. tauto.
           ++ exact (zero_at_fwd _ _ _ _ _ _ Hg03 Hqi' Hzero').
    + destruct (IH (upd g (ref_of q) (Tile.set_isRevealed true)))
        as (g4 & l4 & Hrun4 & P4 & K4); [done | apply Hg1 | |].
      { pose proof (hidden_mono _ _ _ _ _ Hg1). lia. }
      rewrite Hrun4 in HrunF. cbn [bind] in HrunF. injection HrunF as <- <-.
      cbn [log_app calls writes] in *.
      split; cbn [log_app calls writes].
      * intros z. rewrite app_nil_l. intros Hz4.
        destruct (closed_calls _ _ _ _ K4 z Hz4) as [Hzero Hnb].
        destruct (loop_calls _ _ _ _ _ _ P4 z Hz4) as (Hzi & _ & _).
        split; [exact (zero_at_back _ _ _ _ _ _ Hg1 Hzi Hzero)|].
        intros q' Hq'. rewrite elem_of_app. right. by apply Hnb.
      * intros q' Hq' Hun' Hzero'. pose proof (Hwint q' Hq') as Hqi'.
        rewrite app_nil_l. rewrite elem_of_app, Hsing in Hq'.
        destruct (decide (q' = q)) as [-> | Hne].
        -- exfalso. unfold unrevealedb in Hun'. rewrite Ht in Hun'.
           destruct Hzero' as (t' & Ht' & Hm'). rewrite Ht in Ht'. injection Ht' as <-.
           apply negb_true_iff in Hun'. rewrite Hun', Hm' in Hc. done.
        -- apply (closed_writes _ _ _ _ K4); [tauto | |].
           ++ rewrite (unrevealed_same _ _ _ _ _ _ Hg1 Hqi'); [done|]. by rewrite Hsing.
           ++ exact (zero_at_fwd _ _ _ _ _ _ Hg1 Hqi' Hzero').
Qed.

Lemma reveal_tiles_closed_spec (w h : Z) :
  forall (depth : nat) (g : Grid) (p : Vec2.t),
    wf w h g -> interior w h p -> (hidden w h g < depth)%nat ->
    exists g' l, reveal_tiles depth g p = Ok (g', l) /\
                 reveal_post w h g p g' l /\ closed_post w h g l.
Proof.
  induction depth as [|depth IH]; intros g p Hwf Hp Hd; [lia|].
  destruct (reveal_tiles_spec w h (S depth) g p Hwf Hp Hd) as (g' & l & Hrun & P).
  exists g', l. split; [done|]. split; [done|].
  destruct (wf_interior_locate w h g p Hwf Hp) as (t & Hloc & Ht & Hpos).
  cbn [reveal_tiles] in Hrun. rewrite Hloc in Hrun. cbn [bind attr] in Hrun.
  destruct (Tile.mines t =? 0) eqn:Hz.
  - rewrite (wf_get_neighbour_tiles w h g p Hwf Hp) in Hrun. cbn [bind] in Hrun.
    destruct (reveal_loop_closed w h depth (reveal_tiles depth) IH (neighbours w h p) g)
      as (g1 & l1 & Hrun1 & _ & K); [|done|lia|].
    { intros q Hq. by apply (neighbours_interior w h p q Hp Hq). }
    rewrite Hrun in Hrun1. by injection Hrun1 as <- <-.
  - injection Hrun as <- <-.
    split; cbn [calls writes]; intros z Hz'; by apply elem_of_nil in Hz'.
Qed.

Lemma reveal_tiles_closed (w h : Z) (depth : nat) (g g' : Grid) (p : Vec2.t) (l : Log) :
  wf w h g -> interior w h p ->
  reveal_tiles depth g p = Ok (g', l) -> closed_post w h g l.
Proof.
  intros Hwf Hp Hrun.
  destruct (reveal_tiles_closed_spec w h (depth + S (hidden w h g)) g p)
    as (g1 & l1 & Hrun1 & _ & K); [done | done | lia |].
  apply (reveal_tiles_depth_mono depth (depth + S (hidden w h g))) in Hrun; [|lia].
  rewrite Hrun in Hrun1. by injection Hrun1 as _ ->.
Qed.

Lemma wf_revealed (w h : Z) (g : Grid) (q : Vec2.t) :
  wf w h g -> interior w h q -> unrevealedb g q = false ->
  exists t, tile_at g q = Some t /\ Tile.isRevealed t = true.
Proof.
  intros Hwf Hq Hun. destruct (wf_tile_at w h g q Hwf Hq) as (t & Ht & _).
  exists t. split; [done|]. unfold unrevealedb in Hun. rewrite Ht in Hun.
  by apply negb_false_iff in Hun.
Qed.

(** The zero-count tiles a run reveals are opened completely. *)
Lemma reveal_tiles_opens (w h : Z) (depth : nat) (g g' : Grid) (C z : Vec2.t)
    (l : Log) (t t' : Tile.t) :
  wf w h g -> interior w h C -> reveal_tiles depth g C = Ok (g', l) ->
  interior w h z -> tile_at g z = Some t -> Tile.isRevealed t = false ->
  Tile.mines t = 0 -> tile_at g' z = Some t' -> Tile.isRevealed t' = true ->
  forall q, q ∈ neighbours w h z -> unrevealedb g' q = false.
Proof.
  intros Hwf HC Hrun Hz Ht Hrev Hm Ht' Hrev' q Hq.
  pose proof (reveal_tiles_sound w h _ _ _ _ _ Hwf HC Hrun) as P.
  pose proof (reveal_tiles_closed w h _ _ _ _ _ Hwf HC Hrun) as K.
  pose proof (post_rel _ _ _ _ _ _ P) as Hrel.
  assert (z ∈ writes l) as Hzw.
  { destruct (decide (z ∈ writes l)) as [|Hnin]; [done|].
    destruct Hrel as [_ Hrel]. rewrite (Hrel z Hz), decide_False, Ht in Ht' by done.
    injection Ht' as <-. congruence. }
  assert (z ∈ calls l) as Hzc.
  { apply (closed_writes _ _ _ _ K); [done | | by exists t].
    unfold unrevealedb. by rewrite Ht, Hrev. }
  destruct (closed_calls _ _ _ _ K z Hzc) as [_ Hnb].
  destruct (neighbours_interior w h z q Hz Hq) as [Hqi _].
  exact (written_revealed _ _ _ _ _ _ Hrel Hqi (Hnb q Hq)).
Qed.

(** X18: the flood fill leaves no zero-count tile half open: whenever
    [reveal_tiles] returns, every interior tile with count 0 that was
    hidden before and is revealed after has all the tiles
    [get_neighbour_tiles] returns for it revealed. *)
Theorem X18_flood_fill_closes (w h : Z) (depth : nat) (g g' : Grid) (C z : Vec2.t)
    (l : Log) (t t' : Tile.t) :
  wf w h g -> interior w h C -> reveal_tiles depth g C = Ok (g', l) ->
  interior w h z -> tile_at g z = Some t -> Tile.isRevealed t = false ->
  Tile.mines t = 0 -> tile_at g' z = Some t' -> Tile.isRevealed t' = true ->
  exists nbs,
    get_neighbour_tiles g' z = Ok nbs /\
    forall r, r ∈ nbs -> exists tq, deref g' r = Some tq /\ Tile.isRevealed tq = true.
Proof.
  intros Hwf HC Hrun Hz Ht Hrev Hm Ht' Hrev'.
  pose proof (reveal_tiles_sound w h _ _ _ _ _ Hwf HC Hrun) as P.
  pose proof (proj1 (post_rel _ _ _ _ _ _ P)) as Hwf'.
  exists (ref_of <$> neighbours w h z). split; [by apply wf_get_neighbour_tiles|].
  intros r Hr. apply list_elem_of_fmap in Hr as (q & -> & Hq).
  destruct (neighbours_interior w h z q Hz Hq) as [Hqi _].
  apply (wf_revealed w h); [done..|].
  by apply (reveal_tiles_opens w h depth g g' C z l t t').
Qed.

(** 6 by 3, no mines: a row of four hidden tiles. *)
Lemma X18_flood_fill_closes_witness :
  exists nbs,
    get_neighbour_tiles
      [ [None; None; None; None; None; None];
        [None; Some (tile 1 1 false false true 0); Some (tile 2 1 false false true 0);
         Some (tile 3 1 false false true 0); Some (tile 4 1 false false true 0); None];
        [None; None; None; None; None; None] ] (Vec2.mk 3 1) = Ok nbs /\
    forall r, r ∈ nbs ->
      exists tq,
        deref
          [ [None; None; None; None; None; None];
            [None; Some (tile 1 1 false false true 0); Some (tile 2 1 false false true 0);
             Some (tile 3 1 false false true 0); Some (tile 4 1 false false true 0); None];
            [None; None; None; None; None; None] ] r = Some tq /\
        Tile.isRevealed tq = true.
Proof.
  apply (X18_flood_fill_closes 6 3 5 (init_tilemap 6 3) _ (Vec2.mk 1 1) (Vec2.mk 3 1)
           (mkLog [Vec2.mk 2 1; Vec2.mk 1 1; Vec2.mk 3 1; Vec2.mk 4 1]
                  [Vec2.mk 2 1; Vec2.mk 1 1; Vec2.mk 2 1; Vec2.mk 1 1; Vec2.mk 3 1;
                   Vec2.mk 2 1; Vec2.mk 4 1; Vec2.mk 3 1; Vec2.mk 4 1; Vec2.mk 3 1;
                   Vec2.mk 2 1])
           (tile 3 1 false false false 0) (tile 3 1 false false true 0)).
  - apply wfb_wf. vm_compute. reflexivity.
  - split; simpl; lia.
  - vm_compute. reflexivity.
  - split; simpl; lia.
  - reflexivity.
  - reflexivity.
  - reflexivity.
  - reflexivity.
  - reflexivity.
Defined.

(** ** Running the flood fill again *)

Lemma set_isRevealed_same (t : Tile.t) :
  Tile.isRevealed t = true -> Tile.set_isRevealed true t = t.
Proof. destruct t. cbn. by intros ->. Qed.

Lemma reveal_loop_all_revealed (w h : Z)
    (rec : Grid -> Vec2.t -> result (Grid * Log)) (g : Grid) :
  wf w h g ->
  forall ps,
    (forall q, q ∈ ps -> interior w h q /\ unrevealedb g q = false) ->
    reveal_loop rec (ref_of <$> ps) g = Ok (g, mkLog [] ps).
Proof.
  intros Hwf. induction ps as [|q ps IH]; intros Hps; [done|].
  destruct (Hps q) as [Hq Hun]; [left|].
  destruct (wf_revealed w h g q Hwf Hq Hun) as (t & Ht & Hrev).
  destruct (wf_tile_at w h g q Hwf Hq) as (t0 & Ht0 & Hpos).
  rewrite Ht in Ht0. injection Ht0 as <-.
  rewrite fmap_cons. cbn [reveal_loop]. unfold tile_at in Ht. rewrite Ht.
  cbn [attr bind]. rewrite Hrev. cbn [negb andb].
  rewrite upd_same.
  - rewrite IH; [|intros q' Hq'; apply Hps; by right]. cbn [bind log_app calls writes].
    by rewrite Hpos.
  - intros t' Ht'. rewrite Ht in Ht'. injection Ht' as <-.
    by apply set_isRevealed_same.
Qed.

(** X19: the flood fill is idempotent: when [reveal_tiles] has returned, a
    second call at the same coordinate on the resulting grid returns that
    grid unchanged and makes no recursive call. *)
Theorem X19_reveal_twice (w h : Z) (depth : nat) (g g' : Grid) (C : Vec2.t) (l : Log) :
  wf w h g -> interior w h C -> reveal_tiles depth g C = Ok (g', l) ->
  exists l', reveal_tiles depth g' C = Ok (g', l') /\ calls l' = [].
Proof.
  intros Hwf HC Hrun.
  pose proof (reveal_tiles_sound w h _ _ _ _ _ Hwf HC Hrun) as P.
  pose proof (post_rel _ _ _ _ _ _ P) as Hrel. pose proof (proj1 Hrel) as Hwf'.
  destruct depth as [|depth]; [done|].
  destruct (wf_tile_at w h g C Hwf HC) as (t & Ht & _).
  destruct (reveal_rel_tile _ _ _ _ _ _ _ Hrel HC Ht) as (t' & Ht' & Hor & _).
  destruct (wf_interior_locate w h g' C Hwf' HC) as (t2 & Hloc & Ht2 & _).
  rewrite Ht' in Ht2. injection Ht2 as <-.
  cbn [reveal_tiles]. rewrite Hloc. cbn [bind attr].
  assert (Tile.mines t' = Tile.mines t) as Hm by (by destruct Hor as [-> | ->]).
  destruct (Tile.mines t' =? 0) eqn:Hz; [|by eexists].
  rewrite (wf_get_neighbour_tiles w h g' C Hwf' HC). cbn [bind].
  rewrite (reveal_loop_all_revealed w h _ g' Hwf'); [by eexists|].
  intros q Hq. destruct (neighbours_interior w h C q HC Hq) as [Hqi _].
  split; [done|]. apply (written_revealed _ _ _ _ _ _ Hrel Hqi).
  apply (post_zero _ _ _ _ _ _ P t Ht); [|done]. apply Z.eqb_eq in Hz. lia.
Qed.

Lemma X19_reveal_twice_witness :
  exists l',
    reveal_tiles 3 (tilemap mine_game_after) (Vec2.mk 1 1)
      = Ok (tilemap mine_game_after, l') /\ calls l' = [].
Proof.
  apply (X19_reveal_twice 4 3 3 (upd mine_board (1, 1)%nat (Tile.set_isRevealed true))
           (tilemap mine_game_after) (Vec2.mk 1 1) (mkLog [] [Vec2.mk 2 1])).
  - apply wfb_wf. vm_compute. reflexivity.
  - split; simpl; lia.
  - reflexivity.
Defined.

(** ** The invariant of a session *)

Lemma counts_ok_agree (w h : Z) (g g' : Grid) :
  wf w h g -> wf w h g' -> agree w h same_mines g g' ->
  counts_ok w h g -> counts_ok w h g'.
Proof.
  intros Hwf Hwf' Hag Hc q t' Hq Ht'.
  destruct (wf_tile_at w h g q Hwf Hq) as (t & Ht & _).
  destruct (Hag q t Hq Ht) as (t2 & Ht2 & Hmine & Hm).
  rewrite Ht' in Ht2. injection Ht2 as <-.
  destruct (Hc q t Hq Ht) as (nbs & Hnbs & Hcount).
  rewrite (wf_get_neighbour_tiles w h g q Hwf Hq) in Hnbs. injection Hnbs as <-.
  rewrite (wf_get_neighbour_tiles w h g' q Hwf' Hq). eexists. split; [done|].
  rewrite Hm, Hcount. unfold mine_count. f_equal.
  assert (forall ps : list Vec2.t, (forall p, p ∈ ps -> interior w h p) ->
    length (filter (fun r => is_mine g r = true) (ref_of <$> ps))
    = length (filter (fun r => is_mine g' r = true) (ref_of <$> ps))) as Hlen.
  { induction ps as [|p ps IH]; intros Hps; [done|].
    rewrite fmap_cons, !filter_cons.
    assert (is_mine g' (ref_of p) = is_mine g (ref_of p)) as ->.
    { destruct (wf_tile_at w h g p Hwf) as (tp & Htp & _); [apply Hps; left|].
      destruct (Hag p tp) as (tp' & Htp' & Hmp & _); [apply Hps; left | done |].
      unfold is_mine, tile_at in *. by rewrite Htp, Htp'. }
    case_decide; cbn [length]; rewrite IH; try done;
      intros p' Hp'; apply Hps; by right. }
  apply Hlen. intros p Hp. by destruct (neighbours_interior w h q p Hq Hp).
Qed.

Lemma reveal_rel_agree (w h : Z) (g g' : Grid) (ws : list Vec2.t) :
  reveal_rel w h g g' ws -> agree w h same_mines g g'.
Proof.
  intros Hrel q t Hq Ht.
  destruct (reveal_rel_tile _ _ _ _ _ _ _ Hrel Hq Ht) as (t' & Ht' & Hor & _).
  exists t'. split; [done|]. by destruct Hor as [-> | ->].
Qed.

Lemma revealed_stays_false (w h : Z) (g g' : Grid) (ws : list Vec2.t) (q : Vec2.t) :
  reveal_rel w h g g' ws -> interior w h q ->
  unrevealedb g q = false -> unrevealedb g' q = false.
Proof.
  intros Hrel Hq Hun. destruct (unrevealedb g' q) eqn:Hun'; [|done].
  by rewrite (unrevealed_back _ _ _ _ _ _ Hrel Hq Hun') in Hun.
Qed.

(** A primary action on a hidden tile, once the mines are placed: what
    revealing the tile and flooding from it keeps and achieves. *)
Lemma primary_core (w h : Z) (depth : nat) (g g4 : Grid) (pos : Vec2.t) (l : Log) :
  wf w h g -> counts_ok w h g -> opened w h g -> interior w h pos ->
  reveal_tiles depth (upd g (ref_of pos) (Tile.set_isRevealed true)) pos
    = Ok (g4, l) ->
  wf w h g4 /\ counts_ok w h g4 /\ opened w h g4 /\
  agree w h same_mines g g4 /\
  forall q t4, interior w h q -> tile_at g4 q = Some t4 ->
    Tile.isRevealed t4 = true ->
    q = pos \/ unrevealedb g q = false \/ Tile.isMine t4 = false.
Proof.
  intros Hwf Hcounts Hopen Hp Hrun.
  pose proof (reveal_rel_upd w h g pos Hwf Hp) as Hg3.
  pose proof (proj1 Hg3) as Hwf3.
  pose proof (reveal_tiles_sound w h _ _ _ _ _ Hwf3 Hp Hrun) as P.
  pose proof (post_rel _ _ _ _ _ _ P) as Hg4. pose proof (proj1 Hg4) as Hwf4.
  pose proof (reveal_rel_trans _ _ _ _ _ _ _ Hg3 Hg4) as Hg04.
  pose proof (counts_ok_agree w h _ _ Hwf Hwf3 (reveal_rel_agree _ _ _ _ _ Hg3) Hcounts)
    as Hcounts3.
  split; [done|]. split.
  { exact (counts_ok_agree w h _ _ Hwf Hwf4 (reveal_rel_agree _ _ _ _ _ Hg04) Hcounts). }
  split; [|split; [exact (reveal_rel_agree _ _ _ _ _ Hg04)|]].
  - intros z t4 Hz Ht4 Hrev4 Hm4 q Hq.
    destruct (neighbours_interior w h z q Hz Hq) as [Hqi _].
    destruct (reveal_rel_back _ _ _ _ _ _ _ Hg04 Hz Ht4) as (t0 & Ht0 & Hor).
    assert (Tile.mines t0 = 0) as Hm0 by (by destruct Hor as [-> | [_ ->]]).
    destruct (Tile.isRevealed t0) eqn:Hrev0.
    + apply (revealed_stays_false _ _ _ _ _ _ Hg04 Hqi).
      by apply (Hopen z t0).
    + destruct (decide (z = pos)) as [-> | Hne].
      * apply (written_revealed _ _ _ _ _ _ Hg4 Hqi).
        apply (post_zero _ _ _ _ _ _ P (Tile.set_isRevealed true t0)); [|done..].
        unfold tile_at in *. by rewrite deref_upd_eq, Ht0.
      * apply (reveal_tiles_opens w h depth
                 (upd g (ref_of pos) (Tile.set_isRevealed true)) g4 pos z l t0 t4);
          try done.
        unfold tile_at in *. rewrite deref_upd_ne; [done|].
        intros Heq. by apply (ref_of_inj w h) in Heq.
  - intros q t4 Hq Ht4 Hrev4.
    destruct (decide (q = pos)) as [|Hne]; [by left|]. right.
    destruct (unrevealedb g q) eqn:Hun; [right | by left].
    assert (unrevealedb (upd g (ref_of pos) (Tile.set_isRevealed true)) q = true) as Hun3.
    { rewrite (unrevealed_same _ _ _ _ _ _ Hg3 Hq); [done|].
      by rewrite list_elem_of_singleton. }
    assert (q ∈ writes l) as Hw.
    { destruct (decide (q ∈ writes l)) as [|Hnin]; [done|].
      rewrite <- (unrevealed_same _ _ _ _ _ _ Hg4 Hq Hnin) in Hun3.
      unfold unrevealedb in Hun3. rewrite Ht4, Hrev4 in Hun3. done. }
    destruct (post_writes _ _ _ _ _ _ P q Hw) as (z & tz & Hz & Htz & Hmz & Hqz).
    destruct (Hcounts3 z tz Hz Htz) as (nbs & Hnbs & Hcount).
    rewrite (wf_get_neighbour_tiles w h _ z Hwf3 Hz) in Hnbs. injection Hnbs as <-.
    rewrite Hmz in Hcount. symmetry in Hcount.
    pose proof (mine_count_zero _ _ (ref_of q) Hcount
                  (list_elem_of_fmap_2 ref_of _ _ Hqz)) as Hnm.
    destruct (reveal_rel_back _ _ _ _ _ _ _ Hg4 Hq Ht4) as (t3 & Ht3 & Hor).
    unfold is_mine in Hnm. unfold tile_at in Ht3. rewrite Ht3 in Hnm.
    by destruct Hor as [-> | [_ ->]].
Qed.

Lemma primary_alive (w h : Z) (g g4 : Grid) (pos : Vec2.t) (t : Tile.t) :
  wf w h g -> interior w h pos -> tile_at g pos = Some t -> Tile.isMine t = false ->
  no_mine_shown w h g -> agree w h same_mines g g4 ->
  (forall q t4, interior w h q -> tile_at g4 q = Some t4 ->
     Tile.isRevealed t4 = true ->
     q = pos \/ unrevealedb g q = false \/ Tile.isMine t4 = false) ->
  no_mine_shown w h g4.
Proof.
  intros Hwf Hp Ht Hmine Hshown Hag Hnew q t4 Hq Ht4 Hrev4.
  destruct (Hnew q t4 Hq Ht4 Hrev4) as [-> | [Hun | ?]]; [| |done].
  - destruct (Hag pos t Hp Ht) as (t' & Ht' & Hm & _).
    rewrite Ht4 in Ht'. injection Ht' as <-. congruence.
  - destruct (wf_revealed w h g q Hwf Hq Hun) as (t0 & Ht0 & Hrev0).
    destruct (Hag q t0 Hq Ht0) as (t' & Ht' & Hm & _).
    rewrite Ht4 in Ht'. injection Ht' as <-. rewrite Hm. by apply (Hshown q t0).
Qed.

(** Assigning a flag keeps every part of the invariant. *)
Lemma flag_keeps (w h : Z) (g : Grid) (p : Vec2.t) (b : bool) :
  wf w h g -> interior w h p ->
  forall q, interior w h q ->
    exists f, (forall t, Tile.isMine (f t) = Tile.isMine t /\
                         Tile.isRevealed (f t) = Tile.isRevealed t /\
                         Tile.mines (f t) = Tile.mines t) /\
      tile_at (upd g (ref_of p) (Tile.set_flagged b)) q = f <$> tile_at g q.
Proof.
  intros Hwf Hp q Hq. unfold tile_at. rewrite deref_upd. case_decide.
  - apply (ref_of_inj w h) in H as ->; [|done..]. by exists (Tile.set_flagged b).
  - exists id. split; [done|]. by destruct (deref g (ref_of q)).
Qed.

Lemma flag_inv (s : Game) (p : Vec2.t) (b : bool) :
  session_inv s -> interior (_hTiles s) (_vTiles s) p ->
  session_inv (with_tilemap (upd (tilemap s) (ref_of p) (Tile.set_flagged b)) s).
Proof.
  intros [Hts Hwf Hfresh Hcounts Hopen Halive] Hp.
  set (w := _hTiles s) in *. set (h := _vTiles s) in *.
  set (g := tilemap s) in *.
  pose proof (flag_keeps w h g p b Hwf Hp) as Hk.
  assert (wf w h (upd g (ref_of p) (Tile.set_flagged b))) as Hwf' by (by apply wf_upd).
  assert (forall q, interior w h q ->
            unrevealedb (upd g (ref_of p) (Tile.set_flagged b)) q = unrevealedb g q)
    as Hun.
  { intros q Hq. destruct (Hk q Hq) as (f & Hf & Heq). unfold unrevealedb.
    rewrite Heq. destruct (tile_at g q) as [t|]; [|done]. cbn.
    by destruct (Hf t) as (_ & -> & _). }
  assert (forall q t', interior w h q ->
            tile_at (upd g (ref_of p) (Tile.set_flagged b)) q = Some t' ->
            exists t, tile_at g q = Some t /\ Tile.isMine t' = Tile.isMine t /\
                      Tile.isRevealed t' = Tile.isRevealed t /\
                      Tile.mines t' = Tile.mines t) as Hback.
  { intros q t' Hq Ht'. destruct (Hk q Hq) as (f & Hf & Heq). rewrite Heq in Ht'.
    destruct (tile_at g q) as [t|]; [|done]. injection Ht' as <-.
    exists t. split; [done|]. apply Hf. }
  split; cbn [tilesize _hTiles _vTiles tilemap __minesSet _running with_tilemap];
    fold w h.
  - done.
  - done.
  - intros Hms q t' Hq Ht'. destruct (Hback q t' Hq Ht') as (t & Ht & -> & -> & _).
    by apply (Hfresh Hms q t).
  - intros Hms. apply (counts_ok_agree w h g); [done | done | | by apply Hcounts].
    intros q t Hq Ht. destruct (Hk q Hq) as (f & Hf & Heq). rewrite Ht in Heq.
    exists (f t). split; [done|]. split; apply Hf.
  - intros z t' Hz Ht' Hrev' Hm' q Hq.
    destruct (neighbours_interior w h z q Hz Hq) as [Hqi _]. rewrite (Hun q Hqi).
    destruct (Hback z t' Hz Ht') as (t & Ht & _ & Hr & Hm).
    apply (Hopen z t); [done | done | congruence | congruence | done].
  - intros Hrun q t' Hq Ht' Hrev'.
    destruct (Hback q t' Hq Ht') as (t & Ht & -> & Hr & _).
    apply (Halive Hrun q t); [done | done | congruence].
Qed.

Lemma new_game_inv (w h : Z) : session_inv (new_game w h).
Proof.
  split; cbn [new_game tilesize _hTiles _vTiles tilemap __minesSet _running].
  - done.
  - apply init_tilemap_wf.
  - intros _ q t _ Ht. apply init_tilemap_fresh in Ht. by rewrite Ht.
  - done.
  - intros z t _ Ht Hrev. apply init_tilemap_fresh in Ht. rewrite Ht in Hrev. done.
  - intros _ q t _ Ht Hrev. apply init_tilemap_fresh in Ht. rewrite Ht in Hrev. done.
Qed.

(** The first half of a primary action on a hidden, unflagged tile:
    placing the mines when they are not placed yet. *)
Lemma primary_pre (rng : RNG) (s : Game) (pos : Vec2.t) (t : Tile.t) :
  session_inv s -> interior (_hTiles s) (_vTiles s) pos ->
  tile_at (tilemap s) pos = Some t ->
  exists s2 rng2 t2,
    (if negb (__minesSet s) then set_mines rng s pos else Ok (s, rng)) = Ok (s2, rng2) /\
    _hTiles s2 = _hTiles s /\ _vTiles s2 = _vTiles s /\ tilesize s2 = tilesize s /\
    _running s2 = _running s /\ __minesSet s2 = true /\
    wf (_hTiles s) (_vTiles s) (tilemap s2) /\
    counts_ok (_hTiles s) (_vTiles s) (tilemap s2) /\
    opened (_hTiles s) (_vTiles s) (tilemap s2) /\
    tile_at (tilemap s2) pos = Some t2 /\ Tile.isMine t2 = Tile.isMine t /\
    (no_mine_shown (_hTiles s) (_vTiles s) (tilemap s) ->
     no_mine_shown (_hTiles s) (_vTiles s) (tilemap s2)) /\
    (mine_shown (_hTiles s) (_vTiles s) (tilemap s) ->
     mine_shown (_hTiles s) (_vTiles s) (tilemap s2)).
Proof.
  intros [Hts Hwf Hfresh Hcounts Hopen Halive] Hp Ht.
  set (w := _hTiles s) in *. set (h := _vTiles s) in *.
  destruct (__minesSet s) eqn:Hms; cbn [negb].
  - exists s, rng, t. repeat (split; [by auto|]). done.
  - destruct (set_mines_spec w h rng s pos Hwf eq_refl eq_refl Hp)
      as (g2 & rng2 & Hsm & Hwf2 & Hsafe & _ & Hc2).
    assert (forall q, interior w h q -> unrevealedb g2 q = true) as Hhid.
    { intros q Hq. destruct (wf_tile_at w h _ q Hwf Hq) as (t0 & Ht0 & _).
      destruct (set_mines_rel (fun t t' => Tile.isRevealed t' = Tile.isRevealed t))
        with (rng := rng) (rng' := rng2) (s := s)
             (s' := with_tilemap g2 (with_minesSet true s)) (p := pos)
             (r := ref_of q) (t := t0) as (t2 & Ht2 & Hr2); try done.
      { intros t1 t2 t3 H1 H2. congruence. }
      cbn [tilemap with_tilemap] in Ht2. unfold unrevealedb, tile_at. rewrite Ht2, Hr2.
      by destruct (Hfresh eq_refl q t0 Hq Ht0) as [-> _]. }
    destruct Hsafe as (t2 & Ht2 & Hm2).
    exists (with_tilemap g2 (with_minesSet true s)), rng2, t2.
    cbn [tilemap with_tilemap with_minesSet _hTiles _vTiles tilesize _running __minesSet].
    repeat (split; [done|]). split; [|split; [done|split; [|split]]].
    + intros z tz Hz Htz Hrevz. specialize (Hhid z Hz). unfold unrevealedb in Hhid.
      rewrite Htz, Hrevz in Hhid. done.
    + destruct (Hfresh eq_refl pos t Hp Ht) as [_ ->]. done.
    + intros _ q tq Hq Htq Hrevq. specialize (Hhid q Hq). unfold unrevealedb in Hhid.
      rewrite Htq, Hrevq in Hhid. done.
    + intros (q & tq & Hq & Htq & Hrevq & _).
      destruct (Hfresh eq_refl q tq Hq Htq) as [Hr _]. congruence.
Qed.

(** Revealing a tile and flooding from it keeps a mine that is on show,
    and puts the tile on show when it is a mine. *)
Lemma primary_shown (w h : Z) (depth : nat) (g g4 : Grid) (pos : Vec2.t) (l : Log)
    (t : Tile.t) :
  wf w h g -> interior w h pos -> tile_at g pos = Some t ->
  reveal_tiles depth (upd g (ref_of pos) (Tile.set_isRevealed true)) pos
    = Ok (g4, l) ->
  mine_shown w h g \/ Tile.isMine t = true -> mine_shown w h g4.
Proof.
  intros Hwf Hp Ht Hrun Hor.
  pose proof (reveal_rel_upd w h g pos Hwf Hp) as Hg3.
  pose proof (reveal_tiles_sound w h _ _ _ _ _ (proj1 Hg3) Hp Hrun) as P.
  pose proof (reveal_rel_trans _ _ _ _ _ _ _ Hg3 (post_rel _ _ _ _ _ _ P)) as Hg04.
  destruct Hor as [(q & tq & Hq & Htq & Hrevq & Hmq) | Hmine].
  - destruct (reveal_rel_tile _ _ _ _ _ _ _ Hg04 Hq Htq) as (t' & Ht' & Hor & _).
    exists q, t'. repeat (split; [done|]). by destruct Hor as [-> | ->].
  - destruct (reveal_rel_tile _ _ _ _ _ _ _ Hg04 Hp Ht) as (t' & Ht' & Hor & Hw).
    exists pos, t'. repeat (split; [done|]). split.
    + apply Hw. rewrite elem_of_app, list_elem_of_singleton. by left.
    + by destruct Hor as [-> | ->].
Qed.

(** One event inside the window keeps the invariant; unless it is [QUIT],
    it ends the game only with a mine on show. *)
Lemma session_sound (depth : nat) (rng rng' : RNG) (s s' : Game) (ev : Event) :
  session_inv s -> in_window s ev ->
  handle_event depth (s, rng) ev = Ok (s', rng') ->
  session_inv s' /\ (ev <> QUIT -> over_inv s -> over_inv s').
Proof.
  intros Hinv Hwin Hev. pose proof Hinv as [Hts Hwf Hfresh Hcounts Hopen Halive].
  destruct ev as [|button [mx my]|]; cbn [handle_event] in Hev.
  - injection Hev as <- <-. split; [|done].
    split; cbn [with_running tilesize _hTiles _vTiles tilemap __minesSet _running];
      done.
  - cbn [in_window fst snd] in Hwin. rewrite Hts in Hwin.
    pose proof (mouse_in_window_interior s mx my Hts (proj1 Hwin) (proj2 Hwin)) as Hp.
    set (pos := mouse_to_grid s (mx, my)) in *.
    destruct (wf_interior_locate _ _ _ _ Hwf Hp) as (t & Hloc & Ht & _).
    rewrite Hloc in Hev. cbn [bind attr] in Hev.
    destruct (button =? 1).
    + destruct (Tile.flagged t); [by injection Hev as <- <-|].
      destruct (Tile.isRevealed t); [by injection Hev as <- <-|].
      set (s1 := if Tile.isMine t then with_running false s else s) in *.
      assert (session_inv s1) as Hinv1.
      { unfold s1. destruct (Tile.isMine t); [|done].
        split; cbn [with_running tilesize _hTiles _vTiles tilemap __minesSet _running];
          done. }
      assert (_hTiles s1 = _hTiles s /\ _vTiles s1 = _vTiles s /\
              tilemap s1 = tilemap s /\
              _running s1 = (if Tile.isMine t then false else _running s))
        as (Ew & Eh & Eg & Erun).
      { unfold s1. destruct (Tile.isMine t); cbn; repeat split; done. }
      destruct (primary_pre rng s1 pos t Hinv1)
        as (s2 & rng2 & t2 & Hpre & Hw2 & Hh2 & Hts2 & Hr2 & Hms2 &
            Hwf2 & Hc2 & Ho2 & Ht2 & Hm2 & Hal2 & Hsh2);
        [by rewrite Ew, Eh | by rewrite Eg |].
      rewrite Hpre in Hev. cbn [bind] in Hev.
      apply bind_Ok in Hev as ([g4 l] & Hrun & [= <- <-]).
      rewrite Ew, Eh, Eg in *.
      destruct (primary_core _ _ depth _ g4 pos l Hwf2 Hc2 Ho2 Hp Hrun)
        as (Hwf4 & Hc4 & Ho4 & Hag & Hnew).
      split.
      * split; cbn [with_tilemap tilesize _hTiles _vTiles tilemap __minesSet _running];
          rewrite ?Hw2, ?Hh2.
        -- rewrite Hts2. apply Hinv1.
        -- done.
        -- intros Hms. congruence.
        -- done.
        -- done.
        -- intros Hrun2. rewrite Hr2, Erun in Hrun2.
           destruct (Tile.isMine t) eqn:Hmine; [done|].
           apply (primary_alive _ _ (tilemap s2) g4 pos t2); try done.
           apply Hal2. by apply Halive.
      * intros _ Hover Hrun2.
        cbn [with_tilemap _hTiles _vTiles tilemap _running] in *.
        rewrite Hw2, Hh2. rewrite Hr2, Erun in Hrun2.
        apply (primary_shown _ _ depth (tilemap s2) g4 pos l t2); try done.
        destruct (Tile.isMine t) eqn:Hmine; [by right|]. left.
        apply Hsh2. by apply Hover.
    + destruct (button =? 3).
      * injection Hev as <- <-. split; [by apply flag_inv|].
        intros _ Hover Hrun2. cbn [with_tilemap _hTiles _vTiles tilemap _running] in *.
        destruct (Hover Hrun2) as (q & tq & Hq & Htq & Hrevq & Hmq).
        destruct (flag_keeps _ _ _ pos (negb (Tile.flagged t)) Hwf Hp q Hq)
          as (f & Hf & Hfq).
        rewrite Htq in Hfq. exists q, (f tq). destruct (Hf tq) as (? & ? & _).
        split; [done|]. split; [done|]. split; congruence.
      * by injection Hev as <- <-.
  - by injection Hev as <- <-.
Qed.

(** Handling one event inside the window returns when the stack has room
    for one activation per interior tile, and one more. *)
Lemma session_total (depth : nat) (rng : RNG) (s : Game) (ev : Event) :
  session_inv s -> in_window s ev ->
  (Z.to_nat ((_hTiles s - 2) * (_vTiles s - 2)) < depth)%nat ->
  exists s' rng', handle_event depth (s, rng) ev = Ok (s', rng').
Proof.
  intros Hinv Hwin Hd. pose proof Hinv as [Hts Hwf Hfresh Hcounts Hopen Halive].
  destruct ev as [|button [mx my]|]; cbn [handle_event]; [by eexists _, _| |by eexists _, _].
  cbn [in_window fst snd] in Hwin. rewrite Hts in Hwin.
  pose proof (mouse_in_window_interior s mx my Hts (proj1 Hwin) (proj2 Hwin)) as Hp.
  set (pos := mouse_to_grid s (mx, my)) in *.
  destruct (wf_interior_locate _ _ _ _ Hwf Hp) as (t & Hloc & Ht & _).
  rewrite Hloc. cbn [bind attr].
  destruct (button =? 1); [|destruct (button =? 3); by eexists _, _].
  destruct (Tile.flagged t); [by eexists _, _|].
  destruct (Tile.isRevealed t); [by eexists _, _|].
  set (s1 := if Tile.isMine t then with_running false s else s) in *.
  assert (session_inv s1) as Hinv1.
  { unfold s1. destruct (Tile.isMine t); [|done].
    split; cbn [with_running tilesize _hTiles _vTiles tilemap __minesSet _running];
      done. }
  assert (_hTiles s1 = _hTiles s /\ _vTiles s1 = _vTiles s /\ tilemap s1 = tilemap s)
    as (Ew & Eh & Eg).
  { unfold s1. destruct (Tile.isMine t); cbn; repeat split; done. }
  destruct (primary_pre rng s1 pos t Hinv1)
    as (s2 & rng2 & t2 & Hpre & _ & _ & _ & _ & _ & Hwf2 & _);
    [by rewrite Ew, Eh | by rewrite Eg |].
  rewrite Hpre. cbn [bind]. rewrite Ew, Eh in Hwf2.
  pose proof (reveal_rel_upd _ _ _ pos Hwf2 Hp) as Hg3.
  destruct (reveal_tiles_total _ _ depth _ pos (proj1 Hg3) Hp Hd) as (g4 & l & Hrun & _).
  rewrite Hrun. cbn [bind]. by eexists _, _.
Qed.

Lemma in_window_fields (s s' : Game) (ev : Event) :
  tilesize s' = tilesize s -> _hTiles s' = _hTiles s -> _vTiles s' = _vTiles s ->
  in_window s ev -> in_window s' ev.
Proof.
  intros Hts Hw Hh. destruct ev; cbn [in_window]; [done| |done]. by rewrite Hts, Hw, Hh.
Qed.

Lemma session_events_sound (depth : nat) (events : list Event) :
  forall (s s' : Game) (rng rng' : RNG),
    session_inv s -> Forall (in_window s) events ->
    handle_events depth (s, rng) events = Ok (s', rng') ->
    session_inv s' /\ _hTiles s' = _hTiles s /\ _vTiles s' = _vTiles s /\
    (QUIT ∉ events -> over_inv s -> over_inv s').
Proof.
  induction events as [|ev events IH]; intros s s' rng rng' Hinv Hwin Hrun;
    unfold handle_events in *; cbn [foldM] in Hrun.
  - injection Hrun as <- <-. done.
  - apply bind_Ok in Hrun as ([s1 rng1] & H1 & Hrun).
    apply Forall_cons in Hwin as [Hev Hwin].
    destruct (session_sound _ _ _ _ _ _ Hinv Hev H1) as [Hinv1 Hover1].
    destruct (handle_event_fields _ _ _ _ _ _ H1) as (Hts & Hw & Hh & _).
    destruct (IH s1 s' rng1 rng' Hinv1) as (Hinv' & Hw' & Hh' & Hover'); [|done|].
    { eapply Forall_impl; [done|]. intros e. by apply in_window_fields. }
    split; [done|]. split; [congruence|]. split; [congruence|].
    intros Hq Hover. apply Hover'.
    + intros Hin. apply Hq. by right.
    + apply Hover1; [|done]. intros ->. apply Hq. by left.
Qed.

Lemma session_events_total (depth : nat) (events : list Event) :
  forall (s : Game) (rng : RNG),
    session_inv s -> Forall (in_window s) events ->
    (Z.to_nat ((_hTiles s - 2) * (_vTiles s - 2)) < depth)%nat ->
    exists s' rng', handle_events depth (s, rng) events = Ok (s', rng').
Proof.
  induction events as [|ev events IH]; intros s rng Hinv Hwin Hd;
    unfold handle_events in *; cbn [foldM].
  - by eexists _, _.
  - apply Forall_cons in Hwin as [Hev Hwin].
    destruct (session_total depth rng s ev Hinv Hev Hd) as (s1 & rng1 & H1).
    rewrite H1. cbn [bind].
    destruct (session_sound _ _ _ _ _ _ Hinv Hev H1) as [Hinv1 _].
    destruct (handle_event_fields _ _ _ _ _ _ H1) as (Hts & Hw & Hh & _).
    apply IH; [done| |by rewrite Hw, Hh].
    eapply Forall_impl; [done|]. intros e. by apply in_window_fields.
Qed.

Lemma session_run_total (depth : nat) (frames : list (list Event)) :
  forall (s : Game) (rng : RNG),
    session_inv s -> frames_in_window s frames ->
    (Z.to_nat ((_hTiles s - 2) * (_vTiles s - 2)) < depth)%nat ->
    exists final rng' drawn, run depth (s, rng) frames = Ok (final, rng', drawn).
Proof.
  induction frames as [|events frames IH]; intros s rng Hinv Hwin Hd; cbn [run fst].
  - by eexists _, _, _.
  - destruct (_running s); [|by eexists _, _, _].
    apply Forall_cons in Hwin as [Hev Hwin].
    destruct (session_events_total depth events s rng Hinv Hev Hd) as (s1 & rng1 & H1).
    destruct (session_events_sound _ _ _ _ _ _ Hinv Hev H1) as (Hinv1 & Hw & Hh & _).
    rewrite H1. cbn [bind].
    destruct (IH s1 rng1 Hinv1) as (final & rng' & drawn & Hrun).
    + eapply Forall_impl; [done|]. intros f Hf.
      eapply Forall_impl; [done|]. intros e. apply in_window_fields; [|done..].
      by rewrite (inv_tilesize _ Hinv1), (inv_tilesize _ Hinv).
    + by rewrite Hw, Hh.
    + rewrite Hrun. cbn [bind]. by eexists _, _, _.
Qed.

(** ** What a session keeps *)

(** X20: a game started by [Game(w, h)] that only gets events with the
    pointer inside the window never raises: [run] returns for every
    sequence of frames and every random source, when the stack has room
    for one activation of [reveal_tiles] per interior tile and one more. *)
Theorem X20_session_returns (w h : Z) (depth : nat) (rng : RNG)
    (frames : list (list Event)) :
  frames_in_window (new_game w h) frames ->
  (Z.to_nat ((w - 2) * (h - 2)) < depth)%nat ->
  exists final rng' drawn,
    run depth (new_game w h, rng) frames = Ok (final, rng', drawn).
Proof.
  intros Hwin Hd. apply session_run_total; [apply new_game_inv|done|done].
Qed.

Lemma X20_session_returns_witness :
  exists final rng' drawn,
    run 13 (new_game 6 5, fun _ => 0) [session_opening; [MOUSEBUTTONDOWN 1 (101, 5)]]
      = Ok (final, rng', drawn).
Proof.
  apply (X20_session_returns 6 5 13 (fun _ => 0)).
  - repeat constructor; vm_compute; discriminate.
  - vm_compute. lia.
Defined.

(** X21: in a game started by [Game(w, h)], as long as [_running] is true
    no revealed tile is a mine, whatever in-window events were handled. *)
Theorem X21_running_shows_no_mine (w h : Z) (depth : nat) (rng rng' : RNG)
    (events : list Event) (s' : Game) :
  Forall (in_window (new_game w h)) events ->
  handle_events depth (new_game w h, rng) events = Ok (s', rng') ->
  _running s' = true ->
  forall q t, interior w h q -> tile_at (tilemap s') q = Some t ->
    Tile.isRevealed t = true -> Tile.isMine t = false.
Proof.
  intros Hwin Hrun Halive.
  destruct (session_events_sound _ _ _ _ _ _ (new_game_inv w h) Hwin Hrun)
    as (Hinv & Hw & Hh & _).
  cbn [new_game _hTiles _vTiles] in Hw, Hh. rewrite <- Hw, <- Hh.
  by apply (inv_alive _ Hinv).
Qed.

Lemma X21_running_shows_no_mine_witness :
  _running session_opening_after = true /\
  forall q t, interior 6 5 q -> tile_at (tilemap session_opening_after) q = Some t ->
    Tile.isRevealed t = true -> Tile.isMine t = false.
Proof.
  split; [reflexivity|].
  apply (X21_running_shows_no_mine 6 5 13 (fun _ => 0) (fun _ => 0) session_opening).
  - repeat constructor; vm_compute; discriminate.
  - vm_compute. reflexivity.
  - reflexivity.
Defined.

(** X22: in a game started by [Game(w, h)] that gets no [QUIT] event,
    [_running] is false only with a revealed mine on the board. *)
Theorem X22_game_over_shows_mine (w h : Z) (depth : nat) (rng rng' : RNG)
    (events : list Event) (s' : Game) :
  Forall (in_window (new_game w h)) events -> QUIT ∉ events ->
  handle_events depth (new_game w h, rng) events = Ok (s', rng') ->
  _running s' = false ->
  exists q t, interior w h q /\ tile_at (tilemap s') q = Some t /\
    Tile.isRevealed t = true /\ Tile.isMine t = true.
Proof.
  intros Hwin Hq Hrun Hover.
  destruct (session_events_sound _ _ _ _ _ _ (new_game_inv w h) Hwin Hrun)
    as (_ & Hw & Hh & Hinv).
  cbn [new_game _hTiles _vTiles] in Hw, Hh. rewrite <- Hw, <- Hh.
  apply Hinv; [done| |done]. intros Hr. discriminate Hr.
Qed.

Lemma X22_game_over_shows_mine_witness :
  exists q t, interior 6 5 q /\ tile_at (tilemap session_lost_after) q = Some t /\
    Tile.isRevealed t = true /\ Tile.isMine t = true.
Proof.
  apply (X22_game_over_shows_mine 6 5 13 (fun _ => 0) (fun _ => 0) session_lost).
  - repeat constructor; vm_compute; discriminate.
  - intros Hin. repeat (apply elem_of_cons in Hin as [Hin | Hin]; [discriminate|]).
    by apply elem_of_nil in Hin.
  - vm_compute. reflexivity.
  - reflexivity.
Defined.

(** X23: in a game started by [Game(w, h)], after any in-window events:
    while [__minesSet] is false no tile is revealed and no tile is a mine,
    and once it is true every interior tile's [mines] is the number of
    mines among its neighbours, counted on the tiles [get_neighbour_tiles]
    returns and, what is the same, on the cells around the tile inside the
    ring. *)
Theorem X23_session_counts (w h : Z) (depth : nat) (rng rng' : RNG)
    (events : list Event) (s' : Game) :
  Forall (in_window (new_game w h)) events ->
  handle_events depth (new_game w h, rng) events = Ok (s', rng') ->
  (__minesSet s' = false -> untouched w h (tilemap s')) /\
  (__minesSet s' = true ->
     counts_ok w h (tilemap s') /\
     forall q t, interior w h q -> tile_at (tilemap s') q = Some t ->
       mines_around w h (tilemap s') q (Tile.mines t)).
Proof.
  intros Hwin Hrun.
  destruct (session_events_sound _ _ _ _ _ _ (new_game_inv w h) Hwin Hrun)
    as (Hinv & Hw & Hh & _).
  cbn [new_game _hTiles _vTiles] in Hw, Hh. rewrite <- Hw, <- Hh.
  split; [apply (inv_fresh _ Hinv)|]. intros Hset.
  pose proof (inv_counts _ Hinv Hset) as Hc. split; [done|].
  intros q t Hq Ht. by apply (counts_ok_around _ _ _ _ _ (inv_wf _ Hinv)).
Qed.

Lemma X23_session_counts_witness :
  (__minesSet session_lost_after = false -> untouched 6 5 (tilemap session_lost_after)) /\
  (__minesSet session_lost_after = true ->
     counts_ok 6 5 (tilemap session_lost_after) /\
     forall q t, interior 6 5 q -> tile_at (tilemap session_lost_after) q = Some t ->
       mines_around 6 5 (tilemap session_lost_after) q (Tile.mines t)).
Proof.
  apply (X23_session_counts 6 5 13 (fun _ => 0) (fun _ => 0) session_lost).
  - repeat constructor; vm_compute; discriminate.
  - vm_compute. reflexivity.
Defined.

(** X24: in a game started by [Game(w, h)], after any in-window events
    every revealed tile whose [mines] is 0 has all its neighbours
    revealed: the opened region is closed, across the whole session. *)
Theorem X24_session_opened (w h : Z) (depth : nat) (rng rng' : RNG)
    (events : list Event) (s' : Game) :
  Forall (in_window (new_game w h)) events ->
  handle_events depth (new_game w h, rng) events = Ok (s', rng') ->
  forall z t, interior w h z -> tile_at (tilemap s') z = Some t ->
    Tile.isRevealed t = true -> Tile.mines t = 0 ->
    forall q, q ∈ neighbours w h z ->
      exists tq, tile_at (tilemap s') q = Some tq /\ Tile.isRevealed tq = true.
Proof.
  intros Hwin Hrun z t Hz Ht Hrev Hm q Hq.
  destruct (session_events_sound _ _ _ _ _ _ (new_game_inv w h) Hwin Hrun)
    as (Hinv & Hw & Hh & _).
  cbn [new_game _hTiles _vTiles] in Hw, Hh.
  pose proof (inv_wf _ Hinv) as Hwf. pose proof (inv_opened _ Hinv) as Hopen.
  rewrite Hw, Hh in Hwf, Hopen.
  destruct (neighbours_interior w h z q Hz Hq) as [Hqi _].
  apply (wf_revealed w h _ q Hwf Hqi). by apply (Hopen z t).
Qed.

Lemma X24_session_opened_witness :
  handle_events 13 (new_game 6 5, fun _ => 0) session_opening
    = Ok (session_opening_after, fun _ => 0) /\
  forall z t, interior 6 5 z -> tile_at (tilemap session_opening_after) z = Some t ->
    Tile.isRevealed t = true -> Tile.mines t = 0 ->
    forall q, q ∈ neighbours 6 5 z ->
      exists tq, tile_at (tilemap session_opening_after) q = Some tq /\
        Tile.isRevealed tq = true.
Proof.
  split; [vm_compute; reflexivity|].
  apply (X24_session_opened 6 5 13 (fun _ => 0) (fun _ => 0) session_opening).
  - repeat constructor; vm_compute; discriminate.
  - vm_compute. reflexivity.
Defined.

(** ** [run] and what it draws *)

Lemma foldM_app {A B} (f : A -> B -> result A) (l1 l2 : list B) (a : A) :
  foldM f a (l1 ++ l2) = let* a' := foldM f a l1 in foldM f a' l2.
Proof.
  revert a. induction l1 as [|x l1 IH]; intros a; cbn [foldM app bind]; [done|].
  destruct (f a x); cbn [bind]; auto.
Qed.

(** X25: when [run] returns it has handled the events of the first [k]
    frames, in order, and of no other; it has drawn once for each of
    them; frames are left over only when [_running] has become false; and
    the last drawing shows the final state, so the frame in which the game
    ended is still drawn. *)
Theorem X25_run_handles_prefix (depth : nat) (acc final : Game * RNG)
    (frames : list (list Event)) (drawn : list (list DrawCmd)) :
  run depth acc frames = Ok (final, drawn) ->
  exists k : nat,
    (k <= length frames)%nat /\ length drawn = k /\
    handle_events depth acc (concat (take k frames)) = Ok final /\
    ((k < length frames)%nat -> _running final.1 = false) /\
    (forall d, last drawn = Some d -> d = draw_frame final.1).
Proof.
  revert acc final drawn.
  induction frames as [|events rest IH]; intros acc final drawn Hrun; cbn [run] in Hrun.
  - injection Hrun as <- <-. exists 0%nat. cbn. repeat split; [lia|lia|done].
  - destruct (_running acc.1) eqn:Hr.
    + apply bind_Ok in Hrun as (acc' & H1 & Hrun).
      apply bind_Ok in Hrun as ([final' drawn'] & H2 & [= <- <-]).
      destruct (IH _ _ _ H2) as (k & Hk & Hlen & Hev & Hleft & Hlast).
      exists (S k). cbn [length firstn concat]. split; [lia|]. split; [lia|]. split.
      { unfold handle_events in *. rewrite foldM_app, H1. done. }
      split; [intros ?; apply Hleft; lia|].
      destruct drawn' as [|d' ds].
      * cbn [length] in Hlen. subst k. cbn in Hev. injection Hev as <-.
        intros d [= <-]. done.
      * intros d. rewrite last_cons_cons. apply Hlast.
    + injection Hrun as <- <-. exists 0%nat. cbn [length firstn concat last].
      split; [lia|]. split; [done|]. split; [done|]. split; [done|]. done.
Qed.

Lemma X25_run_handles_prefix_witness :
  exists k : nat,
    (k <= length mine_frames)%nat /\
    length [draw_frame mine_game_after] = k /\
    handle_events 3 (mine_game, fun _ => 1)
      (concat (take k mine_frames))
      = Ok (mine_game_after, fun _ => 1) /\
    ((k < length mine_frames)%nat ->
     _running (mine_game_after, fun _ : nat => 1).1 = false) /\
    (forall d, last [draw_frame mine_game_after] = Some d ->
       d = draw_frame (mine_game_after, fun _ : nat => 1).1).
Proof.
  apply (X25_run_handles_prefix 3 (mine_game, fun _ => 1)). reflexivity.
Defined.

Lemma draw_cell_look (s s' : Game) (o o' : option Tile.t) :
  tilesize s' = tilesize s -> option_Forall2 same_look o o' ->
  draw_cell s' o' = draw_cell s o.
Proof.
  intros Hts [t t' (Hpos & Hfl & Hrev & Hm)|]; [|done].
  unfold draw_cell, draw_pos, color. by rewrite Hts, Hpos, Hfl, Hrev, Hm.
Qed.

(** X26: what [run] draws does not depend on where the mines are: two
    states whose tiles agree on every field but [isMine] give the same
    drawing commands, also once the game is over. *)
Theorem X26_draw_hides_mines (s : Game) (g' : Grid) :
  look_alike (tilemap s) g' -> draw_frame (with_tilemap g' s) = draw_frame s.
Proof.
  intros Hlook. unfold draw_frame. cbn [tilemap with_tilemap]. do 2 f_equal.
  induction Hlook as [|row row' g g2 Hrow _ IH]; [done|].
  cbn [mbind list_bind]. f_equal; [|exact IH]. clear IH.
  induction Hrow as [|o o' r r' Ho _ IH]; [done|].
  cbn [mbind list_bind]. f_equal; [|exact IH]. by apply draw_cell_look.
Qed.

Lemma X26_draw_hides_mines_witness :
  draw_frame (with_tilemap mine_board_swapped mine_game) = draw_frame mine_game.
Proof.
  apply (X26_draw_hides_mines mine_game mine_board_swapped).
  repeat constructor.
Defined.

(** X27: the colour of a tile tells whether it is revealed and whether
    [x + y] is even, and nothing else: the four colours are distinct. *)
Theorem X27_color_tells (t t' : Tile.t) :
  color t = color t' <->
  Tile.isRevealed t = Tile.isRevealed t' /\
  Z.even (Vec2.x (Tile.pos t) + Vec2.y (Tile.pos t))
  = Z.even (Vec2.x (Tile.pos t') + Vec2.y (Tile.pos t')).
Proof.
  unfold color. rewrite !Zmod_even.
  destruct (Tile.isRevealed t), (Tile.isRevealed t'),
    (Z.even (Vec2.x (Tile.pos t) + Vec2.y (Tile.pos t))),
    (Z.even (Vec2.x (Tile.pos t') + Vec2.y (Tile.pos t')));
    cbn; split; (intros [? ?] || intros ?); done.
Qed.

(** X28: on a grid of the shape [init_tilemap] builds, with the tile size
    of 32, every rectangle [run] draws lies inside the display [__init__]
    opens, which is [32 * (w - 2)] by [32 * (h - 2)], and every number is
    placed at a point of it. *)
Theorem X28_drawn_in_display (s : Game) (cmd : DrawCmd) :
  tilesize s = 32 -> wf (_hTiles s) (_vTiles s) (tilemap s) ->
  cmd ∈ draw_frame s ->
  in_display (32 * (_hTiles s - 2)) (32 * (_vTiles s - 2)) cmd.
Proof.
  intros Hts [Hlen Hrows] Hin. unfold draw_frame in Hin.
  apply elem_of_app in Hin as [Hin | Hin];
    [by apply list_elem_of_singleton in Hin as ->|].
  apply elem_of_app in Hin as [Hin | Hin];
    [|by apply list_elem_of_singleton in Hin as ->].
  apply list_elem_of_bind in Hin as (row & Hin & Hrow).
  apply list_elem_of_bind in Hin as (o & Hin & Ho).
  apply list_elem_of_lookup in Hrow as [r Hr]. apply list_elem_of_lookup in Ho as [c Hc].
  destruct (Hrows r row Hr) as [Hlenr Hcells]. specialize (Hcells c o Hc).
  pose proof (lookup_lt_Some _ _ _ Hr) as Hrlt. pose proof (lookup_lt_Some _ _ _ Hc) as Hclt.
  rewrite Hlen in Hrlt. rewrite Hlenr in Hclt.
  destruct (border _ _ _ _) eqn:Hb; [subst o; by apply elem_of_nil in Hin|].
  apply border_false_iff in Hb. destruct Hcells as (t & -> & Hpos).
  unfold draw_cell, draw_pos, draw_text in Hin. rewrite Hts, Hpos in Hin.
  cbn [Vec2.xy Vec2.sub Vec2.mul Vec2.add Vec2.x Vec2.y fst snd] in Hin.
  apply elem_of_app in Hin as [Hin | Hin].
  { apply list_elem_of_singleton in Hin as ->. cbn [in_display]. lia. }
  apply elem_of_app in Hin as [Hin | Hin].
  - destruct (Tile.flagged t); [|by apply elem_of_nil in Hin].
    apply list_elem_of_singleton in Hin as ->. cbn [in_display]. lia.
  - destruct (negb (Tile.isRevealed t) || (Tile.mines t =? 0));
      [by apply elem_of_nil in Hin|].
    apply list_elem_of_singleton in Hin as ->.
    cbn [in_display Vec2.xy Vec2.add Vec2.x Vec2.y]. lia.
Qed.

Lemma X28_drawn_in_display_witness :
  in_display (32 * (_hTiles mine_game_after - 2)) (32 * (_vTiles mine_game_after - 2))
    (Text (str 1) (255, 255, 255) (40, 0)).
Proof.
  apply (X28_drawn_in_display mine_game_after).
  - reflexivity.
  - apply wfb_wf. vm_compute. reflexivity.
  - vm_compute. do 3 right. left.
Defined.
